(** * Agent support tools: configuration, mail store and process manager

    A shallow embedding of

      - [src/config.py]                       ([Module Config]),
      - [scripts/mcp-servers/mcp_mail.py]      ([Module Mail]),
      - [scripts/mcp-servers/mcp_processes.py] ([Module Proc]),

    together with the properties of their operations.

    Python values are modelled as follows.  Strings are [string] (a
    sequence of bytes, the UTF-8 encoding of the Python text; the order
    on byte sequences is the order Python uses on code points).  Integers
    are [Z].  JSON documents are the inductive type [json]; a JSON object
    is an association list in insertion order, which is what a Python
    [dict] is.  A directory of JSON files is a finite map from path to
    file.  Operations that read the clock, draw identifiers or talk to
    the operating system take the answers from an explicit environment. *)

From Stdlib Require Import ZArith List Ascii String DecimalString.
From Stdlib Require Import Sorting.Sorted Sorting.Permutation Lia.
From stdpp Require Import gmap strings list fin_maps.

Local Open Scope Z_scope.

(* ===================================================================== *)
(** * Python strings *)
(* ===================================================================== *)

Module Str.

(** The newline character of ["\n"]. *)
Definition nl : string := String (ascii_of_nat 10) "".

(** [str(n)] for an integer: f-strings format integers in decimal. *)
Definition of_Z (z : Z) : string := NilZero.string_of_int (Z.to_int z).
Definition of_nat (n : nat) : string := of_Z (Z.of_nat n).

(** [s.startswith(p)]. *)
Fixpoint startswith (p s : string) : bool :=
  match p, s with
  | EmptyString, _ => true
  | String a p', String b s' => Ascii.eqb a b && startswith p' s'
  | String _ _, EmptyString => false
  end.

(** [s.endswith(p)]. *)
Fixpoint endswith (p s : string) : bool :=
  String.eqb p s ||
  match s with
  | EmptyString => false
  | String _ s' => endswith p s'
  end.

(** [needle in hay] on strings: substring test. *)
Fixpoint contains (needle hay : string) : bool :=
  startswith needle hay ||
  match hay with
  | EmptyString => false
  | String _ hay' => contains needle hay'
  end.

(** [s[n:]]. *)
Fixpoint drop (n : nat) (s : string) : string :=
  match n, s with
  | O, _ => s
  | S n', String _ s' => drop n' s'
  | S _, EmptyString => EmptyString
  end.

Definition is_ascii_upper (c : ascii) : bool :=
  let n := nat_of_ascii c in (65 <=? n)%nat && (n <=? 90)%nat.
Definition is_ascii_lower (c : ascii) : bool :=
  let n := nat_of_ascii c in (97 <=? n)%nat && (n <=? 122)%nat.

Definition lower_char (c : ascii) : ascii :=
  if is_ascii_upper c then ascii_of_nat (nat_of_ascii c + 32) else c.

(** [s.lower()], on ASCII letters. *)
Fixpoint lower (s : string) : string :=
  match s with
  | EmptyString => EmptyString
  | String c s' => String (lower_char c) (lower s')
  end.

Fixpoint forallb (f : ascii -> bool) (s : string) : bool :=
  match s with
  | EmptyString => true
  | String c s' => f c && forallb f s'
  end.

Fixpoint existsb (f : ascii -> bool) (s : string) : bool :=
  match s with
  | EmptyString => false
  | String c s' => f c || existsb f s'
  end.

(** [s.isupper()]: no cased character is lower case and there is at
    least one cased character (ASCII letters are the cased characters
    of an identifier). *)
Definition isupper (s : string) : bool :=
  forallb (fun c => negb (is_ascii_lower c)) s && existsb is_ascii_upper s.

(** [sep.join(l)]. *)
Fixpoint join (sep : string) (l : list string) : string :=
  match l with
  | [] => ""
  | [x] => x
  | x :: l' => x +:+ sep +:+ join sep l'
  end.

(** The characters of ["\n"] and ["\r"]. *)
Definition lf : ascii := ascii_of_nat 10.
Definition cr : ascii := ascii_of_nat 13.

Definition is_ascii (c : ascii) : bool := (nat_of_ascii c <? 128)%nat.

(** The white space [s.strip()] removes, among ASCII characters: tab,
    line feed, vertical tab, form feed, carriage return, the four
    separators 28 to 31, and the space. *)
Definition is_space (c : ascii) : bool :=
  let n := nat_of_ascii c in
  ((9 <=? n)%nat && (n <=? 13)%nat) || ((28 <=? n)%nat && (n <=? 32)%nat).

(** [s.lstrip()], [s.rstrip()] and [s.strip()], for text whose white
    space is ASCII. *)
Fixpoint lstrip (s : string) : string :=
  match s with
  | EmptyString => EmptyString
  | String c s' => if is_space c then lstrip s' else s
  end.

Fixpoint rstrip (s : string) : string :=
  match s with
  | EmptyString => EmptyString
  | String c s' =>
      match rstrip s' with
      | EmptyString => if is_space c then EmptyString else String c EmptyString
      | String _ _ as r => String c r
      end
  end.

Definition strip (s : string) : string := rstrip (lstrip s).

(** [s.split(sep)] for a separator of one character: the fields
    between the separators, at least one. *)
Fixpoint split (sep : ascii) (s : string) : list string :=
  match s with
  | EmptyString => [EmptyString]
  | String c s' =>
      if Ascii.eqb c sep then EmptyString :: split sep s'
      else match split sep s' with
           | [] => [String c EmptyString]
           | field :: fields => String c field :: fields
           end
  end.

(** What a file opened in text mode yields for its content: the line
    ends ["\r\n"] and ["\r"] are read as ["\n"]. *)
Fixpoint universal_newlines (s : string) : string :=
  match s with
  | EmptyString => EmptyString
  | String c s' =>
      if Ascii.eqb c cr then
        String lf
          match s' with
          | String c' s'' =>
              if Ascii.eqb c' lf then universal_newlines s''
              else universal_newlines s'
          | EmptyString => EmptyString
          end
      else String c (universal_newlines s')
  end.

(** [f.readlines()] on the text of a file: the lines with their line
    end, the last one without when the text does not end in one. *)
Fixpoint readlines (s : string) : list string :=
  match s with
  | EmptyString => []
  | String c s' =>
      if Ascii.eqb c lf then String c EmptyString :: readlines s'
      else match readlines s' with
           | [] => [String c EmptyString]
           | line :: lines => String c line :: lines
           end
  end.

End Str.

(* ===================================================================== *)
(** * Results of Python calls *)
(* ===================================================================== *)

(** The exceptions the modelled code can raise. *)
Inductive exn : Type :=
  | KeyError (key : string)
  | TypeError
  | AttributeError
  | OverflowError
  | OSError
  | UnicodeDecodeError
  | ValueError (msg : string).

(** A call returns a value or raises.  [Unmodelled] marks the few inputs
    on which the behaviour of CPython is outside this development (it is
    never the conclusion of a theorem). *)
Inductive outcome (A : Type) : Type :=
  | Ok (a : A)
  | Raise (e : exn)
  | Unmodelled.
Arguments Ok {A} a.
Arguments Raise {A} e.
Arguments Unmodelled {A}.

Definition obind {A B : Type} (x : outcome A) (f : A -> outcome B) : outcome B :=
  match x with
  | Ok a => f a
  | Raise e => Raise e
  | Unmodelled => Unmodelled
  end.

Notation "x <- e1 ;;; e2" := (obind e1 (fun x => e2))
  (at level 100, e1 at next level, right associativity).

(* ===================================================================== *)
(** * Configuration ([src/config.py]) *)
(* ===================================================================== *)

Module Config.

(** Values of class attributes: the settings are strings, integers,
    booleans, lists of strings and optional strings ([None]); the class
    also has methods. *)
Inductive value : Type :=
  | VStr (s : string)
  | VInt (z : Z)
  | VBool (b : bool)
  | VList (l : list string)
  | VNone
  | VMethod.

(** The class attributes that [validate] reads. *)
Record config : Type := {
  ENVIRONMENT : string;
  API_PORT : Z;
  API_WORKERS : Z;
  TELEMETRY_ENABLED : bool;
  HONEYCOMB_API_KEY : string;
  MAX_FILE_SIZE_MB : Z;
  LOG_LEVEL : string;
  CACHE_TYPE : string;
  CACHE_REDIS_URL : option string
}.

Inductive log_record : Type :=
  | LogWarning (msg : string)
  | LogInfo (msg : string).

Definition valid_environments : list string :=
  ["development"; "staging"; "production"; "test"].
Definition valid_log_levels : list string :=
  ["DEBUG"; "INFO"; "WARNING"; "ERROR"; "CRITICAL"].
Definition valid_cache_types : list string :=
  ["memory"; "redis"; "memcached"].

(** [x in l] for a list of strings. *)
Definition str_in (x : string) (l : list string) : bool :=
  List.existsb (String.eqb x) l.

(** [repr] of a list of plain strings, as an f-string prints it. *)
Definition repr_list (l : list string) : string :=
  "[" +:+ Str.join ", " (List.map (fun s => "'" +:+ s +:+ "'") l) +:+ "]".

(** Truth value of an [Optional[str]]. *)
Definition truthy_opt (o : option string) : bool :=
  match o with
  | Some s => negb (String.eqb s "")
  | None => false
  end.

(** The seven checks of [validate], in source order; each is [true]
    when the rule is violated. *)
Definition bad_port (cls : config) : bool :=
  (API_PORT cls <? 1) || (API_PORT cls >? 65535).
Definition bad_workers (cls : config) : bool := API_WORKERS cls <? 1.
Definition bad_environment (cls : config) : bool :=
  negb (str_in (ENVIRONMENT cls) valid_environments).
Definition bad_log_level (cls : config) : bool :=
  negb (str_in (LOG_LEVEL cls) valid_log_levels).
Definition bad_file_size (cls : config) : bool :=
  (MAX_FILE_SIZE_MB cls <? 1) || (MAX_FILE_SIZE_MB cls >? 1000).
Definition bad_cache_type (cls : config) : bool :=
  negb (str_in (CACHE_TYPE cls) valid_cache_types).
Definition bad_redis_url (cls : config) : bool :=
  String.eqb (CACHE_TYPE cls) "redis" && negb (truthy_opt (CACHE_REDIS_URL cls)).

Definition when (b : bool) (msg : string) : list string :=
  if b then [msg] else [].

(** The list [errors] at the end of [validate]. *)
Definition errors (cls : config) : list string :=
  when (bad_port cls) ("Invalid API_PORT: " +:+ Str.of_Z (API_PORT cls)) ++
  when (bad_workers cls)
    ("API_WORKERS must be at least 1, got " +:+ Str.of_Z (API_WORKERS cls)) ++
  when (bad_environment cls)
    ("ENVIRONMENT must be one of " +:+ repr_list valid_environments +:+
     ", got " +:+ ENVIRONMENT cls) ++
  when (bad_log_level cls)
    ("LOG_LEVEL must be one of " +:+ repr_list valid_log_levels +:+
     ", got " +:+ LOG_LEVEL cls) ++
  when (bad_file_size cls)
    ("MAX_FILE_SIZE_MB must be between 1 and 1000, got " +:+
     Str.of_Z (MAX_FILE_SIZE_MB cls)) ++
  when (bad_cache_type cls)
    ("CACHE_TYPE must be one of " +:+ repr_list valid_cache_types +:+
     ", got " +:+ CACHE_TYPE cls) ++
  when (bad_redis_url cls) "CACHE_REDIS_URL must be set when using Redis cache".

Definition telemetry_warning (cls : config) : list log_record :=
  if TELEMETRY_ENABLED cls && String.eqb (HONEYCOMB_API_KEY cls) ""
  then [LogWarning "Telemetry is enabled but HONEYCOMB_API_KEY is not set"]
  else [].

Definition failure_message (errs : list string) : string :=
  "Configuration validation failed:" +:+ Str.nl +:+
  Str.join Str.nl (List.map (fun e => "  - " +:+ e) errs).

(** [Config.validate]: the records sent to the logger, and the result. *)
Definition validate (cls : config) : list log_record * outcome unit :=
  let errs := errors cls in
  match errs with
  | [] =>
      (telemetry_warning cls ++
       [LogInfo ("Configuration validated successfully for " +:+
                 ENVIRONMENT cls +:+ " environment")],
       Ok tt)
  | _ :: _ =>
      (telemetry_warning cls, Raise (ValueError (failure_message errs)))
  end.

(** The namespace [dir(cls)] walks: attribute names with their values. *)
Definition namespace : Type := list (string * value).

Definition sensitive_words : list string := ["key"; "secret"; "password"; "token"].

(** [any(sensitive in key.lower() for sensitive in [...])]. *)
Definition is_sensitive (key : string) : bool :=
  List.existsb (fun sensitive => Str.contains sensitive (Str.lower key)) sensitive_words.

(** [[f"***REDACTED{i}***" for i in range(len(value))]]. *)
Definition redacted_list (n : nat) : list string :=
  List.map (fun i => "***REDACTED" +:+ Str.of_nat i +:+ "***") (seq 0 n).

(** The value stored under a sensitive key. *)
Definition redact (v : value) : value :=
  match v with
  | VStr s => if String.eqb s "" then v else VStr "***REDACTED***"
  | VList l => match l with [] => v | _ :: _ => VList (redacted_list (List.length l)) end
  | _ => v
  end.

Definition exported (key : string) : bool :=
  Str.isupper key && negb (Str.startswith "_" key).

(** [Config.to_dict] over the namespace of the class. *)
Fixpoint to_dict (ns : namespace) : namespace :=
  match ns with
  | [] => []
  | (key, v) :: ns' =>
      if exported key
      then (key, if is_sensitive key then redact v else v) :: to_dict ns'
      else to_dict ns'
  end.

(** Lookup in a namespace or exported dictionary. *)
Fixpoint get (key : string) (ns : namespace) : option value :=
  match ns with
  | [] => None
  | (k, v) :: ns' => if String.eqb k key then Some v else get key ns'
  end.

(** A list setting read from the environment,
    [[t.strip() for t in raw.split(",") if t.strip()]], as for
    [API_TOKENS], [CORS_ORIGINS] and [ALLOWED_FILE_EXTENSIONS]. *)
Definition env_list (raw : string) : list string :=
  List.map Str.strip
    (List.filter (fun t => negb (String.eqb (Str.strip t) "")) (Str.split "," raw)).

Definition get_max_file_size_bytes (cls : config) : Z :=
  MAX_FILE_SIZE_MB cls * 1024 * 1024.

Definition is_production (cls : config) : bool :=
  String.eqb (ENVIRONMENT cls) "production".

Definition is_development (cls : config) : bool :=
  String.eqb (ENVIRONMENT cls) "development".

End Config.

(* ===================================================================== *)
(** * JSON documents *)
(* ===================================================================== *)

(** What [json.load] returns.  [JNull] is Python's [None].  Numbers are
    integers: no field the servers write or inspect is a float. *)
#[warnings="-register-all"]
Inductive json : Type :=
  | JNull
  | JBool (b : bool)
  | JInt (z : Z)
  | JStr (s : string)
  | JList (l : list json)
  | JObj (kv : list (string * json)).

Module Dict.

(** [d.get(k)] on the items of a dict ([None] of [option] when absent). *)
Fixpoint get (k : string) (kv : list (string * json)) : option json :=
  match kv with
  | [] => None
  | (k', v) :: kv' => if String.eqb k' k then Some v else get k kv'
  end.

(** [d[k] = v]: an existing key keeps its position, a new key goes last. *)
Fixpoint set (k : string) (v : json) (kv : list (string * json)) : list (string * json) :=
  match kv with
  | [] => [(k, v)]
  | (k', v') :: kv' =>
      if String.eqb k' k then (k', v) :: kv' else (k', v') :: set k v kv'
  end.

(** [d[k] = f(d[k])] for a key that is present: the value under [k] is
    changed in place. *)
Fixpoint update (k : string) (f : json -> json) (kv : list (string * json))
  : list (string * json) :=
  match kv with
  | [] => []
  | (k', v) :: kv' =>
      if String.eqb k' k then (k', f v) :: kv' else (k', v) :: update k f kv'
  end.

End Dict.

(** Truth value of a Python object ([if x:], [not x]). *)
Definition truthy (x : json) : bool :=
  match x with
  | JNull => false
  | JBool b => b
  | JInt z => negb (z =? 0)
  | JStr s => negb (String.eqb s "")
  | JList l => match l with [] => false | _ :: _ => true end
  | JObj kv => match kv with [] => false | _ :: _ => true end
  end.

(** [x.get(k)]: [None] when the key is absent; only dicts have [get]. *)
Definition py_get (k : string) (x : json) : outcome json :=
  match x with
  | JObj kv => Ok (default JNull (Dict.get k kv))
  | _ => Raise AttributeError
  end.

(** [x.get(k, d)]. *)
Definition py_get_or (k : string) (d : json) (x : json) : outcome json :=
  match x with
  | JObj kv => Ok (default d (Dict.get k kv))
  | _ => Raise AttributeError
  end.

(** [x[k]] for a string key [k]: [KeyError] on a dict without the key,
    [TypeError] on anything that is not a dict. *)
Definition py_index (k : string) (x : json) : outcome json :=
  match x with
  | JObj kv =>
      match Dict.get k kv with
      | Some v => Ok v
      | None => Raise (KeyError k)
      end
  | _ => Raise TypeError
  end.

(** [x[k] = v] for a string key [k]. *)
Definition py_setitem (k : string) (v : json) (x : json) : outcome json :=
  match x with
  | JObj kv => Ok (JObj (Dict.set k v kv))
  | _ => Raise TypeError
  end.

(** [a == b] where [a] is a string: only an equal string is equal. *)
Definition eq_str (s : string) (x : json) : bool :=
  match x with
  | JStr s' => String.eqb s' s
  | _ => false
  end.

(** [s in x] for a string [s]: membership in a list, key of a dict,
    substring of a string; other objects are not containers. *)
Definition py_in (s : string) (x : json) : outcome bool :=
  match x with
  | JList l => Ok (List.existsb (eq_str s) l)
  | JObj kv => Ok (List.existsb (fun p => String.eqb (fst p) s) kv)
  | JStr t => Ok (Str.contains s t)
  | _ => Raise TypeError
  end.

(* ===================================================================== *)
(** * Logging configuration ([Config.get_log_config]) *)
(* ===================================================================== *)

Module ConfigLogging.

(** The class attributes that only [get_log_config] reads. *)
Record log_attrs : Type := {
  LOG_FORMAT : string;
  LOG_FILE : option string
}.

Definition on_dict (f : list (string * json) -> list (string * json)) (x : json)
  : json :=
  match x with
  | JObj kv => JObj (f kv)
  | _ => x
  end.

(** [l.append(x)]. *)
Definition append (x : json) (l : json) : json :=
  match l with
  | JList xs => JList (xs ++ [x])
  | _ => l
  end.

Definition file_handler (cls : Config.config) (la : log_attrs) (filename : string)
  : json :=
  JObj [("class", JStr "logging.handlers.RotatingFileHandler");
        ("formatter", JStr (LOG_FORMAT la));
        ("filename", JStr filename);
        ("maxBytes", JInt 10485760);
        ("backupCount", JInt 5);
        ("level", JStr (Config.LOG_LEVEL cls))].

(** [Config.get_log_config]: the dictionary for [logging.config]. *)
Definition get_log_config (cls : Config.config) (la : log_attrs) : json :=
  let config :=
    [("version", JInt 1);
     ("disable_existing_loggers", JBool false);
     ("formatters",
      JObj [("json",
             JObj [("()", JStr "pythonjsonlogger.jsonlogger.JsonFormatter");
                   ("format", JStr "%(asctime)s %(name)s %(levelname)s %(message)s")]);
            ("text",
             JObj [("format",
                    JStr "%(asctime)s - %(name)s - %(levelname)s - %(message)s")])]);
     ("handlers",
      JObj [("console",
             JObj [("class", JStr "logging.StreamHandler");
                   ("formatter", JStr (LOG_FORMAT la));
                   ("level", JStr (Config.LOG_LEVEL cls))])]);
     ("root",
      JObj [("level", JStr (Config.LOG_LEVEL cls));
            ("handlers", JList [JStr "console"])])] in
  match LOG_FILE la with
  | Some filename =>
      if String.eqb filename "" then JObj config
      else
        (* config["handlers"]["file"] = {...} *)
        let config :=
          Dict.update "handlers"
            (on_dict (Dict.set "file" (file_handler cls la filename))) config in
        (* config["root"]["handlers"].append("file") *)
        let config :=
          Dict.update "root"
            (on_dict (Dict.update "handlers" (append (JStr "file")))) config in
        JObj config
  | None => JObj config
  end.

End ConfigLogging.

(* ===================================================================== *)
(** * [list.sort(key=..., reverse=True)] *)
(* ===================================================================== *)

Module Sort.

(** Insertion into a list that is in descending key order.  The new
    element goes in front of the first element whose key is not
    greater, so it precedes the elements with an equal key. *)
Fixpoint insert_desc {A : Type} (p : string * A) (l : list (string * A))
  : list (string * A) :=
  match l with
  | [] => [p]
  | q :: l' =>
      if String.ltb (fst p) (fst q) then q :: insert_desc p l' else p :: l
  end.

(** Descending stable sort of decorated elements: elements with equal
    keys keep their original order, as with [reverse=True]. *)
Fixpoint sort_desc {A : Type} (l : list (string * A)) : list (string * A) :=
  match l with
  | [] => []
  | p :: l' => insert_desc p (sort_desc l')
  end.

Definition as_str (k : json) : option string :=
  match k with
  | JStr s => Some s
  | _ => None
  end.

Definition is_str (k : json) : bool :=
  match k with JStr _ => true | _ => false end.

(** Keys that compare with nothing, not even with their own kind. *)
Definition unorderable (k : json) : bool :=
  match k with JNull | JObj _ => true | _ => false end.

(** The keys are computed first, in list order. *)
Fixpoint keys (keyf : json -> outcome json) (l : list json) : outcome (list json) :=
  match l with
  | [] => Ok []
  | x :: l' =>
      k <- keyf x ;;;
      ks <- keys keyf l' ;;;
      Ok (k :: ks)
  end.

Fixpoint str_keys (ks : list json) : option (list string) :=
  match ks with
  | [] => Some []
  | k :: ks' =>
      match as_str k, str_keys ks' with
      | Some s, Some ss => Some (s :: ss)
      | _, _ => None
      end
  end.

(** [l.sort(key=keyf, reverse=True)].  With string keys the result is
    the stable descending sort.  A list of fewer than two elements is
    not compared at all.  Otherwise some comparison meets a key that is
    not a string: if a key is [None] or a dict, or strings are mixed
    with other keys, CPython raises [TypeError]; lists whose keys are
    all numbers or arrays are not modelled. *)
Definition py_sort_desc (keyf : json -> outcome json) (l : list json)
  : outcome (list json) :=
  ks <- keys keyf l ;;;
  match str_keys ks with
  | Some ss => Ok (List.map snd (sort_desc (List.combine ss l)))
  | None =>
      if (List.length l <? 2)%nat then Ok l
      else if List.existsb unorderable ks || List.existsb is_str ks
           then Raise TypeError
           else Unmodelled
  end.

End Sort.

(* ===================================================================== *)
(** * The world of the two servers *)
(* ===================================================================== *)

(** A file of a JSON directory, by what [open] and [json.load] do with
    it: the text parses to a document; the text is not JSON
    ([json.JSONDecodeError]); the file cannot be opened for reading
    ([IOError]: no read permission); or its bytes are not text in the
    encoding of [open], so that reading them raises [UnicodeDecodeError],
    which is a [ValueError] but neither a [json.JSONDecodeError] nor an
    [IOError].  Every entry is a regular file of a writable directory:
    it can be overwritten and it can be removed, whatever it holds.  A
    directory among the entries, which [open] and [unlink] refuse, is
    outside this development.  [json.dump] followed by [json.load] gives
    the document back. *)
Inductive file : Type :=
  | FJson (j : json)
  | FCorrupt
  | FUnreadable
  | FUndecodable.

Inductive signal : Type := SIG0 | SIGTERM | SIGKILL.

(** The calls made to the operating system, in the order made. *)
Inductive event : Type :=
  | EvKill (pid : Z) (sig : signal)
  | EvGetpgid (pid : Z)
  | EvKillpg (pgid : Z) (sig : signal)
  | EvSleep (seconds : Z)
  | EvPopen (command cwd log_file : string).

(** The environment: every answer of the operating system is a function
    of its state [E] and yields the next state, so processes may start
    and exit at any moment.  A [false] or [None] answer is an [OSError]
    (of which [ProcessLookupError] is a subclass). *)
Record os_iface (E : Type) : Type := {
  os_uuid4 : E -> string * E;                 (* str(uuid.uuid4()) *)
  os_utcnow : E -> string * E;                (* datetime.utcnow().isoformat() *)
  os_kill : E -> Z -> signal -> bool * E;     (* os.kill(pid, sig) *)
  os_getpgid : E -> Z -> option Z * E;        (* os.getpgid(pid) *)
  os_killpg : E -> Z -> signal -> bool * E;   (* os.killpg(pgid, sig) *)
  os_sleep : E -> Z -> E;                     (* time.sleep(seconds) *)
  os_popen : E -> string -> string -> string -> (Z + string) * E
    (* subprocess.Popen(command, shell=True, cwd=cwd, stdout=log, ...):
       the pid, or str(e) of the exception raised *)
}.
Arguments os_uuid4 {E} _ _.
Arguments os_utcnow {E} _ _.
Arguments os_kill {E} _ _ _ _.
Arguments os_getpgid {E} _ _ _.
Arguments os_killpg {E} _ _ _ _.
Arguments os_sleep {E} _ _ _.
Arguments os_popen {E} _ _ _ _ _.

(** The three directories, each a map from entry name to content, the
    state of the environment and the calls made so far.  Writing a file
    succeeds (the directories exist and are writable).  A log is the
    text the file holds when a call reads it, text that can be read and
    decoded.  The server writes a log only when it creates it; what a
    spawned command appends to its log is the command's doing and is not
    part of the world, so the text of a log is not followed from one call
    to the next. *)
Record world (E : Type) : Type := World {
  mail : gmap string file;      (* /workspaces/.mail *)
  procs : gmap string file;     (* /workspaces/.processes *)
  logs : gmap string string;    (* /workspaces/.processes/logs *)
  env : E;
  trace : list event
}.
Arguments World {E} _ _ _ _ _.
Arguments mail {E} _.
Arguments procs {E} _.
Arguments logs {E} _.
Arguments env {E} _.
Arguments trace {E} _.

(** ** Calls that read and change the world *)

Definition M (E A : Type) : Type := world E -> outcome A * world E.

Definition ret {E A : Type} (a : A) : M E A := fun w => (Ok a, w).

Definition lift {E A : Type} (o : outcome A) : M E A := fun w => (o, w).

Definition bind {E A B : Type} (m : M E A) (k : A -> M E B) : M E B :=
  fun w =>
    match m w with
    | (Ok a, w') => k a w'
    | (Raise e, w') => (Raise e, w')
    | (Unmodelled, w') => (Unmodelled, w')
    end.

Notation "'let*' x := m 'in' k" := (bind m (fun x => k))
  (at level 10, x name, m at level 100, k at level 200).

(** [try: body except (OSError, ProcessLookupError): handler]. *)
Definition except_OSError {E A : Type} (body handler : M E A) : M E A :=
  fun w =>
    match body w with
    | (Raise OSError, w') => handler w'
    | r => r
    end.

Definition with_mail {E : Type} (f : gmap string file -> gmap string file)
  (w : world E) : world E :=
  World (f (mail w)) (procs w) (logs w) (env w) (trace w).
Definition with_procs {E : Type} (f : gmap string file -> gmap string file)
  (w : world E) : world E :=
  World (mail w) (f (procs w)) (logs w) (env w) (trace w).
Definition with_logs {E : Type} (f : gmap string string -> gmap string string)
  (w : world E) : world E :=
  World (mail w) (procs w) (f (logs w)) (env w) (trace w).

(** One call to the operating system: the environment moves on and the
    call is recorded. *)
Definition syscall {E A : Type} (ev : event) (r : A) (e' : E) (w : world E)
  : A * world E :=
  (r, World (mail w) (procs w) (logs w) e' (trace w ++ [ev])).

(** Reading the environment without a recorded call. *)
Definition ask {E A : Type} (f : E -> A * E) : M E A :=
  fun w =>
    let '(a, e') := f (env w) in
    (Ok a, World (mail w) (procs w) (logs w) e' (trace w)).

(** The name of a directory entry made from an identifier.  An
    identifier with a path separator names a file elsewhere; such
    identifiers are not modelled. *)
Definition entry_name (prefix id suffix : string) : outcome string :=
  if Str.contains "/" id then Unmodelled else Ok (prefix +:+ id +:+ suffix).

(** f-string formatting of a stored identifier; only strings are
    modelled. *)
Definition format_id (x : json) : outcome string :=
  match x with
  | JStr s => Ok s
  | _ => Unmodelled
  end.

(** [dir.glob(prefix + "*" + suffix)]: the entries of the directory with
    a matching name, in the order the directory is enumerated (which the
    operating system leaves unspecified; here, the order of
    [map_to_list]). *)
Definition glob_match (prefix suffix name : string) : bool :=
  Str.startswith prefix name &&
  Str.endswith suffix (Str.drop (String.length prefix) name) &&
  negb (Str.contains "/" name).

Definition glob (prefix suffix : string) (d : gmap string file)
  : list (string * file) :=
  List.filter (fun p => glob_match prefix suffix (fst p)) (map_to_list d).

(** [datetime.utcnow().isoformat() + "Z"]. *)
Definition utcnow_Z {E : Type} (os : os_iface E) : M E string :=
  let* t := ask (os_utcnow os) in ret (t +:+ "Z").

(** A [for] loop that appends one summary per element. *)
Fixpoint summaries (summary : json -> outcome json) (l : list json)
  : outcome (list json) :=
  match l with
  | [] => Ok []
  | x :: l' =>
      s <- summary x ;;;
      ss <- summaries summary l' ;;;
      Ok (s :: ss)
  end.

(* ===================================================================== *)
(** * Mail server ([scripts/mcp-servers/mcp_mail.py]) *)
(* ===================================================================== *)

Module Mail.
Section WithOS.
Context {E : Type} (os : os_iface E).

(** [MAIL_DIR / f"msg_{message_id}.json"], as an entry of [MAIL_DIR]. *)
Definition get_message_path (message_id : string) : outcome string :=
  entry_name "msg_" message_id ".json".

Definition generate_message_id : M E string := ask (os_uuid4 os).

(** [open(message_path, "w")] creates the file or overwrites the
    regular file of that name. *)
Definition save_message (message : json) : M E unit :=
  let* id := lift (py_index "id" message) in
  let* message_id := lift (format_id id) in
  let* message_path := lift (get_message_path message_id) in
  fun w => (Ok tt, with_mail (insert message_path (FJson message)) w).

(** Returns [JNull] for [None].  The handler catches
    [json.JSONDecodeError] and [IOError]; the [UnicodeDecodeError] of a
    file that is not text is neither and leaves the function. *)
Definition load_message (message_id : string) : M E json :=
  let* message_path := lift (get_message_path message_id) in
  fun w =>
    match mail w !! message_path with
    | None => (Ok JNull, w)
    | Some (FJson j) => (Ok j, w)
    | Some FCorrupt | Some FUnreadable => (Ok JNull, w)
    | Some FUndecodable => (Raise UnicodeDecodeError, w)
    end.

(** The documents of the files that load, in the order of the files:
    what the loop of [list_messages] collects when it does not raise. *)
Fixpoint load_all (files : list (string * file)) : list json :=
  match files with
  | [] => []
  | (_, FJson message) :: files' => message :: load_all files'
  | (_, FCorrupt) :: files' | (_, FUnreadable) :: files'
  | (_, FUndecodable) :: files' => load_all files'
  end.

(** The loop of [list_messages]: a file that is not JSON or cannot be
    read is skipped by the handler; a file that is not text ends the
    loop with [UnicodeDecodeError], which the handler does not catch. *)
Fixpoint load_loop (files : list (string * file)) : outcome (list json) :=
  match files with
  | [] => Ok []
  | (_, FJson message) :: files' =>
      messages <- load_loop files' ;;;
      Ok (message :: messages)
  | (_, FCorrupt) :: files' | (_, FUnreadable) :: files' => load_loop files'
  | (_, FUndecodable) :: _ => Raise UnicodeDecodeError
  end.

Definition list_messages : M E (list json) :=
  fun w =>
    (messages <- load_loop (glob "msg_" ".json" (mail w)) ;;;
     Sort.py_sort_desc (py_get_or "timestamp" (JStr "")) messages, w).

Definition mcp__mail_send (from_agent : string) (to_agents : list string)
  (subject body : string) : M E string :=
  let* message_id := generate_message_id in
  let* timestamp := utcnow_Z os in
  let message :=
    JObj [("id", JStr message_id);
          ("from", JStr from_agent);
          ("to", JList (List.map JStr to_agents));
          ("subject", JStr subject);
          ("body", JStr body);
          ("timestamp", JStr timestamp);
          ("read", JBool false)] in
  let* _ := save_message message in
  ret message_id.

Definition inbox_summary (message : json) : outcome json :=
  id <- py_index "id" message ;;;
  from <- py_index "from" message ;;;
  subject <- py_index "subject" message ;;;
  timestamp <- py_index "timestamp" message ;;;
  read <- py_get_or "read" (JBool false) message ;;;
  Ok (JObj [("id", id); ("from", from); ("subject", subject);
            ("timestamp", timestamp); ("read", read)]).

(** The loop of [mcp__mail_inbox]. *)
Fixpoint inbox_loop (to_agent : string) (all_messages : list json)
  : outcome (list json) :=
  match all_messages with
  | [] => Ok []
  | message :: rest =>
      to <- py_get_or "to" (JList []) message ;;;
      addressed <- py_in to_agent to ;;;
      if (addressed : bool) then
        summary <- inbox_summary message ;;;
        inbox <- inbox_loop to_agent rest ;;;
        Ok (summary :: inbox)
      else inbox_loop to_agent rest
  end.

Definition mcp__mail_inbox (to_agent : string) : M E (list json) :=
  let* all_messages := list_messages in
  lift (inbox_loop to_agent all_messages).

Definition not_found (message_id : string) : json :=
  JObj [("error", JStr ("Message " +:+ message_id +:+ " not found"))].

Definition mcp__mail_read (message_id : string) : M E json :=
  let* message := load_message message_id in
  if negb (truthy message) then ret (not_found message_id)
  else
    let* message := lift (py_setitem "read" (JBool true) message) in
    let* _ := save_message message in
    ret message.

(** [message_path.unlink()]: the entry, a regular file, is removed. *)
Definition unlink (message_path : string) : M E unit :=
  fun w => (Ok tt, with_mail (delete message_path) w).

(** The handler for [OSError] is for an entry that [unlink] cannot
    remove; the regular files of a writable directory are removed. *)
Definition mcp__mail_delete (message_id : string) : M E bool :=
  let* message_path := lift (get_message_path message_id) in
  fun w =>
    match mail w !! message_path with
    | None => (Ok false, w)
    | Some _ =>
        except_OSError (let* _ := unlink message_path in ret true) (ret false) w
    end.

Definition list_all_summary (message : json) : outcome json :=
  id <- py_index "id" message ;;;
  from <- py_index "from" message ;;;
  to <- py_index "to" message ;;;
  subject <- py_index "subject" message ;;;
  timestamp <- py_index "timestamp" message ;;;
  read <- py_get_or "read" (JBool false) message ;;;
  Ok (JObj [("id", id); ("from", from); ("to", to); ("subject", subject);
            ("timestamp", timestamp); ("read", read)]).

Definition mcp__mail_list_all : M E (list json) :=
  let* messages := list_messages in
  lift (summaries list_all_summary messages).

End WithOS.
End Mail.

(* ===================================================================== *)
(** * Process manager ([scripts/mcp-servers/mcp_processes.py]) *)
(* ===================================================================== *)

Module Proc.
Section WithOS.
Context {E : Type} (os : os_iface E).

Definition LOG_DIR : string := "/workspaces/.processes/logs".

(** [PROCESS_DIR / f"proc_{process_id}.json"], as an entry of
    [PROCESS_DIR]. *)
Definition get_process_path (process_id : string) : outcome string :=
  entry_name "proc_" process_id ".json".

(** [LOG_DIR / f"{process_id}.log"], as an entry of [LOG_DIR]. *)
Definition get_log_path (process_id : string) : outcome string :=
  entry_name "" process_id ".log".

Definition generate_process_id : M E string := ask (os_uuid4 os).

(** [open(process_path, "w")] creates the file or overwrites the
    regular file of that name. *)
Definition save_process (process_data : json) : M E unit :=
  let* id := lift (py_index "id" process_data) in
  let* process_id := lift (format_id id) in
  let* process_path := lift (get_process_path process_id) in
  fun w => (Ok tt, with_procs (insert process_path (FJson process_data)) w).

(** Returns [JNull] for [None].  The handler catches
    [json.JSONDecodeError] and [IOError]; the [UnicodeDecodeError] of a
    file that is not text is neither and leaves the function. *)
Definition load_process (process_id : string) : M E json :=
  let* process_path := lift (get_process_path process_id) in
  fun w =>
    match procs w !! process_path with
    | None => (Ok JNull, w)
    | Some (FJson j) => (Ok j, w)
    | Some FCorrupt | Some FUnreadable => (Ok JNull, w)
    | Some FUndecodable => (Raise UnicodeDecodeError, w)
    end.

(** The pid argument of [os.kill] and [os.getpgid]: an [int] (of which
    [bool] is a subclass) that fits the C type. *)
Definition as_pid (pid : json) : outcome Z :=
  match pid with
  | JInt z =>
      if (-2147483648 <=? z) && (z <=? 2147483647) then Ok z
      else Raise OverflowError
  | JBool b => Ok (if b then 1 else 0)
  | _ => Raise TypeError
  end.

(** [os.kill(pid, sig)]. *)
Definition kill (pid : json) (sig : signal) : M E unit :=
  let* p := lift (as_pid pid) in
  fun w =>
    let '(delivered, e') := os_kill os (env w) p sig in
    syscall (EvKill p sig) (if (delivered : bool) then Ok tt else Raise OSError) e' w.

(** [os.getpgid(pid)]. *)
Definition getpgid (pid : json) : M E Z :=
  let* p := lift (as_pid pid) in
  fun w =>
    let '(pgid, e') := os_getpgid os (env w) p in
    syscall (EvGetpgid p)
      (match pgid with Some g => Ok g | None => Raise OSError end) e' w.

(** [os.killpg(pgid, sig)]. *)
Definition killpg (pgid : Z) (sig : signal) : M E unit :=
  fun w =>
    let '(delivered, e') := os_killpg os (env w) pgid sig in
    syscall (EvKillpg pgid sig)
      (if (delivered : bool) then Ok tt else Raise OSError) e' w.

(** [time.sleep(seconds)]. *)
Definition sleep (seconds : Z) : M E unit :=
  fun w => syscall (EvSleep seconds) (Ok tt) (os_sleep os (env w) seconds) w.

Definition update_process_status (process_data : json) : M E json :=
  let* pid := lift (py_get "pid" process_data) in
  if negb (truthy pid) then
    lift (py_setitem "status" (JStr "unknown") process_data)
  else
    except_OSError
      (let* _ := kill pid SIG0 in
       lift (py_setitem "status" (JStr "running") process_data))
      (lift (py_setitem "status" (JStr "stopped") process_data)).

Definition is_process_running (pid : json) : M E bool :=
  except_OSError (let* _ := kill pid SIG0 in ret true) (ret false).

(** The loop of [list_processes]: a file that is not JSON or cannot be
    read is skipped by the handler, a file that loads gets its status
    from the operating system, and a file that is not text ends the
    loop with [UnicodeDecodeError], which the handler does not catch. *)
Fixpoint load_all (files : list (string * file)) : M E (list json) :=
  match files with
  | [] => ret []
  | (_, FJson process_data) :: files' =>
      let* process_data := update_process_status process_data in
      let* processes := load_all files' in
      ret (process_data :: processes)
  | (_, FCorrupt) :: files' | (_, FUnreadable) :: files' => load_all files'
  | (_, FUndecodable) :: _ => lift (Raise UnicodeDecodeError)
  end.

Definition list_processes : M E (list json) :=
  let* processes := (fun w => load_all (glob "proc_" ".json" (procs w)) w) in
  lift (Sort.py_sort_desc (py_get_or "started_at" (JStr "")) processes).

Definition mcp__process_start (command cwd name owner : string) : M E string :=
  let* process_id := generate_process_id in
  let* timestamp := utcnow_Z os in
  let* log_file := lift (get_log_path process_id) in
  let log_path := LOG_DIR +:+ "/" +:+ log_file in
  (* open(log_file, "w") *)
  let* _ := (fun w => (Ok tt, with_logs (insert log_file "") w)) in
  let* started :=
    (fun w =>
       let '(r, e') := os_popen os (env w) command cwd log_path in
       syscall (EvPopen command cwd log_path) (Ok r) e' w) in
  match started with
  | inl pid =>
      let process_data :=
        JObj [("id", JStr process_id);
              ("name", JStr name);
              ("owner", JStr owner);
              ("command", JStr command);
              ("cwd", JStr cwd);
              ("pid", JInt pid);
              ("status", JStr "running");
              ("started_at", JStr timestamp);
              ("log_file", JStr log_path)] in
      let* _ := save_process process_data in
      ret process_id
  | inr e => ret ("Error starting process: " +:+ e)
  end.

Definition process_summary (process : json) : outcome json :=
  id <- py_index "id" process ;;;
  name <- py_index "name" process ;;;
  owner <- py_index "owner" process ;;;
  status <- py_index "status" process ;;;
  started_at <- py_index "started_at" process ;;;
  pid <- py_get "pid" process ;;;
  Ok (JObj [("id", id); ("name", name); ("owner", owner); ("status", status);
            ("started_at", started_at); ("pid", pid)]).

(** [[p for p in processes if p.get("owner") == owner]]. *)
Fixpoint owned_by (owner : string) (processes : list json) : outcome (list json) :=
  match processes with
  | [] => Ok []
  | p :: rest =>
      o <- py_get "owner" p ;;;
      ps <- owned_by owner rest ;;;
      Ok (if eq_str owner o then p :: ps else ps)
  end.

(** [owner] is [None] when the argument is left out. *)
Definition mcp__process_list (owner : option string) : M E (list json) :=
  let* processes := list_processes in
  let* processes :=
    lift (match owner with
          | Some o => if String.eqb o "" then Ok processes else owned_by o processes
          | None => Ok processes
          end) in
  lift (summaries process_summary processes).

(** The signals of [mcp__process_stop]: [SIGTERM] to the process group,
    two seconds of grace, then [SIGKILL] to the group if the process is
    still there. *)
Definition terminate (pid : json) : M E unit :=
  let* pgid := getpgid pid in
  let* _ := killpg pgid SIGTERM in
  let* _ := sleep 2 in
  let* running := is_process_running pid in
  if (running : bool) then
    let* pgid := getpgid pid in killpg pgid SIGKILL
  else ret tt.

Definition mcp__process_stop (process_id : string) : M E bool :=
  let* process_data := load_process process_id in
  if negb (truthy process_data) then ret false
  else
    let* pid := lift (py_get "pid" process_data) in
    if negb (truthy pid) then ret false
    else
      except_OSError
        (let* _ := terminate pid in
         let* process_data := lift (py_setitem "status" (JStr "stopped") process_data) in
         let* stopped_at := utcnow_Z os in
         let* process_data := lift (py_setitem "stopped_at" (JStr stopped_at) process_data) in
         let* _ := save_process process_data in
         ret true)
        (* No OSError is raised once the record has been changed, so the
           handler sees the record as loaded. *)
        (let* process_data := lift (py_setitem "status" (JStr "stopped") process_data) in
         let* _ := save_process process_data in
         ret true).

(** An argument of [mcp__process_start] taken from a stored record;
    only strings are modelled. *)
Definition str_field (k : string) (process_data : json) : outcome string :=
  v <- py_index k process_data ;;;
  match v with JStr s => Ok s | _ => Unmodelled end.

Definition mcp__process_restart (process_id : string) : M E bool :=
  let* process_data := load_process process_id in
  if negb (truthy process_data) then ret false
  else
    let* stopped := mcp__process_stop process_id in
    if negb stopped then ret false
    else
      let* command := lift (str_field "command" process_data) in
      let* cwd := lift (str_field "cwd" process_data) in
      let* name := lift (str_field "name" process_data) in
      let* owner := lift (str_field "owner" process_data) in
      let* new_process_id := mcp__process_start command cwd name owner in
      ret (negb (Str.startswith "Error" new_process_id)).

(** The loop of [mcp__process_cleanup]; returns [cleaned_count]. *)
Fixpoint cleanup_loop (processes : list json) : M E nat :=
  match processes with
  | [] => ret O
  | process :: rest =>
      let* status := lift (py_index "status" process) in
      if eq_str "stopped" status then
        let* id := lift (py_index "id" process) in
        let* process_id := lift (format_id id) in
        let* process_path := lift (get_process_path process_id) in
        (* if process_path.exists(): process_path.unlink(); the entry,
           a regular file, is removed *)
        let* _ := (fun w => (Ok tt, with_procs (delete process_path) w)) in
        (* the log file is looked at and kept *)
        let* _ := lift (get_log_path process_id) in
        let* cleaned := cleanup_loop rest in
        ret (S cleaned)
      else cleanup_loop rest
  end.

Definition mcp__process_cleanup : M E json :=
  let* processes := list_processes in
  let* cleaned_count := cleanup_loop processes in
  ret (JObj [("cleaned_processes", JInt (Z.of_nat cleaned_count));
             ("remaining_processes",
              JInt (Z.of_nat (List.length processes) - Z.of_nat cleaned_count))]).

(** [all_lines[-lines:]] for a positive [lines]: the last [lines]
    elements, all of them when there are fewer. *)
Definition last_lines (lines : nat) (all_lines : list string) : list string :=
  skipn (List.length all_lines - lines) all_lines.

(** The log of a process is found in [LOG_DIR] by the identifier alone;
    the metadata is not consulted.  A log that exists is text that can
    be read, so [readlines] returns and the handler for [IOError] is not
    entered. *)
Definition mcp__process_logs (process_id : string) (lines : Z) : M E string :=
  let* log_file := lift (get_log_path process_id) in
  fun w =>
    match logs w !! log_file with
    | None => (Ok ("No logs found for process " +:+ process_id), w)
    | Some content =>
        let all_lines := Str.readlines (Str.universal_newlines content) in
        let last_lines :=
          if lines >? 0 then last_lines (Z.to_nat lines) all_lines else all_lines in
        (Ok (Str.join "" last_lines), w)
    end.

End WithOS.
End Proc.

(* ===================================================================== *)
(** * Specification-side definitions *)
(* ===================================================================== *)

Module ConfigSpec.
Import Config.

(** The rules of the configuration table, as the specification words
    them. *)
Inductive rule : Type :=
  | RPort | RWorkers | REnvironment | RLogLevel | RFileSize | RCacheType
  | RRedisUrl.

Definition all_rules : list rule :=
  [RPort; RWorkers; REnvironment; RLogLevel; RFileSize; RCacheType; RRedisUrl].

(** An optional string is set when it is present and not empty. *)
Definition is_set (o : option string) : Prop :=
  exists s, o = Some s /\ s <> "".

Definition holds (cls : config) (r : rule) : Prop :=
  match r with
  | RPort => 1 <= API_PORT cls <= 65535
  | RWorkers => 1 <= API_WORKERS cls
  | REnvironment => In (ENVIRONMENT cls) ["development"; "staging"; "production"; "test"]
  | RLogLevel => In (LOG_LEVEL cls) ["DEBUG"; "INFO"; "WARNING"; "ERROR"; "CRITICAL"]
  | RFileSize => 1 <= MAX_FILE_SIZE_MB cls <= 1000
  | RCacheType => In (CACHE_TYPE cls) ["memory"; "redis"; "memcached"]
  | RRedisUrl => CACHE_TYPE cls = "redis" -> is_set (CACHE_REDIS_URL cls)
  end.

(** The text reported for a violated rule. *)
Definition rule_message (cls : config) (r : rule) : string :=
  match r with
  | RPort => "Invalid API_PORT: " +:+ Str.of_Z (API_PORT cls)
  | RWorkers => "API_WORKERS must be at least 1, got " +:+ Str.of_Z (API_WORKERS cls)
  | REnvironment =>
      "ENVIRONMENT must be one of ['development', 'staging', 'production', 'test'], got "
      +:+ ENVIRONMENT cls
  | RLogLevel =>
      "LOG_LEVEL must be one of ['DEBUG', 'INFO', 'WARNING', 'ERROR', 'CRITICAL'], got "
      +:+ LOG_LEVEL cls
  | RFileSize =>
      "MAX_FILE_SIZE_MB must be between 1 and 1000, got " +:+ Str.of_Z (MAX_FILE_SIZE_MB cls)
  | RCacheType =>
      "CACHE_TYPE must be one of ['memory', 'redis', 'memcached'], got " +:+ CACHE_TYPE cls
  | RRedisUrl => "CACHE_REDIS_URL must be set when using Redis cache"
  end.

(** The check of [validate] for each rule. *)
Definition violated (cls : config) (r : rule) : bool :=
  match r with
  | RPort => bad_port cls
  | RWorkers => bad_workers cls
  | REnvironment => bad_environment cls
  | RLogLevel => bad_log_level cls
  | RFileSize => bad_file_size cls
  | RCacheType => bad_cache_type cls
  | RRedisUrl => bad_redis_url cls
  end.

(** A setting name mentions a sensitive word when its lower-case form
    has one of the four words as a substring. *)
Definition mentions_sensitive_word (key : string) : Prop :=
  exists word pre post,
    In word ["key"; "secret"; "password"; "token"] /\
    Str.lower key = pre +:+ word +:+ post.

(** The marker for position [i] of a redacted list. *)
Definition indexed_marker (i : nat) : string :=
  "***REDACTED" +:+ Str.of_nat i +:+ "***".

(** A sample configuration: the defaults of the class. *)
Definition defaults : config :=
  {| ENVIRONMENT := "development"; API_PORT := 8000; API_WORKERS := 4;
     TELEMETRY_ENABLED := true; HONEYCOMB_API_KEY := "";
     MAX_FILE_SIZE_MB := 100; LOG_LEVEL := "INFO"; CACHE_TYPE := "memory";
     CACHE_REDIS_URL := None |}.

(** The configuration of the multiple-error test: port 70000, an
    unknown environment and no workers. *)
Definition three_errors : config :=
  {| ENVIRONMENT := "invalid"; API_PORT := 70000; API_WORKERS := 0;
     TELEMETRY_ENABLED := true; HONEYCOMB_API_KEY := "";
     MAX_FILE_SIZE_MB := 100; LOG_LEVEL := "INFO"; CACHE_TYPE := "memory";
     CACHE_REDIS_URL := None |}.

(** Part of the class namespace, as in the redaction test. *)
Definition sample_namespace : namespace :=
  [("API_PORT", VInt 8000);
   ("API_TOKENS", VList ["token1"; "token2"]);
   ("HONEYCOMB_API_KEY", VStr "hcxxx");
   ("LOG_FILE", VNone);
   ("PROJECT_NAME", VStr "coding-agent");
   ("SECRET_KEY", VStr "super-secret-key");
   ("TELEMETRY_ENABLED", VBool true);
   ("__doc__", VStr "Application configuration with environment variable support");
   ("to_dict", VMethod);
   ("validate", VMethod)].

(** An item of a list setting: not empty, without white space at
    either end, and without a comma. *)
Definition list_item (t : string) : Prop :=
  t <> "" /\ Str.strip t = t /\ Str.contains "," t = false.

End ConfigSpec.

(* ===================================================================== *)
(** * A small operating system, for concrete runs *)
(* ===================================================================== *)

Module ToyOS.

(** Identifiers and clock readings are drawn from two supplies; the
    process table lists the live processes with their group and whether
    they ignore [SIGTERM]; spawning fails in the directory [no_dir]. *)
Record state : Type := State {
  ids : list string;
  clock : list string;
  table : list (Z * Z * bool);
  next_pid : Z;
  no_dir : string
}.

Definition draw (l : list string) : string * list string :=
  match l with
  | [] => ("", [])
  | x :: l' => (x, l')
  end.

Definition uuid4 (s : state) : string * state :=
  let '(x, l) := draw (ids s) in
  (x, State l (clock s) (table s) (next_pid s) (no_dir s)).

Definition utcnow (s : state) : string * state :=
  let '(x, l) := draw (clock s) in
  (x, State (ids s) l (table s) (next_pid s) (no_dir s)).

Definition pid_of (p : Z * Z * bool) : Z := fst (fst p).
Definition pgid_of (p : Z * Z * bool) : Z := snd (fst p).
Definition stubborn (p : Z * Z * bool) : bool := snd p.

(** Does process [p] survive signal [sig]? *)
Definition survives (sig : signal) (p : Z * Z * bool) : bool :=
  match sig with
  | SIG0 => true
  | SIGTERM => stubborn p
  | SIGKILL => false
  end.

Definition deliver (sig : signal) (hit : Z * Z * bool -> bool) (s : state) : state :=
  State (ids s) (clock s)
    (List.filter (fun p => negb (hit p) || survives sig p) (table s))
    (next_pid s) (no_dir s).

Definition kill (s : state) (pid : Z) (sig : signal) : bool * state :=
  if List.existsb (fun p => pid_of p =? pid) (table s)
  then (true, deliver sig (fun p => pid_of p =? pid) s)
  else (false, s).

Definition getpgid (s : state) (pid : Z) : option Z * state :=
  (option_map pgid_of (List.find (fun p => pid_of p =? pid) (table s)), s).

Definition killpg (s : state) (pgid : Z) (sig : signal) : bool * state :=
  if List.existsb (fun p => pgid_of p =? pgid) (table s)
  then (true, deliver sig (fun p => pgid_of p =? pgid) s)
  else (false, s).

Definition sleep (s : state) (seconds : Z) : state := s.

Definition popen (s : state) (command cwd log_file : string)
  : (Z + string) * state :=
  if String.eqb cwd (no_dir s)
  then (inr ("[Errno 2] No such file or directory: '" +:+ cwd +:+ "'"), s)
  else (inl (next_pid s),
        State (ids s) (clock s) (table s ++ [(next_pid s, next_pid s, false)])
          (next_pid s + 1) (no_dir s)).

Definition os : os_iface state :=
  {| os_uuid4 := uuid4; os_utcnow := utcnow; os_kill := kill;
     os_getpgid := getpgid; os_killpg := killpg; os_sleep := sleep;
     os_popen := popen |}.

(** An empty world over a given state. *)
Definition boot (s : state) : world state := World ∅ ∅ ∅ s [].

End ToyOS.

(* ===================================================================== *)
(** * Specification-side definitions for the two servers *)
(* ===================================================================== *)

Module ServerSpec.

(** [p] may stand before [q] in a descending list of decorated
    elements. *)
Definition ge_key {A : Type} (p q : string * A) : Prop :=
  String.leb (fst q) (fst p) = true.

(** The result of [py_sort_desc] when every key is a string, [f]
    giving the key. *)
Definition sorted_by (f : json -> string) (l : list json) : list json :=
  List.map snd (Sort.sort_desc (List.map (fun x => (f x, x)) l)).

(** The string under which a record is sorted: the value of the key,
    the empty string when the key is absent. *)
Definition sort_key (k : string) (x : json) : string :=
  match py_get_or k (JStr "") x with
  | Ok (JStr s) => s
  | _ => ""
  end.

(** Newest first: along the list the sort keys never increase. *)
Definition newest_first (k : string) (l : list json) : Prop :=
  StronglySorted (fun x y => String.leb (sort_key k y) (sort_key k x) = true) l.

(** A record that can be sorted under key [k]: a dict whose [k] is a
    string or is absent. *)
Definition sortable (k : string) (x : json) : Prop :=
  exists kv, x = JObj kv /\
    (Dict.get k kv = None \/ exists s, Dict.get k kv = Some (JStr s)).

(** The documents of the files matching a pattern that load. *)
Definition loads (prefix suffix : string) (d : gmap string file) (j : json) : Prop :=
  exists name, glob_match prefix suffix name = true /\ d !! name = Some (FJson j).

(** The entry of a listing carries identifier [id]. *)
Definition has_id (id : string) (x : json) : bool :=
  match x with
  | JObj kv =>
      match Dict.get "id" kv with
      | Some v => eq_str id v
      | None => false
      end
  | _ => false
  end.

(** A message a mail listing can summarise: a dict with the four
    mandatory fields, a string timestamp, and recipients that are a
    list (or absent). *)
Definition well_formed_message (x : json) : Prop :=
  exists kv, x = JObj kv /\
    is_Some (Dict.get "id" kv) /\
    is_Some (Dict.get "from" kv) /\
    is_Some (Dict.get "subject" kv) /\
    (exists s, Dict.get "timestamp" kv = Some (JStr s)) /\
    (Dict.get "to" kv = None \/ exists l, Dict.get "to" kv = Some (JList l)).

(** Every file matching the pattern is text: opened and read, it
    parses, or it fails with an error the handlers of the servers
    catch. *)
Definition decodable (prefix suffix : string) (d : gmap string file) : Prop :=
  forall name,
    glob_match prefix suffix name = true -> d !! name <> Some FUndecodable.

(** A mail directory the listings can show: every message file is
    text, and those that load are well formed. *)
Definition well_formed_mail (d : gmap string file) : Prop :=
  decodable "msg_" ".json" d /\
  forall j, loads "msg_" ".json" d j -> well_formed_message j.

(** [out] holds, in order, the results of [f] on some of the elements
    of [l]: what a loop that summarises or skips each element returns. *)
Inductive picked (f : json -> outcome json) : list json -> list json -> Prop :=
  | picked_nil : picked f [] []
  | picked_take x s l out :
      f x = Ok s -> picked f l out -> picked f (x :: l) (s :: out)
  | picked_skip x l out :
      picked f l out -> picked f (x :: l) out.

(** What a file contributes to a listing of the pattern. *)
Definition loaded_from (prefix suffix : string) (p : string * file) : list json :=
  if glob_match prefix suffix (fst p)
  then match snd p with FJson j => [j] | _ => [] end
  else [].

(** What a message contributes to the inbox of [to_agent]. *)
Definition inbox_entry (to_agent : string) (message : json) : list json :=
  match Mail.inbox_loop to_agent [message] with
  | Ok l => l
  | _ => []
  end.

(** The pid field of a stored record ([None] when absent). *)
Definition pid_field (kv : list (string * json)) : json :=
  default JNull (Dict.get "pid" kv).

(** A stored record and the same record as a listing shows it: the
    status is replaced by the one derived from the pid. *)
Definition relisted (stored listed : json) : Prop :=
  exists kv status,
    stored = JObj kv /\
    listed = JObj (Dict.set "status" (JStr status) kv) /\
    (truthy (pid_field kv) = false -> status = "unknown") /\
    (truthy (pid_field kv) = true -> status = "running" \/ status = "stopped").

(** Has the stored record a pid? *)
Definition has_pid (stored : json) : bool :=
  match stored with
  | JObj kv => truthy (pid_field kv)
  | _ => false
  end.

Definition probe (p : Z) : event := EvKill p SIG0.

(** The record [mcp__process_start] writes. *)
Definition started_record (process_id name owner command cwd : string) (pid : Z)
  (timestamp log_path : string) : json :=
  JObj [("id", JStr process_id); ("name", JStr name); ("owner", JStr owner);
        ("command", JStr command); ("cwd", JStr cwd); ("pid", JInt pid);
        ("status", JStr "running"); ("started_at", JStr timestamp);
        ("log_file", JStr log_path)].

(** Is the listed status stopped? *)
Definition is_stopped (x : json) : bool :=
  match x with
  | JObj kv =>
      match Dict.get "status" kv with
      | Some s => eq_str "stopped" s
      | None => false
      end
  | _ => false
  end.

(** The metadata file of a record, by its identifier. *)
Definition record_file (x : json) : option string :=
  match x with
  | JObj kv =>
      match Dict.get "id" kv with
      | Some (JStr id) => Some ("proc_" +:+ id +:+ ".json")
      | _ => None
      end
  | _ => None
  end.

(** The metadata files of the listed processes that are stopped. *)
Definition stopped_files (listed : list json) : list string :=
  flat_map (fun x => if is_stopped x
                     then match record_file x with Some n => [n] | None => [] end
                     else []) listed.

(** A directory after the files [names] are removed. *)
Definition remove_files (names : list string) (d : gmap string file)
  : gmap string file :=
  List.fold_left (fun d n => delete n d) names d.

(** The names of the files that load. *)
Definition json_names (files : list (string * file)) : list string :=
  flat_map (fun p => match snd p with FJson _ => [fst p] | _ => [] end) files.

(** A record a listing and a cleanup can process: a dict stored under
    the file of its identifier, whose pid (if any) is a pid and whose
    start time is a string (or absent). *)
Definition well_formed_process (name : string) (j : json) : Prop :=
  exists kv id,
    j = JObj kv /\
    Dict.get "id" kv = Some (JStr id) /\
    Str.contains "/" id = false /\
    name = "proc_" +:+ id +:+ ".json" /\
    (truthy (pid_field kv) = true -> exists p, Proc.as_pid (pid_field kv) = Ok p) /\
    (Dict.get "started_at" kv = None \/
     exists s, Dict.get "started_at" kv = Some (JStr s)).

(** A process directory a listing and a cleanup can process: every
    metadata file is text, and those that load are well formed. *)
Definition consistent_procs (d : gmap string file) : Prop :=
  decodable "proc_" ".json" d /\
  forall name j,
    glob_match "proc_" ".json" name = true ->
    d !! name = Some (FJson j) ->
    well_formed_process name j.

(** Every message names its recipients. *)
Definition addressed_mail (d : gmap string file) : Prop :=
  forall j, loads "msg_" ".json" d j ->
    exists kv, j = JObj kv /\ is_Some (Dict.get "to" kv).

(** Every process record has the fields a summary shows. *)
Definition complete_procs (d : gmap string file) : Prop :=
  forall j, loads "proc_" ".json" d j ->
    exists kv, j = JObj kv /\
      is_Some (Dict.get "name" kv) /\
      is_Some (Dict.get "owner" kv) /\
      is_Some (Dict.get "started_at" kv).

(** A listed record the cleanup loop can process. *)
Definition cleanable (x : json) : Prop :=
  exists kv st id,
    x = JObj kv /\
    Dict.get "status" kv = Some (JStr st) /\
    Dict.get "id" kv = Some (JStr id) /\
    Str.contains "/" id = false.

(** Every stop of a record with a pid stamps the record:
    [mcp__process_stop] returns [True] and the persisted record has
    status stopped and a [stopped_at] time. *)
Definition stop_stamps_record {E : Type} (os : os_iface E) (w : world E)
  (process_id : string) : Prop :=
  forall name kv pid,
    Proc.get_process_path process_id = Ok name ->
    procs w !! name = Some (FJson (JObj kv)) ->
    Dict.get "pid" kv = Some pid ->
    truthy pid = true ->
    exists w' kv' t,
      Proc.mcp__process_stop os process_id w = (Ok true, w') /\
      procs w' !! name = Some (FJson (JObj kv')) /\
      Dict.get "status" kv' = Some (JStr "stopped") /\
      Dict.get "stopped_at" kv' = Some (JStr t).

(** An operation is framed by [R] when the world it leaves is related
    to the world it found, whatever it returns or raises. *)
Definition framed {E A : Type} (R : world E -> world E -> Prop) (m : M E A) : Prop :=
  forall w, R w (snd (m w)).

(** The three directories hold the same files. *)
Definition same_files {E : Type} (w w' : world E) : Prop :=
  mail w' = mail w /\ procs w' = procs w /\ logs w' = logs w.

(** The mail and the logs hold the same files. *)
Definition same_logs_mail {E : Type} (w w' : world E) : Prop :=
  mail w' = mail w /\ logs w' = logs w.

(** The summary of a listing is of a process of [owner]. *)
Definition owner_is (owner : string) (summary : json) : bool :=
  match summary with
  | JObj kv =>
      match Dict.get "owner" kv with
      | Some v => eq_str owner v
      | None => false
      end
  | _ => false
  end.

(** ** Runs of tool calls *)

(** An operation returns a value: it does not raise. *)
Definition returns {E A : Type} (m : M E A) (w : world E) : Prop :=
  exists a w', m w = (Ok a, w').

(** The identifiers the environment draws name files of the directory. *)
Definition uuid_without_slash {E : Type} (os : os_iface E) : Prop :=
  forall e, Str.contains "/" (fst (os_uuid4 os e)) = false.

(** The pids the environment gives to new processes are C ints. *)
Definition pids_fit {E : Type} (os : os_iface E) : Prop :=
  forall e command cwd log_file pid,
    fst (os_popen os e command cwd log_file) = inl pid ->
    -2147483648 <= pid <= 2147483647.

(** A message file as the mail server writes it: a dict stored under
    the file of its identifier, with sender, recipient list, subject and
    time. *)
Definition server_message (name : string) (j : json) : Prop :=
  exists kv id,
    j = JObj kv /\
    Dict.get "id" kv = Some (JStr id) /\
    Str.contains "/" id = false /\
    name = "msg_" +:+ id +:+ ".json" /\
    is_Some (Dict.get "from" kv) /\
    is_Some (Dict.get "subject" kv) /\
    (exists s, Dict.get "timestamp" kv = Some (JStr s)) /\
    (exists l, Dict.get "to" kv = Some (JList l)).

(** A mail directory as the server leaves it: every message file is
    text, and those that load are messages of the server. *)
Definition server_mail (d : gmap string file) : Prop :=
  decodable "msg_" ".json" d /\
  forall name j,
    glob_match "msg_" ".json" name = true ->
    d !! name = Some (FJson j) ->
    server_message name j.

(** The calls of the mail tools. *)
Inductive mail_call : Type :=
  | CallSend (from_agent : string) (to_agents : list string) (subject body : string)
  | CallInbox (to_agent : string)
  | CallRead (message_id : string)
  | CallDelete (message_id : string)
  | CallListAll.

(** The identifier of the call names a file of the directory. *)
Definition mail_call_in_dir (c : mail_call) : Prop :=
  match c with
  | CallRead message_id | CallDelete message_id =>
      Str.contains "/" message_id = false
  | _ => True
  end.

Definition mail_call_returns {E : Type} (os : os_iface E) (c : mail_call)
  (w : world E) : Prop :=
  match c with
  | CallSend from_agent to_agents subject body =>
      returns (Mail.mcp__mail_send os from_agent to_agents subject body) w
  | CallInbox to_agent => returns (Mail.mcp__mail_inbox to_agent) w
  | CallRead message_id => returns (Mail.mcp__mail_read message_id) w
  | CallDelete message_id => returns (Mail.mcp__mail_delete message_id) w
  | CallListAll => returns Mail.mcp__mail_list_all w
  end.

(** The world after a call. *)
Definition mail_step {E : Type} (os : os_iface E) (w : world E) (c : mail_call)
  : world E :=
  match c with
  | CallSend from_agent to_agents subject body =>
      snd (Mail.mcp__mail_send os from_agent to_agents subject body w)
  | CallInbox to_agent => snd (Mail.mcp__mail_inbox to_agent w)
  | CallRead message_id => snd (Mail.mcp__mail_read message_id w)
  | CallDelete message_id => snd (Mail.mcp__mail_delete message_id w)
  | CallListAll => snd (Mail.mcp__mail_list_all w)
  end.

(** The world after a sequence of calls. *)
Definition mail_run {E : Type} (os : os_iface E) (calls : list mail_call)
  (w : world E) : world E :=
  List.fold_left (mail_step os) calls w.

(** A metadata file as the process manager writes it: a dict stored
    under the file of its identifier, with a pid that is a C int and
    with name, owner, command, directory and start time. *)
Definition server_process (name : string) (j : json) : Prop :=
  exists kv id pid,
    j = JObj kv /\
    Dict.get "id" kv = Some (JStr id) /\
    Str.contains "/" id = false /\
    name = "proc_" +:+ id +:+ ".json" /\
    Dict.get "pid" kv = Some (JInt pid) /\
    -2147483648 <= pid <= 2147483647 /\
    (exists s, Dict.get "name" kv = Some (JStr s)) /\
    (exists s, Dict.get "owner" kv = Some (JStr s)) /\
    (exists s, Dict.get "command" kv = Some (JStr s)) /\
    (exists s, Dict.get "cwd" kv = Some (JStr s)) /\
    (exists s, Dict.get "started_at" kv = Some (JStr s)).

(** A process directory as the manager leaves it: every metadata file
    is text, and those that load are records of the manager. *)
Definition server_procs (d : gmap string file) : Prop :=
  decodable "proc_" ".json" d /\
  forall name j,
    glob_match "proc_" ".json" name = true ->
    d !! name = Some (FJson j) ->
    server_process name j.

(** The calls of the process tools that work on the records. *)
Inductive process_call : Type :=
  | CallStart (command cwd name owner : string)
  | CallList (owner : option string)
  | CallStop (process_id : string)
  | CallRestart (process_id : string)
  | CallCleanup.

Definition process_call_in_dir (c : process_call) : Prop :=
  match c with
  | CallStop process_id | CallRestart process_id =>
      Str.contains "/" process_id = false
  | _ => True
  end.

Definition process_call_returns {E : Type} (os : os_iface E) (c : process_call)
  (w : world E) : Prop :=
  match c with
  | CallStart command cwd name owner =>
      returns (Proc.mcp__process_start os command cwd name owner) w
  | CallList owner => returns (Proc.mcp__process_list os owner) w
  | CallStop process_id => returns (Proc.mcp__process_stop os process_id) w
  | CallRestart process_id => returns (Proc.mcp__process_restart os process_id) w
  | CallCleanup => returns (Proc.mcp__process_cleanup os) w
  end.

Definition process_step {E : Type} (os : os_iface E) (w : world E) (c : process_call)
  : world E :=
  match c with
  | CallStart command cwd name owner =>
      snd (Proc.mcp__process_start os command cwd name owner w)
  | CallList owner => snd (Proc.mcp__process_list os owner w)
  | CallStop process_id => snd (Proc.mcp__process_stop os process_id w)
  | CallRestart process_id => snd (Proc.mcp__process_restart os process_id w)
  | CallCleanup => snd (Proc.mcp__process_cleanup os w)
  end.

Definition process_run {E : Type} (os : os_iface E) (calls : list process_call)
  (w : world E) : world E :=
  List.fold_left (process_step os) calls w.

(** From a directory of the manager's own records an operation returns
    a value and leaves such a directory; the mail is as before and no
    log file has gone. *)
Definition keeps_server_procs {E A : Type} (m : M E A) (w : world E) : Prop :=
  exists a w',
    m w = (Ok a, w') /\
    server_procs (procs w') /\
    mail w' = mail w /\
    (forall n, is_Some (logs w !! n) -> is_Some (logs w' !! n)).

(** The message names [to_agent] among its recipients: the test of the
    inbox loop. *)
Definition addressed (to_agent : string) (message : json) : bool :=
  match py_get_or "to" (JList []) message with
  | Ok to =>
      match py_in to_agent to with
      | Ok b => b
      | _ => false
      end
  | _ => false
  end.


(** Two versions of a message that differ at most in [read], which may
    have become true. *)
Definition same_but_read (kv kv' : list (string * json)) : Prop :=
  (forall k, k <> "read" -> Dict.get k kv' = Dict.get k kv) /\
  (Dict.get "read" kv' = Dict.get "read" kv \/
   Dict.get "read" kv' = Some (JBool true)).

(** The message carries what the call sent. *)
Definition sent_by (c : mail_call) (kv : list (string * json)) : Prop :=
  match c with
  | CallSend from_agent to_agents subject body =>
      Dict.get "from" kv = Some (JStr from_agent) /\
      Dict.get "to" kv = Some (JList (List.map JStr to_agents)) /\
      Dict.get "subject" kv = Some (JStr subject) /\
      Dict.get "body" kv = Some (JStr body)
  | _ => False
  end.

(** Where a file of the mail directory comes from, after the calls
    [calls] made from the directory [d]: it was there and is untouched,
    or it is a message that was there, changed at most in [read], or it
    is the message of one of the sends, changed at most in [read]. *)
Definition file_origin (calls : list mail_call) (d : gmap string file)
  (name : string) (f : file) : Prop :=
  d !! name = Some f \/
  (exists kv kv',
     f = FJson (JObj kv') /\ d !! name = Some (FJson (JObj kv)) /\
     same_but_read kv kv') \/
  (exists c kv', f = FJson (JObj kv') /\ In c calls /\ sent_by c kv').

(** The file of a record or summary, by its identifier: [prefix],
    the identifier and [".json"]. *)
Definition entry_file (prefix : string) (x : json) : option string :=
  match x with
  | JObj kv =>
      match Dict.get "id" kv with
      | Some (JStr id) => Some (prefix +:+ id +:+ ".json")
      | _ => None
      end
  | _ => None
  end.

(** The file named by the result of [x.get("id")]. *)
Definition id_file (prefix : string) (id : outcome json) : option string :=
  match id with
  | Ok (JStr id) => Some (prefix +:+ id +:+ ".json")
  | _ => None
  end.

End ServerSpec.

(* ===================================================================== *)
(** * Sample worlds *)
(* ===================================================================== *)

Module Samples.
Import ToyOS.

Definition quiet : state :=
  State ["id1"; "id2"] ["2024-07-03T10:30:00"; "2024-07-03T10:31:00"] [] 100
    "/nonexistent".

Definition process_record (id : string) (pid : json) (started_at : string) : json :=
  JObj [("id", JStr id); ("name", JStr "webserver"); ("owner", JStr "feat-dashboard");
        ("command", JStr "python app.py"); ("cwd", JStr "/workspaces/feat-dashboard");
        ("pid", pid); ("status", JStr "running"); ("started_at", JStr started_at);
        ("log_file", JStr ("/workspaces/.processes/logs/" +:+ id +:+ ".log"))].

(** A record whose process, pid 4242, has exited: the table is empty. *)
Definition gone : world state :=
  World ∅ {[ "proc_p1.json" := FJson (process_record "p1" (JInt 4242) "2024-07-03T10:00:00Z") ]}
    {[ "p1.log" := "listening" ]} quiet [].

(** The same record with its process alive, in its own group. *)
Definition alive : world state :=
  World ∅ {[ "proc_p1.json" := FJson (process_record "p1" (JInt 4242) "2024-07-03T10:00:00Z") ]}
    {[ "p1.log" := "listening" ]}
    (State ["id1"; "id2"] ["2024-07-03T10:30:00"; "2024-07-03T10:31:00"]
       [(4242, 4242, false)] 4243 "/nonexistent") [].

(** A record with pid 0, and a file that is not JSON. *)
Definition no_pid : world state :=
  World ∅ {[ "proc_p0.json" := FJson (process_record "p0" (JInt 0) "2024-07-03T10:00:00Z");
             "proc_bad.json" := FCorrupt ]}
    ∅ quiet [].

(** Two records, one of a live process and one of a process that has
    exited, with their logs. *)
Definition two_processes : world state :=
  World ∅
    {[ "proc_p1.json" := FJson (process_record "p1" (JInt 4242) "2024-07-03T10:00:00Z");
       "proc_p2.json" := FJson (process_record "p2" (JInt 4250) "2024-07-03T11:00:00Z") ]}
    {[ "p1.log" := "listening"; "p2.log" := "done" ]}
    (State ["id1"; "id2"] ["2024-07-03T10:30:00"; "2024-07-03T10:31:00"]
       [(4250, 4250, false)] 4251 "/nonexistent") [].

Definition message (id from to subject timestamp : string) : json :=
  JObj [("id", JStr id); ("from", JStr from); ("to", JList [JStr to]);
        ("subject", JStr subject); ("body", JStr "see the branch");
        ("timestamp", JStr timestamp); ("read", JBool false)].

(** A mail directory with one message and one file that is not JSON. *)
Definition one_message : world state :=
  World {[ "msg_m1.json" := FJson (message "m1" "carol" "bob" "review" "2024-07-03T09:00:00Z");
           "msg_bad.json" := FCorrupt ]}
    ∅ ∅ quiet [].

(** A message file without a timestamp, as another writer may leave
    it, next to a dated message. *)
Definition undated_message : json :=
  JObj [("id", JStr "m0"); ("from", JStr "alice"); ("to", JList [JStr "bob"]);
        ("subject", JStr "status"); ("body", JStr "done"); ("read", JBool false)].

Definition undated_mail : world state :=
  World {[ "msg_m0.json" := FJson undated_message;
           "msg_m1.json" := FJson (message "m1" "carol" "bob" "review" "2024-07-03T09:00:00Z") ]}
    ∅ ∅ quiet [].

(** A process record without a start time. *)
Definition unstarted_record : json :=
  JObj [("id", JStr "p0"); ("name", JStr "webserver"); ("owner", JStr "feat-dashboard");
        ("command", JStr "python app.py"); ("cwd", JStr "/workspaces/feat-dashboard");
        ("pid", JInt 4242); ("status", JStr "running")].

Definition unstarted_procs : world state :=
  World ∅ {[ "proc_p0.json" := FJson unstarted_record ]} ∅ quiet [].


(** A message next to a file whose bytes are not text. *)
Definition binary_mail : world state :=
  World {[ "msg_m1.json" := FJson (message "m1" "carol" "bob" "review" "2024-07-03T09:00:00Z");
           "msg_m2.json" := FUndecodable ]}
    ∅ ∅ quiet [].

(** A process record next to a file whose bytes are not text. *)
Definition binary_procs : world state :=
  World ∅
    {[ "proc_p1.json" := FJson (process_record "p1" (JInt 4242) "2024-07-03T10:00:00Z");
       "proc_p2.json" := FUndecodable ]}
    ∅ quiet [].



(** The record of a live process that ignores [SIGTERM]. *)
Definition stubborn_process : world state :=
  World ∅ {[ "proc_p1.json" := FJson (process_record "p1" (JInt 4242) "2024-07-03T10:00:00Z") ]}
    {[ "p1.log" := "listening" ]}
    (State ["id1"; "id2"] ["2024-07-03T10:30:00"; "2024-07-03T10:31:00"]
       [(4242, 4242, true)] 4243 "/nonexistent") [].

(** The toy system made careful: an identifier with a path separator
    is replaced, and a pid that is no C int is an error of the spawn. *)
Definition careful_uuid4 (s : state) : string * state :=
  let '(x, s') := uuid4 s in
  (if Str.contains "/" x then "id" else x, s').

Definition careful_popen (s : state) (command cwd log_file : string)
  : (Z + string) * state :=
  match popen s command cwd log_file with
  | (inl pid, s') =>
      if (-2147483648 <=? pid) && (pid <=? 2147483647) then (inl pid, s')
      else (inr "[Errno 11] Resource temporarily unavailable", s)
  | r => r
  end.

Definition careful : os_iface state :=
  {| os_uuid4 := careful_uuid4; os_utcnow := utcnow; os_kill := kill;
     os_getpgid := getpgid; os_killpg := killpg; os_sleep := sleep;
     os_popen := careful_popen |}.


End Samples.

(* ===================================================================== *)
(** * Properties of strings *)
(* ===================================================================== *)

Module StrFacts.

Lemma app_cons (a : ascii) (s t : string) :
  String a s +:+ t = String a (s +:+ t).
Proof. reflexivity. Qed.

Lemma app_nil_l (s : string) : "" +:+ s = s.
Proof. reflexivity. Qed.

Lemma app_assoc (s t u : string) : (s +:+ t) +:+ u = s +:+ t +:+ u.
Proof.
  induction s as [|a s IH]; [reflexivity|].
  rewrite !app_cons, IH. reflexivity.
Qed.

Lemma startswith_spec (p s : string) :
  Str.startswith p s = true <-> exists post, s = p +:+ post.
Proof.
  revert s. induction p as [|a p IH]; intros s; simpl.
  - split; [intros _; exists s; reflexivity | reflexivity].
  - destruct s as [|b s].
    + split; [discriminate | intros [post H]; discriminate H].
    + rewrite andb_true_iff, Ascii.eqb_eq, IH. split.
      * intros [-> [post ->]]. exists post. reflexivity.
      * intros [post H]. rewrite app_cons in H. injection H as -> ->. eauto.
Qed.

Lemma contains_spec (needle hay : string) :
  Str.contains needle hay = true <->
  exists pre post, hay = pre +:+ needle +:+ post.
Proof.
  induction hay as [|c hay IH]; simpl.
  - rewrite orb_false_r, startswith_spec. split.
    + intros [post H]. exists "", post. exact H.
    + intros [pre [post H]]. destruct pre as [|a pre]; [|discriminate H].
      exists post. exact H.
  - rewrite orb_true_iff, startswith_spec, IH. split.
    + intros [[post H] | [pre [post H]]].
      * exists "", post. exact H.
      * exists (String c pre), post. rewrite app_cons, H. reflexivity.
    + intros [pre [post H]]. destruct pre as [|a pre].
      * left. exists post. exact H.
      * right. rewrite app_cons in H. injection H as _ ->. eauto.
Qed.

Lemma length_app (s t : string) :
  String.length (s +:+ t) = (String.length s + String.length t)%nat.
Proof. induction s as [|a s IH]; simpl; [|rewrite IH]; reflexivity. Qed.

Lemma app_inv_head (p s t : string) : p +:+ s = p +:+ t -> s = t.
Proof.
  induction p as [|a p IH]; [intros H; exact H|].
  rewrite !app_cons. intros [= H]. apply IH, H.
Qed.

Lemma app_inv_tail (s t suffix : string) : s +:+ suffix = t +:+ suffix -> s = t.
Proof.
  revert t. induction s as [|a s IH]; intros [|b t] H.
  - reflexivity.
  - apply (f_equal String.length) in H. rewrite !length_app in H. simpl in H. lia.
  - apply (f_equal String.length) in H. rewrite !length_app in H. simpl in H. lia.
  - rewrite !app_cons in H. injection H as -> H. rewrite (IH t H). reflexivity.
Qed.

(** Different identifiers have different files. *)
Lemma entry_inj (prefix id id' suffix : string) :
  prefix +:+ id +:+ suffix = prefix +:+ id' +:+ suffix -> id = id'.
Proof. intros H. apply app_inv_head, app_inv_tail in H. exact H. Qed.

Lemma eqb_neq_empty (s : string) : String.eqb s "" = false <-> s <> "".
Proof. apply String.eqb_neq. Qed.

End StrFacts.

(* ===================================================================== *)
(** * Configuration: validation and export *)
(* ===================================================================== *)

Module ConfigProps.
Import Config ConfigSpec.

Lemma str_in_In (x : string) (l : list string) : str_in x l = true <-> In x l.
Proof.
  unfold str_in. rewrite existsb_exists. split.
  - intros [y [Hy He]]. apply String.eqb_eq in He. subst. exact Hy.
  - intros H. exists x. split; [exact H | apply String.eqb_refl].
Qed.

Lemma truthy_opt_set (o : option string) : truthy_opt o = true <-> is_set o.
Proof.
  unfold truthy_opt, is_set. destruct o as [s|].
  - rewrite negb_true_iff, String.eqb_neq. split.
    + intros H. exists s. split; [reflexivity | exact H].
    + intros [s' [[= <-] H]]. exact H.
  - split; [discriminate | intros [s [H _]]; discriminate H].
Qed.

Lemma holds_iff (cls : config) (r : rule) :
  violated cls r = false <-> holds cls r.
Proof.
  destruct r; simpl.
  - unfold bad_port. rewrite orb_false_iff, Z.ltb_ge, Z.gtb_ltb, Z.ltb_ge. lia.
  - unfold bad_workers. rewrite Z.ltb_ge. lia.
  - unfold bad_environment. rewrite negb_false_iff. apply str_in_In.
  - unfold bad_log_level. rewrite negb_false_iff. apply str_in_In.
  - unfold bad_file_size. rewrite orb_false_iff, Z.ltb_ge, Z.gtb_ltb, Z.ltb_ge. lia.
  - unfold bad_cache_type. rewrite negb_false_iff. apply str_in_In.
  - unfold bad_redis_url. rewrite andb_false_iff, negb_false_iff, truthy_opt_set.
    rewrite String.eqb_neq. split.
    + intros [H|H] Hr; [contradiction | exact H].
    + intros H. destruct (String.eqb_spec (CACHE_TYPE cls) "redis") as [He|Hne].
      * right. apply H, He.
      * left. exact Hne.
Qed.

(** Each check of [validate] fires exactly when its rule fails. *)
Lemma violated_iff (cls : config) (r : rule) :
  violated cls r = true <-> ~ holds cls r.
Proof.
  rewrite <- holds_iff. destruct (violated cls r); split; congruence.
Qed.

(** The collected errors are the messages of the violated rules, in
    the order of the rules. *)
Lemma errors_violated (cls : config) :
  errors cls = List.map (rule_message cls) (List.filter (violated cls) all_rules).
Proof.
  unfold errors, all_rules. simpl.
  destruct (bad_port cls), (bad_workers cls), (bad_environment cls),
    (bad_log_level cls), (bad_file_size cls), (bad_cache_type cls),
    (bad_redis_url cls); reflexivity.
Qed.

Lemma all_rules_NoDup : List.NoDup all_rules.
Proof.
  unfold all_rules.
  repeat (constructor; [simpl; intuition discriminate|]).
  constructor.
Qed.

Lemma failure_message_lines (errs : list string) :
  errs <> [] ->
  failure_message errs =
  Str.join Str.nl ("Configuration validation failed:" ::
                   List.map (fun e => "  - " +:+ e) errs).
Proof.
  intros H. destruct errs as [|e errs]; [contradiction|]. reflexivity.
Qed.

(** C6.  [Config.validate] raises exactly when some rule of the table
    is violated; the error is one [ValueError] whose message is the
    header line followed by one line ["  - <message>"] for each violated
    rule and for no other rule; when nothing is violated it returns and
    logs the success.  Telemetry enabled without an API key adds a
    warning to the log and has no influence on the result. *)
Theorem validate_aggregates (cls : config) :
  let (logged, result) := validate cls in
  (* raised iff at least one rule is violated *)
  ((exists e, result = Raise e) <-> (exists r, ~ holds cls r)) /\
  (result = Ok tt <-> (forall r, holds cls r)) /\
  (* one aggregated error, one dash-prefixed line for each violated rule *)
  (forall e, result = Raise e ->
     exists broken : list rule,
       List.NoDup broken /\
       (forall r, In r broken <-> ~ holds cls r) /\
       e = ValueError
             (Str.join Str.nl
                ("Configuration validation failed:" ::
                 List.map (fun r => "  - " +:+ rule_message cls r) broken))) /\
  (* telemetry without a key: a warning, never an error *)
  (In (LogWarning "Telemetry is enabled but HONEYCOMB_API_KEY is not set") logged <->
   TELEMETRY_ENABLED cls = true /\ HONEYCOMB_API_KEY cls = "") /\
  (forall msg, In (LogWarning msg) logged -> (forall r, holds cls r) -> result = Ok tt).
Proof.
  unfold validate. rewrite errors_violated.
  set (broken := List.filter (violated cls) all_rules).
  assert (Hbroken : forall r, In r broken <-> ~ holds cls r).
  { intros r. unfold broken. rewrite filter_In, violated_iff.
    split; [intros [_ H]; exact H|]. intros H. split; [|exact H].
    destruct r; simpl; tauto. }
  assert (Hwarn : forall l,
    In (LogWarning "Telemetry is enabled but HONEYCOMB_API_KEY is not set")
       (telemetry_warning cls ++ l) <->
    (TELEMETRY_ENABLED cls = true /\ HONEYCOMB_API_KEY cls = "") \/
    In (LogWarning "Telemetry is enabled but HONEYCOMB_API_KEY is not set") l).
  { intros l. rewrite in_app_iff. unfold telemetry_warning.
    destruct (TELEMETRY_ENABLED cls); simpl.
    - destruct (String.eqb_spec (HONEYCOMB_API_KEY cls) ""); simpl.
      + intuition.
      + intuition congruence.
    - intuition congruence. }
  destruct broken as [|r0 rest] eqn:Eb; simpl List.map; cbv iota beta.
  - assert (Hall : forall r, holds cls r).
    { intros r. apply holds_iff. destruct (violated cls r) eqn:Ev; [|reflexivity].
      apply violated_iff, Hbroken in Ev. destruct Ev. }
    split; [|split; [|split; [|split]]].
    + split; [intros [e He]; discriminate He|].
      intros [r Hr]. exfalso. apply Hr, Hall.
    + split; [intros _; exact Hall | reflexivity].
    + intros e He. discriminate He.
    + rewrite Hwarn. split; [|intros H; left; exact H].
      intros [H|H]; [exact H|]. simpl in H. destruct H as [H|[]]. discriminate H.
    + reflexivity.
  - assert (Hr0 : ~ holds cls r0) by (apply Hbroken; left; reflexivity).
    split; [|split; [|split; [|split]]].
    + split; [intros _; exists r0; exact Hr0|]. intros _. eexists. reflexivity.
    + split; [intros H; discriminate H|]. intros H. exfalso. apply Hr0, H.
    + intros e [= <-]. exists (r0 :: rest). split; [|split].
      * rewrite <- Eb. apply List.NoDup_filter, all_rules_NoDup.
      * exact Hbroken.
      * f_equal. change (rule_message cls r0 :: List.map (rule_message cls) rest)
          with (List.map (rule_message cls) (r0 :: rest)).
        rewrite failure_message_lines by discriminate.
        rewrite List.map_map. reflexivity.
    + rewrite <- (app_nil_r (telemetry_warning cls)) at 1. rewrite Hwarn.
      split; [|intros H; left; exact H]. intros [H|[]]. exact H.
    + intros msg _ Hall. exfalso. apply Hr0, Hall.
Qed.

End ConfigProps.

Module ConfigExport.
Import Config ConfigSpec.

Lemma is_sensitive_spec (key : string) :
  is_sensitive key = true <-> mentions_sensitive_word key.
Proof.
  unfold is_sensitive, mentions_sensitive_word, sensitive_words.
  rewrite existsb_exists. split.
  - intros [word [Hin Hc]]. apply StrFacts.contains_spec in Hc.
    destruct Hc as [pre [post Hc]]. exists word, pre, post. split; assumption.
  - intros [word [pre [post [Hin Hc]]]]. exists word. split; [exact Hin|].
    apply StrFacts.contains_spec. exists pre, post. exact Hc.
Qed.

Lemma redacted_list_length (n : nat) : List.length (redacted_list n) = n.
Proof. unfold redacted_list. rewrite List.length_map, List.length_seq. reflexivity. Qed.

Lemma redacted_list_nth (n i : nat) :
  (i < n)%nat -> nth_error (redacted_list n) i = Some (indexed_marker i).
Proof.
  intros H. unfold redacted_list. rewrite nth_error_map.
  rewrite nth_error_seq. destruct (Nat.ltb_spec i n) as [_|Hge]; [|lia].
  reflexivity.
Qed.

(** What [to_dict] stores under a key, from what the namespace has. *)
Lemma get_to_dict (ns : namespace) (key : string) :
  get key (to_dict ns) =
  if exported key
  then option_map (fun v => if is_sensitive key then redact v else v) (get key ns)
  else None.
Proof.
  induction ns as [|[k v] ns IH]; simpl.
  - destruct (exported key); reflexivity.
  - destruct (String.eqb_spec k key) as [->|Hne].
    + destruct (exported key) eqn:Ex; simpl.
      * rewrite String.eqb_refl. reflexivity.
      * exact IH.
    + destruct (exported k); simpl; [|exact IH].
      apply String.eqb_neq in Hne. rewrite Hne. exact IH.
Qed.

(** C7.  [Config.to_dict] has an entry exactly for the names of the
    namespace that are upper case and do not start with an underscore.
    Under a name that mentions none of the words key, secret, password,
    token (in any letter case) the value is the setting's value.  Under
    a name that mentions one, a non-empty string becomes
    ["***REDACTED***"], a non-empty list of length n becomes the list of
    the n markers ["***REDACTEDi***"] for i = 0 .. n-1, and an empty
    string or empty list stays as it is.  [PROJECT_NAME] and [API_PORT]
    mention no sensitive word. *)
Theorem to_dict_redacts (ns : namespace) (key : string) :
  (exported key = false -> get key (to_dict ns) = None) /\
  (get key ns = None -> get key (to_dict ns) = None) /\
  (exported key = true -> forall v, get key ns = Some v ->
     (~ mentions_sensitive_word key -> get key (to_dict ns) = Some v) /\
     (mentions_sensitive_word key ->
        (forall s, v = VStr s -> s <> "" ->
           get key (to_dict ns) = Some (VStr "***REDACTED***")) /\
        (forall l, v = VList l -> l <> [] ->
           exists markers,
             get key (to_dict ns) = Some (VList markers) /\
             List.length markers = List.length l /\
             forall i, (i < List.length l)%nat ->
                       nth_error markers i = Some (indexed_marker i)) /\
        (v = VStr "" \/ v = VList [] -> get key (to_dict ns) = Some v))) /\
  ~ mentions_sensitive_word "PROJECT_NAME" /\
  ~ mentions_sensitive_word "API_PORT".
Proof.
  rewrite get_to_dict. split; [|split; [|split; [|split]]].
  - intros ->. reflexivity.
  - intros ->. destruct (exported key); reflexivity.
  - intros -> v ->. simpl. split.
    + intros Hn. destruct (is_sensitive key) eqn:Es; [|reflexivity].
      exfalso. apply Hn, is_sensitive_spec, Es.
    + intros Hs. apply is_sensitive_spec in Hs. rewrite Hs.
      split; [|split].
      * intros s -> Hne. simpl. apply String.eqb_neq in Hne. rewrite Hne. reflexivity.
      * intros l -> Hne. destruct l as [|x l]; [contradiction|].
        exists (redacted_list (List.length (x :: l))). split; [reflexivity|].
        split; [apply redacted_list_length|]. intros i. apply redacted_list_nth.
      * intros [-> | ->]; reflexivity.
  - rewrite <- is_sensitive_spec. discriminate.
  - rewrite <- is_sensitive_spec. discriminate.
Qed.

(** The redaction test of the suite, on the sample namespace. *)
Example to_dict_sample :
  get "API_TOKENS" (to_dict sample_namespace)
    = Some (VList ["***REDACTED0***"; "***REDACTED1***"]) /\
  get "SECRET_KEY" (to_dict sample_namespace) = Some (VStr "***REDACTED***") /\
  get "API_PORT" (to_dict sample_namespace) = Some (VInt 8000) /\
  get "validate" (to_dict sample_namespace) = None.
Proof. repeat split; reflexivity. Qed.

End ConfigExport.

(* ===================================================================== *)
(** * Mail server: reading a message *)
(* ===================================================================== *)

Module DictFacts.

Lemma get_set_eq (k : string) (v : json) (kv : list (string * json)) :
  Dict.get k (Dict.set k v kv) = Some v.
Proof.
  induction kv as [|[k' v'] kv IH]; simpl.
  - rewrite String.eqb_refl. reflexivity.
  - destruct (String.eqb k' k) eqn:Ek; simpl; rewrite Ek; [reflexivity | exact IH].
Qed.

Lemma get_set_ne (k k0 : string) (v : json) (kv : list (string * json)) :
  k0 <> k -> Dict.get k0 (Dict.set k v kv) = Dict.get k0 kv.
Proof.
  intros Hne. induction kv as [|[k' v'] kv IH]; simpl.
  - apply String.eqb_neq in Hne. rewrite String.eqb_sym, Hne. reflexivity.
  - destruct (String.eqb_spec k' k) as [->|Hk]; simpl.
    + apply not_eq_sym, String.eqb_neq in Hne. rewrite Hne. reflexivity.
    + rewrite IH. reflexivity.
Qed.

(** Assigning the value a key already has does not change the dict. *)
Lemma set_same (k : string) (v : json) (kv : list (string * json)) :
  Dict.get k kv = Some v -> Dict.set k v kv = kv.
Proof.
  induction kv as [|[k' v'] kv IH]; simpl; [discriminate|].
  destruct (String.eqb k' k); [intros [= ->]; reflexivity|].
  intros H. rewrite IH by exact H. reflexivity.
Qed.

Lemma set_set (k : string) (v v' : json) (kv : list (string * json)) :
  Dict.set k v' (Dict.set k v kv) = Dict.set k v' kv.
Proof.
  induction kv as [|[k0 v0] kv IH]; simpl.
  - rewrite String.eqb_refl. reflexivity.
  - destruct (String.eqb k0 k) eqn:Ek; simpl; rewrite Ek; [reflexivity|].
    rewrite IH. reflexivity.
Qed.

Lemma get_some_nonempty (k : string) (v : json) (kv : list (string * json)) :
  Dict.get k kv = Some v -> truthy (JObj kv) = true.
Proof. destruct kv; [discriminate | reflexivity]. Qed.

End DictFacts.

Module PathFacts.

Lemma entry_name_ok (prefix id suffix : string) :
  Str.contains "/" id = false ->
  entry_name prefix id suffix = Ok (prefix +:+ id +:+ suffix).
Proof. intros H. unfold entry_name. rewrite H. reflexivity. Qed.

Lemma entry_name_inv (prefix id suffix name : string) :
  entry_name prefix id suffix = Ok name ->
  Str.contains "/" id = false /\ name = prefix +:+ id +:+ suffix.
Proof.
  unfold entry_name. destruct (Str.contains "/" id); [discriminate|].
  intros [= <-]. split; reflexivity.
Qed.

End PathFacts.

Module MailRead.
Import Mail.

Section Read.
Context {E : Type}.
Implicit Types (w : world E) (message_id name : string).

(** A file that does not load is read like a missing file. *)
Lemma load_message_unloadable w message_id name :
  get_message_path message_id = Ok name ->
  mail w !! name = None \/ mail w !! name = Some FCorrupt \/
    mail w !! name = Some FUnreadable ->
  load_message message_id w = (Ok JNull, w).
Proof.
  intros Hp H. unfold load_message, bind, lift. rewrite Hp.
  destruct H as [-> | [-> | ->]]; reflexivity.
Qed.

(** C9.  The file of a message identifier exists but does not load.
    When it is text that is not JSON, or cannot be read,
    [mcp__mail_read] returns the not-found payload, the very result
    it gives once the file is removed, and leaves the whole world,
    this file included, as it was.  When its bytes are not text,
    [mcp__mail_read] raises [UnicodeDecodeError] instead, where it
    returns the not-found payload once the file is removed; the world
    is left as it was here too. *)
Theorem mail_read_corrupt_file w message_id name :
  get_message_path message_id = Ok name ->
  (mail w !! name = Some FCorrupt \/ mail w !! name = Some FUnreadable ->
   mcp__mail_read message_id w = (Ok (not_found message_id), w) /\
   fst (mcp__mail_read message_id (with_mail (delete name) w))
     = fst (mcp__mail_read message_id w)) /\
  (mail w !! name = Some FUndecodable ->
   mcp__mail_read message_id w = (Raise UnicodeDecodeError, w) /\
   fst (mcp__mail_read message_id (with_mail (delete name) w))
     = Ok (not_found message_id)).
Proof.
  intros Hp.
  assert (H2 : mcp__mail_read message_id (with_mail (delete name) w)
               = (Ok (not_found message_id), with_mail (delete name) w)).
  { unfold mcp__mail_read, bind at 1.
    rewrite (load_message_unloadable _ message_id name Hp).
    - reflexivity.
    - left. simpl. apply lookup_delete_eq. }
  split.
  - intros H.
    assert (H1 : mcp__mail_read message_id w = (Ok (not_found message_id), w)).
    { unfold mcp__mail_read, bind at 1.
      rewrite (load_message_unloadable w message_id name Hp) by tauto.
      reflexivity. }
    rewrite H1, H2. split; reflexivity.
  - intros H. rewrite H2. split; [|reflexivity].
    unfold mcp__mail_read, load_message, bind, lift. rewrite Hp, H.
    reflexivity.
Qed.

(** C9, the failing input.  The file of message [m2] holds bytes that
    are not text: [mcp__mail_read] raises [UnicodeDecodeError], where
    for the identifier [m3], which has no file, it returns the
    not-found payload. *)
Theorem mail_read_undecodable_raises :
  mail Samples.binary_mail !! "msg_m2.json" = Some FUndecodable /\
  mcp__mail_read "m2" Samples.binary_mail
  = (Raise UnicodeDecodeError, Samples.binary_mail) /\
  mail Samples.binary_mail !! "msg_m3.json" = None /\
  mcp__mail_read "m3" Samples.binary_mail
  = (Ok (not_found "m3"), Samples.binary_mail).
Proof. vm_compute. repeat split; reflexivity. Qed.

(** C3.  When the file of a message identifier holds a record whose
    [id] is that identifier, [mcp__mail_read] returns the record with
    [read] set to [True] and writes exactly that record back to the
    same file, touching nothing else; every other field of the record
    ([id], [from], [to], [subject], [body], [timestamp]) keeps its
    value; and a second read returns the same record, [read] being
    [True], and leaves the store as the first read left it. *)
Theorem mail_read_marks_read w message_id name kv :
  get_message_path message_id = Ok name ->
  mail w !! name = Some (FJson (JObj kv)) ->
  Dict.get "id" kv = Some (JStr message_id) ->
  let message := JObj (Dict.set "read" (JBool true) kv) in
  let w' := with_mail (insert name (FJson message)) w in
  mcp__mail_read message_id w = (Ok message, w') /\
  Dict.get "read" (Dict.set "read" (JBool true) kv) = Some (JBool true) /\
  (forall k, k <> "read" ->
     Dict.get k (Dict.set "read" (JBool true) kv) = Dict.get k kv) /\
  mcp__mail_read message_id w' = (Ok message, w').
Proof.
  intros Hp Hf Hid message w'.
  assert (Hread : forall w0 kv0,
    mail w0 !! name = Some (FJson (JObj kv0)) ->
    Dict.get "id" kv0 = Some (JStr message_id) ->
    mcp__mail_read message_id w0 =
    (Ok (JObj (Dict.set "read" (JBool true) kv0)),
     with_mail (insert name (FJson (JObj (Dict.set "read" (JBool true) kv0)))) w0)).
  { intros w0 kv0 Hf0 Hid0.
    unfold mcp__mail_read, load_message, save_message, bind, lift, ret.
    rewrite Hp, Hf0. rewrite (DictFacts.get_some_nonempty _ _ _ Hid0). simpl.
    rewrite DictFacts.get_set_ne by discriminate. rewrite Hid0. simpl.
    rewrite Hp. reflexivity. }
  split; [apply Hread; assumption|].
  split; [apply DictFacts.get_set_eq|].
  split; [intros k Hk; apply DictFacts.get_set_ne; exact Hk|].
  rewrite (Hread w' (Dict.set "read" (JBool true) kv)).
  - rewrite DictFacts.set_set. fold message. f_equal.
    unfold w', with_mail. simpl. f_equal. apply insert_insert_eq.
  - unfold w'. simpl. apply lookup_insert_eq.
  - rewrite DictFacts.get_set_ne by discriminate. exact Hid.
Qed.

End Read.

End MailRead.

(* ===================================================================== *)
(** * Sorting *)
(* ===================================================================== *)

Module SortFacts.
Import Sort ServerSpec.

Lemma ltb_leb (s t : string) : String.ltb s t = true -> String.leb s t = true.
Proof. unfold String.ltb, String.leb. destruct (String.compare s t); congruence. Qed.

Lemma ltb_false_leb (s t : string) : String.ltb s t = false -> String.leb t s = true.
Proof.
  unfold String.ltb, String.leb. rewrite (String.compare_antisym t s).
  destruct (String.compare s t); simpl; congruence.
Qed.

Lemma leb_trans (s t u : string) :
  String.leb s t = true -> String.leb t u = true -> String.leb s u = true.
Proof.
  intros H1 H2. apply Is_true_true.
  apply (@transitivity _ String.le _ s t u); apply Is_true_true; assumption.
Qed.

Section Decorated.
Context {A : Type}.
Implicit Types (p q : string * A) (l : list (string * A)).

Lemma insert_desc_perm p l : Permutation (insert_desc p l) (p :: l).
Proof.
  induction l as [|q l IH]; simpl; [reflexivity|].
  destruct (String.ltb (fst p) (fst q)); [|reflexivity].
  rewrite IH. apply perm_swap.
Qed.

Lemma sort_desc_perm l : Permutation (sort_desc l) l.
Proof.
  induction l as [|p l IH]; simpl; [reflexivity|].
  rewrite insert_desc_perm, IH. reflexivity.
Qed.

Lemma insert_desc_sorted p l :
  StronglySorted ge_key l -> StronglySorted ge_key (insert_desc p l).
Proof.
  induction 1 as [|q l Hl IH Hq]; simpl.
  - constructor; constructor.
  - destruct (String.ltb (fst p) (fst q)) eqn:Hlt.
    + constructor; [exact IH|].
      apply (Permutation_Forall (Permutation_sym (insert_desc_perm p l))).
      constructor; [|exact Hq]. apply ltb_leb, Hlt.
    + apply ltb_false_leb in Hlt.
      constructor; [constructor; assumption|].
      constructor; [exact Hlt|].
      eapply List.Forall_impl; [|exact Hq]. intros x Hx.
      unfold ge_key in *. eapply leb_trans; eassumption.
Qed.

Lemma sort_desc_sorted l : StronglySorted ge_key (sort_desc l).
Proof.
  induction l as [|p l IH]; simpl; [constructor|].
  apply insert_desc_sorted, IH.
Qed.

(** Stability: the elements with a given key keep their order. *)
Lemma insert_desc_stable (k : string) p l :
  StronglySorted ge_key l ->
  List.filter (fun q => String.eqb (fst q) k) (insert_desc p l) =
  List.filter (fun q => String.eqb (fst q) k) (p :: l).
Proof.
  induction 1 as [|q l Hl IH Hq]; [reflexivity|].
  simpl insert_desc. destruct (String.ltb (fst p) (fst q)) eqn:Hlt; [|reflexivity].
  simpl List.filter at 1. rewrite IH. simpl.
  destruct (String.eqb_spec (fst p) k) as [Hp|Hp]; [|reflexivity].
  destruct (String.eqb_spec (fst q) k) as [Hq'|Hq']; [|reflexivity].
  exfalso. rewrite Hp, Hq' in Hlt. unfold String.ltb in Hlt.
  assert (Hc : String.compare k k = Eq).
  { destruct (String.compare k k) eqn:Hc; [reflexivity| |].
    - pose proof (String.compare_antisym k k) as Ha. rewrite Hc in Ha. discriminate Ha.
    - pose proof (String.compare_antisym k k) as Ha. rewrite Hc in Ha. discriminate Ha. }
  rewrite Hc in Hlt. discriminate Hlt.
Qed.

Lemma sort_desc_stable (k : string) l :
  List.filter (fun q => String.eqb (fst q) k) (sort_desc l) =
  List.filter (fun q => String.eqb (fst q) k) l.
Proof.
  induction l as [|p l IH]; [reflexivity|].
  simpl sort_desc. rewrite insert_desc_stable by apply sort_desc_sorted.
  simpl. rewrite IH. reflexivity.
Qed.

End Decorated.

(** ** [py_sort_desc] on string keys *)

Lemma keys_str (keyf : json -> outcome json) (f : json -> string) (l : list json) :
  Forall (fun x => keyf x = Ok (JStr (f x))) l ->
  keys keyf l = Ok (List.map (fun x => JStr (f x)) l).
Proof.
  induction 1 as [|x l Hx _ IH]; simpl; [reflexivity|].
  rewrite Hx, IH. reflexivity.
Qed.

Lemma str_keys_map (f : json -> string) (l : list json) :
  str_keys (List.map (fun x => JStr (f x)) l) = Some (List.map f l).
Proof. induction l as [|x l IH]; simpl; [|rewrite IH]; reflexivity. Qed.

Lemma combine_map_self (f : json -> string) (l : list json) :
  List.combine (List.map f l) l = List.map (fun x => (f x, x)) l.
Proof. induction l as [|x l IH]; simpl; [|rewrite IH]; reflexivity. Qed.

Lemma sorted_undecorate (f : json -> string) (d : list (string * json)) :
  Forall (fun p => fst p = f (snd p)) d ->
  StronglySorted ge_key d ->
  StronglySorted (fun x y => String.leb (f y) (f x) = true) (List.map snd d).
Proof.
  intros Hd Hs. induction Hs as [|p d Hs IH Hp]; simpl; [constructor|].
  inversion Hd as [|? ? Hp0 Hd0]; subst.
  constructor; [apply IH, Hd0|].
  apply List.Forall_map. rewrite List.Forall_forall in Hp, Hd0 |- *.
  intros q Hq. specialize (Hp q Hq). specialize (Hd0 q Hq).
  unfold ge_key in Hp. rewrite <- Hp0, <- Hd0. exact Hp.
Qed.

Lemma py_sort_desc_str (keyf : json -> outcome json) (f : json -> string)
  (l : list json) :
  Forall (fun x => keyf x = Ok (JStr (f x))) l ->
  py_sort_desc keyf l = Ok (sorted_by f l).
Proof.
  intros H. unfold py_sort_desc. rewrite (keys_str keyf f l H). simpl.
  rewrite str_keys_map, combine_map_self. reflexivity.
Qed.

Lemma sorted_by_perm (f : json -> string) (l : list json) :
  Permutation (sorted_by f l) l.
Proof.
  unfold sorted_by. rewrite sort_desc_perm, List.map_map. simpl.
  rewrite List.map_id. reflexivity.
Qed.

Lemma sorted_by_sorted (f : json -> string) (l : list json) :
  StronglySorted (fun x y => String.leb (f y) (f x) = true) (sorted_by f l).
Proof.
  unfold sorted_by. apply sorted_undecorate; [|apply sort_desc_sorted].
  apply (Permutation_Forall (Permutation_sym (sort_desc_perm _))).
  apply List.Forall_map. apply List.Forall_forall. intros x _. reflexivity.
Qed.

Lemma sortable_key (k : string) (x : json) :
  sortable k x -> py_get_or k (JStr "") x = Ok (JStr (sort_key k x)).
Proof.
  intros [kv [-> H]]. unfold sort_key. simpl.
  destruct H as [-> | [s ->]]; reflexivity.
Qed.

(** Sorting sortable records under key [k] returns them all, newest
    first. *)
Lemma py_sort_desc_sortable (k : string) (l : list json) :
  Forall (sortable k) l ->
  py_sort_desc (py_get_or k (JStr "")) l = Ok (sorted_by (sort_key k) l) /\
  Permutation (sorted_by (sort_key k) l) l /\
  newest_first k (sorted_by (sort_key k) l).
Proof.
  intros H. split; [|split].
  - apply py_sort_desc_str. eapply List.Forall_impl; [|exact H].
    intros x Hx. apply sortable_key, Hx.
  - apply sorted_by_perm.
  - apply sorted_by_sorted.
Qed.

End SortFacts.

(* ===================================================================== *)
(** * Directories and listings *)
(* ===================================================================== *)

Module ListingFacts.
Import ServerSpec.

Lemma filter_perm {A : Type} (f : A -> bool) (l l' : list A) :
  Permutation l l' -> Permutation (List.filter f l) (List.filter f l').
Proof.
  induction 1 as [|x l l' _ IH|x y l|l l' l'' _ IH1 _ IH2]; simpl.
  - constructor.
  - destruct (f x); [constructor|]; exact IH.
  - destruct (f x), (f y); try reflexivity. apply perm_swap.
  - etransitivity; eassumption.
Qed.

Lemma filter_none {A : Type} (f : A -> bool) (l : list A) :
  (forall y, In y l -> f y = false) -> List.filter f l = [].
Proof.
  induction l as [|y l IH]; intros H; simpl; [reflexivity|].
  rewrite (H y) by (left; reflexivity). apply IH.
  intros y' Hy'. apply H. right. exact Hy'.
Qed.

Lemma filter_flat_map_nil {A B : Type} (f : B -> bool) (g : A -> list B)
  (l : list A) :
  (forall x y, In x l -> In y (g x) -> f y = false) ->
  List.filter f (flat_map g l) = [].
Proof.
  intros H. apply filter_none. intros y Hy.
  apply in_flat_map in Hy. destruct Hy as [x [Hx Hy]]. exact (H x y Hx Hy).
Qed.

Lemma glob_In (prefix suffix : string) (d : gmap string file) (name : string)
  (f : file) :
  In (name, f) (glob prefix suffix d) <->
  d !! name = Some f /\ glob_match prefix suffix name = true.
Proof.
  unfold glob. rewrite filter_In. simpl.
  rewrite <- list_elem_of_In, elem_of_map_to_list. reflexivity.
Qed.

Lemma mail_load_all_flat_map (files : list (string * file)) :
  Mail.load_all (List.filter (fun p => glob_match "msg_" ".json" (fst p)) files)
  = flat_map (loaded_from "msg_" ".json") files.
Proof.
  induction files as [|[name f] files IH]; [reflexivity|].
  simpl. unfold loaded_from at 1. simpl.
  destruct (glob_match "msg_" ".json" name); [|exact IH].
  destruct f; simpl; rewrite IH; reflexivity.
Qed.

(** The files of a directory in which every matching file is text. *)
Lemma decodable_glob (prefix suffix : string) (d : gmap string file) :
  decodable prefix suffix d ->
  Forall (fun p => snd p <> FUndecodable) (glob prefix suffix d).
Proof.
  intros Hd. apply List.Forall_forall. intros [name f] Hin.
  apply glob_In in Hin. destruct Hin as [Hf Hg]. simpl. intros ->.
  exact (Hd name Hg Hf).
Qed.

Lemma glob_decodable (prefix suffix : string) (d : gmap string file) :
  Forall (fun p => snd p <> FUndecodable) (glob prefix suffix d) ->
  decodable prefix suffix d.
Proof.
  intros H name Hg Hf. rewrite List.Forall_forall in H.
  apply (H (name, FUndecodable)); [|reflexivity].
  apply glob_In. split; assumption.
Qed.

(** A check of the files of a directory, one by one. *)
Lemma decodable_check (prefix suffix : string) (d : gmap string file) :
  List.forallb (fun p => match snd p with FUndecodable => false | _ => true end)
    (map_to_list d) = true ->
  decodable prefix suffix d.
Proof.
  intros H name _ Hf. rewrite List.forallb_forall in H.
  specialize (H (name, FUndecodable)). simpl in H.
  assert (Hfalse : false = true); [|discriminate Hfalse].
  apply H. apply list_elem_of_In, elem_of_map_to_list. exact Hf.
Qed.

(** Writing a document and removing a file leave the files text. *)
Lemma decodable_insert (prefix suffix : string) (d : gmap string file)
  (name : string) (j : json) :
  decodable prefix suffix d -> decodable prefix suffix (<[name := FJson j]> d).
Proof.
  intros Hd n Hg Hf. apply lookup_insert_Some in Hf.
  destruct Hf as [[_ Hf] | [_ Hf]]; [discriminate | exact (Hd n Hg Hf)].
Qed.

Lemma decodable_delete (prefix suffix : string) (d : gmap string file)
  (name : string) :
  decodable prefix suffix d -> decodable prefix suffix (delete name d).
Proof.
  intros Hd n Hg Hf. apply lookup_delete_Some in Hf.
  exact (Hd n Hg (proj2 Hf)).
Qed.

(** The loop of [list_messages] collects the documents of the files
    that load when every file is text, and raises otherwise. *)
Lemma mail_load_loop_decodable (files : list (string * file)) :
  Forall (fun p => snd p <> FUndecodable) files ->
  Mail.load_loop files = Ok (Mail.load_all files).
Proof.
  induction 1 as [|[name f] files Hf _ IH]; [reflexivity|].
  simpl in *. destruct f; try exact IH.
  - rewrite IH. reflexivity.
  - destruct Hf. reflexivity.
Qed.

Lemma mail_load_loop_outcome (files : list (string * file)) :
  (Forall (fun p => snd p <> FUndecodable) files /\
   Mail.load_loop files = Ok (Mail.load_all files)) \/
  (Exists (fun p => snd p = FUndecodable) files /\
   Mail.load_loop files = Raise UnicodeDecodeError).
Proof.
  induction files as [|[name f] files IH].
  - left. split; [constructor | reflexivity].
  - destruct f; simpl.
    + destruct IH as [[Hf ->] | [Hx ->]].
      * left. split; [constructor; [discriminate | exact Hf] | reflexivity].
      * right. split; [right; exact Hx | reflexivity].
    + destruct IH as [[Hf ->] | [Hx ->]].
      * left. split; [constructor; [discriminate | exact Hf] | reflexivity].
      * right. split; [right; exact Hx | reflexivity].
    + destruct IH as [[Hf ->] | [Hx ->]].
      * left. split; [constructor; [discriminate | exact Hf] | reflexivity].
      * right. split; [right; exact Hx | reflexivity].
    + right. split; [left; reflexivity | reflexivity].
Qed.

Lemma mail_load_loop_ok (files : list (string * file)) (l : list json) :
  Mail.load_loop files = Ok l ->
  l = Mail.load_all files /\ Forall (fun p => snd p <> FUndecodable) files.
Proof.
  intros H. destruct (mail_load_loop_outcome files) as [[Hf Heq] | [_ Heq]];
    rewrite Heq in H; [|discriminate].
  injection H as <-. split; [reflexivity | exact Hf].
Qed.

(** The documents listed from a directory are those of the matching
    files that load. *)
Lemma In_loaded (prefix suffix : string) (d : gmap string file) (j : json) :
  In j (flat_map (loaded_from prefix suffix) (map_to_list d)) <->
  loads prefix suffix d j.
Proof.
  rewrite in_flat_map. unfold loads, loaded_from. split.
  - intros [[name f] [Hin Hj]]. simpl in Hj.
    apply list_elem_of_In, elem_of_map_to_list in Hin.
    destruct (glob_match prefix suffix name) eqn:Hg; [|destruct Hj].
    destruct f; try destruct Hj as [Hj|Hj]; try destruct Hj.
    exists name. split; [exact Hg | exact Hin].
  - intros [name [Hg Hd]]. exists (name, FJson j). split.
    + apply list_elem_of_In, elem_of_map_to_list. exact Hd.
    + simpl. rewrite Hg. left. reflexivity.
Qed.

(** Writing a document to a matching file puts it in the listing, in
    place of what the file held. *)
Lemma loaded_insert (prefix suffix : string) (d : gmap string file)
  (name : string) (j : json) :
  glob_match prefix suffix name = true ->
  Permutation
    (flat_map (loaded_from prefix suffix) (map_to_list (<[name := FJson j]> d)))
    (j :: flat_map (loaded_from prefix suffix) (map_to_list (delete name d))).
Proof.
  intros Hg. rewrite <- (insert_delete_eq d name (FJson j)).
  rewrite (map_to_list_insert (delete name d) name (FJson j))
    by apply lookup_delete_eq.
  simpl. unfold loaded_from at 1. simpl. rewrite Hg. reflexivity.
Qed.

Lemma loads_delete (prefix suffix : string) (d : gmap string file)
  (name : string) (j : json) :
  loads prefix suffix (delete name d) j -> loads prefix suffix d j.
Proof.
  intros [n [Hg Hd]]. exists n. split; [exact Hg|].
  apply lookup_delete_Some in Hd. apply Hd.
Qed.

Lemma startswith_app (p s : string) : Str.startswith p (p +:+ s) = true.
Proof.
  induction p as [|a p IH]; [reflexivity|].
  rewrite StrFacts.app_cons. simpl. rewrite Ascii.eqb_refl. exact IH.
Qed.

Lemma drop_app (p s : string) : Str.drop (String.length p) (p +:+ s) = s.
Proof. induction p as [|a p IH]; [reflexivity | exact IH]. Qed.

Lemma endswith_unfold (p s : string) :
  Str.endswith p s =
  String.eqb p s ||
  match s with EmptyString => false | String _ s' => Str.endswith p s' end.
Proof. destruct s; reflexivity. Qed.

Lemma endswith_refl (s : string) : Str.endswith s s = true.
Proof. rewrite endswith_unfold, String.eqb_refl. reflexivity. Qed.

Lemma endswith_app (s suffix : string) : Str.endswith suffix (s +:+ suffix) = true.
Proof.
  induction s as [|a s IH]; [apply endswith_refl|].
  rewrite StrFacts.app_cons, endswith_unfold, IH. apply orb_true_r.
Qed.

Lemma contains_slash_app (s t : string) :
  Str.contains "/" (s +:+ t) = Str.contains "/" s || Str.contains "/" t.
Proof.
  induction s as [|a s IH]; [reflexivity|].
  rewrite StrFacts.app_cons. simpl. rewrite IH. apply orb_assoc.
Qed.

(** The file of an identifier matches the pattern of its directory. *)
Lemma glob_match_entry (prefix id suffix : string) :
  Str.contains "/" prefix = false ->
  Str.contains "/" id = false ->
  Str.contains "/" suffix = false ->
  glob_match prefix suffix (prefix +:+ id +:+ suffix) = true.
Proof.
  intros Hp Hi Hs. unfold glob_match.
  rewrite startswith_app, drop_app, endswith_app.
  rewrite !contains_slash_app, Hp, Hi, Hs. reflexivity.
Qed.

End ListingFacts.

(* ===================================================================== *)
(** * Mail server: listings and the inbox *)
(* ===================================================================== *)

Module MailListing.
Import Mail ServerSpec.

Lemma well_formed_sortable (x : json) :
  well_formed_message x -> sortable "timestamp" x.
Proof.
  intros [kv [-> [_ [_ [_ [[s Hs] _]]]]]]. exists kv. split; [reflexivity|].
  right. exists s. exact Hs.
Qed.

Section Listing.
Context {E : Type}.
Implicit Types (w : world E).

(** [list_messages], when it returns: every file is text, the result
    is the sort of the documents of the files that load, and nothing
    is written. *)
Lemma list_messages_returns w (messages : list json) w' :
  list_messages w = (Ok messages, w') ->
  w' = w /\
  decodable "msg_" ".json" (mail w) /\
  Sort.py_sort_desc (py_get_or "timestamp" (JStr ""))
    (load_all (glob "msg_" ".json" (mail w))) = Ok messages.
Proof.
  unfold list_messages. intros [= H <-]. split; [reflexivity|].
  destruct (load_loop (glob "msg_" ".json" (mail w))) as [l| |] eqn:Hl;
    try discriminate.
  apply ListingFacts.mail_load_loop_ok in Hl. destruct Hl as [-> Hd].
  split; [apply ListingFacts.glob_decodable, Hd | exact H].
Qed.

(** [list_messages] returns the documents of all message files that
    load, newest first, when they can be sorted and every file is
    text; files that are not JSON or cannot be read are left out. *)
Lemma list_messages_sorted w :
  decodable "msg_" ".json" (mail w) ->
  (forall j, loads "msg_" ".json" (mail w) j -> sortable "timestamp" j) ->
  exists messages,
    list_messages w = (Ok messages, w) /\
    newest_first "timestamp" messages /\
    (forall j, In j messages <-> loads "msg_" ".json" (mail w) j) /\
    Permutation messages
      (flat_map (loaded_from "msg_" ".json") (map_to_list (mail w))).
Proof.
  intros Hd Hs. unfold list_messages.
  rewrite (ListingFacts.mail_load_loop_decodable _
             (ListingFacts.decodable_glob _ _ _ Hd)).
  unfold glob, obind.
  rewrite ListingFacts.mail_load_all_flat_map.
  set (l := flat_map (loaded_from "msg_" ".json") (map_to_list (mail w))).
  assert (Hl : Forall (sortable "timestamp") l).
  { apply List.Forall_forall. intros j Hj. apply Hs, ListingFacts.In_loaded, Hj. }
  destruct (SortFacts.py_sort_desc_sortable "timestamp" l Hl) as [H1 [H2 H3]].
  exists (sorted_by (sort_key "timestamp") l). rewrite H1.
  split; [reflexivity|]. split; [exact H3|]. split; [|exact H2].
  intros j. rewrite <- ListingFacts.In_loaded. fold l.
  split; intros H; [apply (Permutation_in _ H2 H) |
                    apply (Permutation_in _ (Permutation_sym H2) H)].
Qed.

(** On well-formed messages the inbox loop returns, with the entries
    of the messages in order. *)
Lemma inbox_loop_well_formed (to_agent : string) (l : list json) :
  Forall well_formed_message l ->
  inbox_loop to_agent l = Ok (flat_map (inbox_entry to_agent) l).
Proof.
  induction 1 as [|m l Hm _ IH]; [reflexivity|].
  destruct Hm as [kv [-> [[id Hid] [[from Hfrom] [[subject Hsub] [[ts Hts] Hto]]]]]].
  unfold inbox_entry. simpl. rewrite IH.
  assert (Hsum : inbox_summary (JObj kv) =
                 Ok (JObj [("id", id); ("from", from); ("subject", subject);
                           ("timestamp", JStr ts);
                           ("read", default (JBool false) (Dict.get "read" kv))])).
  { unfold inbox_summary. simpl. rewrite Hid, Hfrom, Hsub, Hts. reflexivity. }
  rewrite Hsum.
  destruct Hto as [-> | [tl ->]]; simpl.
  - reflexivity.
  - destruct (existsb (eq_str to_agent) tl); reflexivity.
Qed.

End Listing.

(** The inbox entry of a message carries the message's identifier. *)
Lemma inbox_entry_has_id (to_agent id : string) (m s : json) :
  In s (inbox_entry to_agent m) -> has_id id s = has_id id m.
Proof.
  unfold inbox_entry. simpl.
  destruct m as [| | | | |kv]; simpl; try (intros []).
  destruct (py_in to_agent (default (JList []) (Dict.get "to" kv))) as [[|]| |];
    simpl; try (intros []).
  unfold inbox_summary. simpl.
  destruct (Dict.get "id" kv) as [id'|]; simpl; [|intros []].
  destruct (Dict.get "from" kv); simpl; [|intros []].
  destruct (Dict.get "subject" kv); simpl; [|intros []].
  destruct (Dict.get "timestamp" kv); simpl; [|intros []].
  intros [<-|[]]. reflexivity.
Qed.

End MailListing.

Module MailSend.
Import Mail ServerSpec.

Section SendInbox.
Context {E : Type} (os : os_iface E).
Implicit Types (w : world E).

Lemma addressed_to (r : string) (to_agents : list string) :
  In r to_agents -> List.existsb (eq_str r) (List.map JStr to_agents) = true.
Proof.
  intros H. apply existsb_exists. exists (JStr r). split.
  - apply in_map, H.
  - simpl. apply String.eqb_refl.
Qed.

(** C8.  Let [mcp__mail_send] draw identifier [id] and read time
    [timestamp], in a store of well-formed messages where no message
    of another file carries [id].  Then the send returns [id] and
    stores the message, and for every recipient [r] of the message
    [mcp__mail_inbox r] returns a list with exactly one entry of
    identifier [id]: the entry with the sender, subject and timestamp
    of the sent message and [read] false. *)
Theorem send_then_inbox w (from_agent : string) (to_agents : list string)
  (subject body r : string) :
  let id := fst (os_uuid4 os (env w)) in
  let timestamp := fst (os_utcnow os (snd (os_uuid4 os (env w)))) +:+ "Z" in
  let name := "msg_" +:+ id +:+ ".json" in
  Str.contains "/" id = false ->
  well_formed_mail (mail w) ->
  (forall j, loads "msg_" ".json" (delete name (mail w)) j -> has_id id j = false) ->
  In r to_agents ->
  exists w1 inbox,
    mcp__mail_send os from_agent to_agents subject body w = (Ok id, w1) /\
    mail w1 !! name =
      Some (FJson (JObj [("id", JStr id); ("from", JStr from_agent);
                         ("to", JList (List.map JStr to_agents));
                         ("subject", JStr subject); ("body", JStr body);
                         ("timestamp", JStr timestamp); ("read", JBool false)])) /\
    mcp__mail_inbox r w1 = (Ok inbox, w1) /\
    List.filter (has_id id) inbox =
      [JObj [("id", JStr id); ("from", JStr from_agent); ("subject", JStr subject);
             ("timestamp", JStr timestamp); ("read", JBool false)]].
Proof.
  destruct (os_uuid4 os (env w)) as [id e1] eqn:Hu. simpl.
  destruct (os_utcnow os e1) as [t e2] eqn:Ht.
  simpl. intros Hid Hwf Hfresh Hr.
  set (name := "msg_" +:+ id +:+ ".json").
  set (message := JObj [("id", JStr id); ("from", JStr from_agent);
                        ("to", JList (List.map JStr to_agents));
                        ("subject", JStr subject); ("body", JStr body);
                        ("timestamp", JStr (t +:+ "Z")); ("read", JBool false)]).
  set (w1 := World (<[name := FJson message]> (mail w)) (procs w) (logs w) e2 (trace w)).
  assert (Hsend : mcp__mail_send os from_agent to_agents subject body w = (Ok id, w1)).
  { unfold mcp__mail_send, generate_message_id, utcnow_Z, save_message, ask, bind,
      lift, ret. rewrite Hu. simpl. rewrite Ht. simpl.
    unfold get_message_path. rewrite (PathFacts.entry_name_ok _ _ _ Hid).
    reflexivity. }
  assert (Hg : glob_match "msg_" ".json" name = true).
  { apply ListingFacts.glob_match_entry; [reflexivity | exact Hid | reflexivity]. }
  assert (Hm : well_formed_message message).
  { exists [("id", JStr id); ("from", JStr from_agent);
            ("to", JList (List.map JStr to_agents));
            ("subject", JStr subject); ("body", JStr body);
            ("timestamp", JStr (t +:+ "Z")); ("read", JBool false)].
    split; [reflexivity|]. simpl. repeat split; eauto. }
  (* the files of the new store: the message and the other files *)
  pose proof (ListingFacts.loaded_insert "msg_" ".json" (mail w) name message Hg)
    as Hperm.
  set (others := flat_map (loaded_from "msg_" ".json")
                   (map_to_list (delete name (mail w)))) in Hperm.
  assert (Hothers : Forall well_formed_message others).
  { apply List.Forall_forall. intros j Hj. apply (proj2 Hwf).
    apply (ListingFacts.loads_delete _ _ _ name), ListingFacts.In_loaded, Hj. }
  assert (Hwf1 : forall j, loads "msg_" ".json" (mail w1) j -> well_formed_message j).
  { intros j Hj. apply ListingFacts.In_loaded in Hj.
    apply (Permutation_in _ Hperm) in Hj. destruct Hj as [<-|Hj]; [exact Hm|].
    rewrite List.Forall_forall in Hothers. apply Hothers, Hj. }
  destruct (MailListing.list_messages_sorted w1) as [messages [Hl [_ [Hin Hp]]]].
  { apply ListingFacts.decodable_insert, (proj1 Hwf). }
  { intros j Hj. apply MailListing.well_formed_sortable, Hwf1, Hj. }
  assert (Hall : Forall well_formed_message messages).
  { apply List.Forall_forall. intros j Hj. apply Hwf1, Hin, Hj. }
  exists w1, (flat_map (inbox_entry r) messages).
  split; [exact Hsend|]. split.
  { change (mail w1) with (<[name := FJson message]> (mail w)).
    apply lookup_insert_eq. }
  split.
  { unfold mcp__mail_inbox, bind, lift. rewrite Hl.
    rewrite (MailListing.inbox_loop_well_formed r messages Hall). reflexivity. }
  (* the entries with this identifier, up to the order of the listing *)
  assert (Hq : Permutation
            (List.filter (has_id id) (flat_map (inbox_entry r) messages))
            (List.filter (has_id id) (flat_map (inbox_entry r) (message :: others)))).
  { apply ListingFacts.filter_perm, Permutation_flat_map.
    etransitivity; [exact Hp | exact Hperm]. }
  simpl flat_map in Hq. rewrite List.filter_app in Hq.
  rewrite (ListingFacts.filter_flat_map_nil (has_id id) (inbox_entry r) others) in Hq.
  - rewrite app_nil_r in Hq.
    assert (He : inbox_entry r message =
                 [JObj [("id", JStr id); ("from", JStr from_agent);
                        ("subject", JStr subject);
                        ("timestamp", JStr (t +:+ "Z")); ("read", JBool false)]]).
    { unfold inbox_entry, message, inbox_loop, py_get_or, py_in, obind.
      cbn [Dict.get String.eqb Ascii.eqb Bool.eqb default].
      cbv [Datatypes.id]. rewrite (addressed_to r to_agents Hr). reflexivity. }
    rewrite He in Hq. cbn [List.filter has_id Dict.get String.eqb Ascii.eqb Bool.eqb eq_str] in Hq.
    rewrite String.eqb_refl in Hq.
    apply Permutation_sym, Permutation_length_1_inv in Hq. exact Hq.
  - intros x y Hx Hy. rewrite (MailListing.inbox_entry_has_id r id x y Hy).
    apply Hfresh, ListingFacts.In_loaded, Hx.
Qed.

End SendInbox.

End MailSend.

(* ===================================================================== *)
(** * Process manager: status and stop *)
(* ===================================================================== *)

Module ProcStatus.
Import Proc ServerSpec.

(** A pid the operating system is asked about is never 0. *)
Lemma as_pid_truthy (pid : json) (p : Z) :
  truthy pid = true -> as_pid pid = Ok p -> p <> 0.
Proof.
  destruct pid as [|b|z| | |]; simpl; try discriminate.
  - destruct b; [|discriminate]. intros _ [= <-]. discriminate.
  - intros Hz. destruct ((-2147483648 <=? z) && (z <=? 2147483647)); [|discriminate].
    intros [= <-]. apply negb_true_iff, Z.eqb_neq in Hz. exact Hz.
Qed.

Lemma as_pid_raise (pid : json) (e : exn) :
  as_pid pid = Raise e -> e = TypeError \/ e = OverflowError.
Proof.
  destruct pid as [|b|z| | |]; simpl; intros H.
  - injection H as <-. left. reflexivity.
  - discriminate H.
  - destruct ((-2147483648 <=? z) && (z <=? 2147483647)); [discriminate H|].
    injection H as <-. right. reflexivity.
  - injection H as <-. left. reflexivity.
  - injection H as <-. left. reflexivity.
  - injection H as <-. left. reflexivity.
Qed.

Section Status.
Context {E : Type} (os : os_iface E).
Implicit Types (w : world E) (kv : list (string * json)).

(** [update_process_status] on a dict, case by case. *)
Lemma update_process_status_dict kv w :
  update_process_status os (JObj kv) w =
  let pid := default JNull (Dict.get "pid" kv) in
  if truthy pid then
    match as_pid pid with
    | Ok p =>
        (Ok (JObj (Dict.set "status"
                     (JStr (if fst (os_kill os (env w) p SIG0)
                            then "running" else "stopped")) kv)),
         World (mail w) (procs w) (logs w) (snd (os_kill os (env w) p SIG0))
           (trace w ++ [EvKill p SIG0]))
    | Raise e => (Raise e, w)
    | Unmodelled => (Unmodelled, w)
    end
  else (Ok (JObj (Dict.set "status" (JStr "unknown") kv)), w).
Proof.
  unfold update_process_status, bind, lift. simpl.
  destruct (truthy (default JNull (Dict.get "pid" kv))); simpl; [|reflexivity].
  unfold except_OSError, kill, bind, lift.
  destruct (as_pid (default JNull (Dict.get "pid" kv))) as [p|e|] eqn:Ep.
  - destruct (os_kill os (env w) p SIG0) as [[|] e']; reflexivity.
  - destruct (as_pid_raise _ _ Ep) as [-> | ->]; reflexivity.
  - reflexivity.
Qed.

Lemma load_process_found w process_id name (j : json) :
  get_process_path process_id = Ok name ->
  procs w !! name = Some (FJson j) ->
  load_process process_id w = (Ok j, w).
Proof.
  intros Hp Hf. unfold load_process, bind, lift. rewrite Hp, Hf. reflexivity.
Qed.

Lemma load_process_unloadable w process_id name :
  get_process_path process_id = Ok name ->
  procs w !! name = None \/ procs w !! name = Some FCorrupt \/
    procs w !! name = Some FUnreadable ->
  load_process process_id w = (Ok JNull, w).
Proof.
  intros Hp H. unfold load_process, bind, lift. rewrite Hp.
  destruct H as [-> | [-> | ->]]; reflexivity.
Qed.

(** Without a record, or with a record without pid, [mcp__process_stop]
    returns [False]; it makes no call to the operating system and
    writes nothing. *)
Lemma process_stop_no_record w process_id name :
  get_process_path process_id = Ok name ->
  procs w !! name = None \/ procs w !! name = Some FCorrupt \/
    procs w !! name = Some FUnreadable ->
  mcp__process_stop os process_id w = (Ok false, w).
Proof.
  intros Hp H. unfold mcp__process_stop, bind at 1.
  rewrite (load_process_unloadable w process_id name Hp H). reflexivity.
Qed.

Lemma process_stop_no_pid w process_id name kv :
  get_process_path process_id = Ok name ->
  procs w !! name = Some (FJson (JObj kv)) ->
  truthy (default JNull (Dict.get "pid" kv)) = false ->
  mcp__process_stop os process_id w = (Ok false, w).
Proof.
  intros Hp Hf Hpid. unfold mcp__process_stop, bind at 1.
  rewrite (load_process_found w process_id name _ Hp Hf).
  destruct (truthy (JObj kv)); [|reflexivity]. simpl.
  unfold bind at 1, lift. simpl. rewrite Hpid. reflexivity.
Qed.

End Status.

End ProcStatus.

Module ProcStop.
Import Proc ServerSpec.

Section Stop.
Context {E : Type} (os : os_iface E).
Implicit Types (w : world E) (kv : list (string * json)).

(** The signals end normally or with an [OSError]; they touch no file. *)
Lemma terminate_outcome w (pid : json) (p : Z) :
  as_pid pid = Ok p ->
  exists w1,
    (terminate os pid w = (Ok tt, w1) \/ terminate os pid w = (Raise OSError, w1)) /\
    mail w1 = mail w /\ procs w1 = procs w /\ logs w1 = logs w.
Proof.
  intros Hp.
  unfold terminate, getpgid, killpg, sleep, is_process_running, except_OSError,
    kill, syscall, bind, lift, ret.
  rewrite Hp. simpl.
  destruct (os_getpgid os (env w) p) as [[g|] e1]; simpl;
    [|eexists; split; [right; reflexivity|repeat split]].
  destruct (os_killpg os e1 g SIGTERM) as [[|] e2]; simpl;
    [|eexists; split; [right; reflexivity|repeat split]].
  destruct (os_kill os (os_sleep os e2 2) p SIG0) as [[|] e3]; simpl;
    [|eexists; split; [left; reflexivity|repeat split]].
  destruct (os_getpgid os e3 p) as [[g'|] e4]; simpl;
    [|eexists; split; [right; reflexivity|repeat split]].
  destruct (os_killpg os e4 g' SIGKILL) as [[|] e5]; simpl;
    eexists; (split; [first [left; reflexivity | right; reflexivity]|repeat split]).
Qed.

(** When the process is not there, the first call fails. *)
Lemma terminate_gone w (pid : json) (p : Z) :
  as_pid pid = Ok p ->
  fst (os_getpgid os (env w) p) = None ->
  terminate os pid w =
  (Raise OSError,
   World (mail w) (procs w) (logs w) (snd (os_getpgid os (env w) p))
     (trace w ++ [EvGetpgid p])).
Proof.
  intros Hp Hg. unfold terminate, getpgid, syscall, bind, lift. rewrite Hp.
  destruct (os_getpgid os (env w) p) as [[g|] e1]; [discriminate Hg | reflexivity].
Qed.

Lemma save_process_ok w (process_id name : string) kv :
  get_process_path process_id = Ok name ->
  Dict.get "id" kv = Some (JStr process_id) ->
  save_process (JObj kv) w =
  (Ok tt, with_procs (insert name (FJson (JObj kv))) w).
Proof.
  intros Hp Hid. unfold save_process, bind, lift. simpl.
  rewrite Hid. simpl. rewrite Hp. reflexivity.
Qed.

(** [mcp__process_stop] on a record that has a pid, from the outcome
    of the signals. *)
Lemma process_stop_unfold w process_id name kv :
  get_process_path process_id = Ok name ->
  procs w !! name = Some (FJson (JObj kv)) ->
  Dict.get "id" kv = Some (JStr process_id) ->
  truthy (default JNull (Dict.get "pid" kv)) = true ->
  mcp__process_stop os process_id w =
  match terminate os (default JNull (Dict.get "pid" kv)) w with
  | (Ok _, w1) =>
      (Ok true,
       with_procs
         (insert name
            (FJson (JObj (Dict.set "stopped_at"
                            (JStr (fst (os_utcnow os (env w1)) +:+ "Z"))
                            (Dict.set "status" (JStr "stopped") kv)))))
         (World (mail w1) (procs w1) (logs w1) (snd (os_utcnow os (env w1)))
            (trace w1)))
  | (Raise OSError, w1) =>
      (Ok true,
       with_procs
         (insert name (FJson (JObj (Dict.set "status" (JStr "stopped") kv))))
         w1)
  | (Raise e, w1) => (Raise e, w1)
  | (Unmodelled, w1) => (Unmodelled, w1)
  end.
Proof.
  intros Hp Hf Hid Htr.
  unfold mcp__process_stop. unfold bind at 1.
  rewrite (ProcStatus.load_process_found w process_id name _ Hp Hf).
  rewrite (DictFacts.get_some_nonempty _ _ _ Hid). simpl.
  unfold bind at 1, lift at 1. simpl. rewrite Htr. simpl.
  unfold except_OSError. unfold bind at 1.
  destruct (terminate os (default JNull (Dict.get "pid" kv)) w) as [[[]|e|] w1].
  - unfold utcnow_Z, ask, save_process, bind, lift, ret. simpl.
    destruct (os_utcnow os (env w1)) as [t e'] eqn:Hn. simpl.
    rewrite !DictFacts.get_set_ne by discriminate. rewrite Hid. simpl.
    rewrite Hp. reflexivity.
  - destruct e; try reflexivity.
    unfold save_process, bind, lift, ret. simpl.
    rewrite DictFacts.get_set_ne by discriminate. rewrite Hid. simpl.
    rewrite Hp. reflexivity.
  - reflexivity.
Qed.

End Stop.

End ProcStop.

Module ProcStopSpec.
Import Proc ServerSpec.

Section Stop.
Context {E : Type} (os : os_iface E).
Implicit Types (w : world E) (kv : list (string * json)).

(** C1.  Without a record (no file, or a file that does
    not load) and for a record without pid, [mcp__process_stop]
    returns [False] and changes nothing.  For a record with a pid it
    returns [True], whatever the operating system answers, and then
    the persisted record has status stopped and its other fields are
    the stored ones, except [stopped_at]: when the signals went
    through, [stopped_at] is the time read after them; when the
    operating system refused one, as it does if the process no longer
    exists, [stopped_at] is left as stored. *)
Theorem process_stop_marks_stopped w process_id name :
  get_process_path process_id = Ok name ->
  (procs w !! name = None \/ procs w !! name = Some FCorrupt \/
     procs w !! name = Some FUnreadable ->
   mcp__process_stop os process_id w = (Ok false, w)) /\
  (forall kv,
     procs w !! name = Some (FJson (JObj kv)) ->
     truthy (pid_field kv) = false ->
     mcp__process_stop os process_id w = (Ok false, w)) /\
  (forall kv p,
     procs w !! name = Some (FJson (JObj kv)) ->
     Dict.get "id" kv = Some (JStr process_id) ->
     truthy (pid_field kv) = true ->
     as_pid (pid_field kv) = Ok p ->
     exists w' kv',
       mcp__process_stop os process_id w = (Ok true, w') /\
       procs w' = <[name := FJson (JObj kv')]> (procs w) /\
       mail w' = mail w /\ logs w' = logs w /\
       Dict.get "status" kv' = Some (JStr "stopped") /\
       (forall k, k <> "status" -> k <> "stopped_at" ->
                  Dict.get k kv' = Dict.get k kv) /\
       (forall w1, terminate os (pid_field kv) w = (Ok tt, w1) ->
          Dict.get "stopped_at" kv'
          = Some (JStr (fst (os_utcnow os (env w1)) +:+ "Z"))) /\
       (forall w1, terminate os (pid_field kv) w = (Raise OSError, w1) ->
          Dict.get "stopped_at" kv' = Dict.get "stopped_at" kv) /\
       (fst (os_getpgid os (env w) p) = None ->
          Dict.get "stopped_at" kv' = Dict.get "stopped_at" kv)).
Proof.
  intros Hp. split; [|split].
  - apply ProcStatus.process_stop_no_record, Hp.
  - intros kv Hf Hpid. eapply ProcStatus.process_stop_no_pid; eassumption.
  - intros kv p Hf Hid Htr Hpid.
    pose proof (ProcStop.process_stop_unfold os w process_id name kv Hp Hf Hid Htr)
      as Hstop.
    destruct (ProcStop.terminate_outcome os w _ p Hpid) as [w1 [Ht [Hm [Hpr Hl]]]].
    fold (pid_field kv) in Hstop, Ht.
    assert (Hgone : fst (os_getpgid os (env w) p) = None ->
                    exists w2, terminate os (pid_field kv) w = (Raise OSError, w2)).
    { intros Hg. eexists. exact (ProcStop.terminate_gone os w _ p Hpid Hg). }
    destruct Ht as [Ht|Ht]; rewrite Ht in Hstop.
    + eexists. eexists. split; [exact Hstop|]. simpl.
      rewrite Hm, Hpr, Hl. repeat split.
      * rewrite DictFacts.get_set_ne by discriminate. apply DictFacts.get_set_eq.
      * intros k H1 H2. rewrite !DictFacts.get_set_ne by assumption. reflexivity.
      * intros w2 H. rewrite Ht in H. injection H as <-. apply DictFacts.get_set_eq.
      * intros w2 H. rewrite Ht in H. discriminate H.
      * intros Hg. destruct (Hgone Hg) as [w2 H2]. rewrite Ht in H2. discriminate H2.
    + eexists. eexists. split; [exact Hstop|]. simpl.
      rewrite Hm, Hpr, Hl. repeat split.
      * apply DictFacts.get_set_eq.
      * intros k H1 H2. rewrite DictFacts.get_set_ne by assumption. reflexivity.
      * intros w2 H. rewrite Ht in H. discriminate H.
      * intros w2 _. apply DictFacts.get_set_ne. discriminate.
      * intros _. apply DictFacts.get_set_ne. discriminate.
Qed.

End Stop.

(** The record of a process that has exited is marked stopped without
    a [stopped_at] time: not every stop stamps the record. *)
Lemma process_stop_gone_unstamped :
  ~ stop_stamps_record ToyOS.os Samples.gone "p1".
Proof.
  intros H.
  destruct (H "proc_p1.json" _ (JInt 4242) eq_refl eq_refl eq_refl eq_refl)
    as [w' [kv' [t [Hs [Hf [_ Ht]]]]]].
  vm_compute in Hs. injection Hs as <-.
  vm_compute in Hf. injection Hf as <-.
  vm_compute in Ht. discriminate Ht.
Qed.

End ProcStopSpec.

(* ===================================================================== *)
(** * Process manager: listings *)
(* ===================================================================== *)

Module ProcListing.
Import Proc ServerSpec.

Lemma keys_length (keyf : json -> outcome json) (l ks : list json) :
  Sort.keys keyf l = Ok ks -> List.length ks = List.length l.
Proof.
  revert ks. induction l as [|x l IH]; simpl; intros ks.
  - intros [= <-]. reflexivity.
  - destruct (keyf x); simpl; try discriminate.
    destruct (Sort.keys keyf l) as [ks'| |]; simpl; try discriminate.
    intros [= <-]. simpl. rewrite (IH ks' eq_refl). reflexivity.
Qed.

Lemma str_keys_length (ks : list json) (ss : list string) :
  Sort.str_keys ks = Some ss -> List.length ss = List.length ks.
Proof.
  revert ss. induction ks as [|k ks IH]; simpl; intros ss.
  - intros [= <-]. reflexivity.
  - destruct (Sort.as_str k); [|discriminate].
    destruct (Sort.str_keys ks) as [ss'|]; [|discriminate].
    intros [= <-]. simpl. rewrite (IH ss' eq_refl). reflexivity.
Qed.

Lemma map_snd_combine {A B : Type} (l : list A) (l' : list B) :
  List.length l = List.length l' -> List.map snd (List.combine l l') = l'.
Proof.
  revert l'. induction l as [|x l IH]; intros [|y l']; simpl; try discriminate.
  - reflexivity.
  - intros [= H]. rewrite IH by exact H. reflexivity.
Qed.

(** Whatever the keys, a sort that returns returns the same elements. *)
Lemma py_sort_desc_perm (keyf : json -> outcome json) (l out : list json) :
  Sort.py_sort_desc keyf l = Ok out -> Permutation out l.
Proof.
  unfold Sort.py_sort_desc.
  destruct (Sort.keys keyf l) as [ks| |] eqn:Ek; simpl; try discriminate.
  destruct (Sort.str_keys ks) as [ss|] eqn:Es.
  - intros [= <-]. rewrite SortFacts.sort_desc_perm.
    rewrite map_snd_combine; [reflexivity|].
    rewrite (str_keys_length _ _ Es). apply (keys_length _ _ _ Ek).
  - destruct (List.length l <? 2)%nat; [intros [= <-]; reflexivity|].
    destruct (existsb Sort.unorderable ks || existsb Sort.is_str ks); discriminate.
Qed.

Lemma summaries_Forall2 (f : json -> outcome json) (l out : list json) :
  summaries f l = Ok out -> Forall2 (fun x s => f x = Ok s) l out.
Proof.
  revert out. induction l as [|x l IH]; simpl; intros out.
  - intros [= <-]. constructor.
  - destruct (f x) as [s| |] eqn:Ef; simpl; try discriminate.
    destruct (summaries f l) as [ss| |]; simpl; try discriminate.
    intros [= <-]. constructor; [exact Ef | apply IH; reflexivity].
Qed.

Lemma owned_by_In (owner : string) (l out : list json) (x : json) :
  owned_by owner l = Ok out -> In x out -> In x l.
Proof.
  revert out. induction l as [|p l IH]; simpl; intros out.
  - intros [= <-] [].
  - destruct (py_get "owner" p) as [o| |]; simpl; try discriminate.
    destruct (owned_by owner l) as [ps| |]; simpl; try discriminate.
    intros [= <-]. destruct (eq_str owner o).
    + intros [<-|H]; [left; reflexivity | right; apply (IH ps eq_refl H)].
    + intros H. right. apply (IH ps eq_refl H).
Qed.

Section Listing.
Context {E : Type} (os : os_iface E).
Implicit Types (w : world E) (files : list (string * file)).

(** The loop of [list_processes], when it returns: every document is
    listed with its derived status, no file is touched, and the calls
    made are one probe for each record that has a pid. *)
Lemma load_all_returns files w (l : list json) w' :
  load_all os files w = (Ok l, w') ->
  Forall2 relisted (Mail.load_all files) l /\
  mail w' = mail w /\ procs w' = procs w /\ logs w' = logs w /\
  exists probes,
    trace w' = trace w ++ List.map probe probes /\
    Forall (fun p => p <> 0) probes /\
    List.length probes = List.length (List.filter has_pid (Mail.load_all files)).
Proof.
  revert w l w'. induction files as [|[name f] files IH]; intros w l w'.
  - simpl. intros [= <- <-]. split; [constructor|]. repeat split.
    exists []. rewrite app_nil_r. repeat split. constructor.
  - destruct f as [j| | |]; simpl; [|apply IH|apply IH|discriminate].
    unfold bind at 1.
    destruct j as [| | | | |kv]; try (simpl; discriminate).
    rewrite ProcStatus.update_process_status_dict. cbv zeta.
    fold (pid_field kv).
    destruct (truthy (pid_field kv)) eqn:Htr.
    + destruct (as_pid (pid_field kv)) as [p|e|] eqn:Hp; try discriminate.
      unfold bind at 1.
      match goal with
      | |- context [load_all os files ?w1] =>
          destruct (load_all os files w1) as [[ps| |] w2] eqn:Hl; try discriminate
      end.
      intros [= <- <-].
      destruct (IH _ _ _ Hl) as [H2 [Hm [Hpr [Hlg [probes [Ht [Hnz Hlen]]]]]]].
      simpl in Hm, Hpr, Hlg, Ht.
      split; [constructor; [|exact H2]|].
      { exists kv. eexists. split; [reflexivity|]. split; [reflexivity|].
        split; [congruence|]. intros _.
        destruct (fst (os_kill os (env w) p SIG0)); [left|right]; reflexivity. }
      split; [exact Hm|]. split; [exact Hpr|]. split; [exact Hlg|].
      exists (p :: probes). simpl. rewrite Ht, <- app_assoc. simpl.
      split; [reflexivity|]. split.
      * constructor; [|exact Hnz]. apply (ProcStatus.as_pid_truthy _ _ Htr Hp).
      * rewrite Htr. simpl. rewrite Hlen. reflexivity.
    + unfold bind at 1.
      destruct (load_all os files w) as [[ps| |] w2] eqn:Hl; try discriminate.
      intros [= <- <-].
      destruct (IH _ _ _ Hl) as [H2 [Hm [Hpr [Hlg [probes [Ht [Hnz Hlen]]]]]]].
      split; [constructor; [|exact H2]|].
      { exists kv, "unknown". split; [reflexivity|]. split; [reflexivity|].
        split; [reflexivity | congruence]. }
      split; [exact Hm|]. split; [exact Hpr|]. split; [exact Hlg|].
      exists probes. simpl. rewrite Htr. repeat split; assumption.
Qed.

(** The loop returns only when every file is text. *)
Lemma load_all_decodable files w (l : list json) w' :
  load_all os files w = (Ok l, w') ->
  Forall (fun p => snd p <> FUndecodable) files.
Proof.
  revert w l w'. induction files as [|[name f] files IH]; intros w l w';
    [constructor|].
  destruct f as [j| | |]; simpl.
  - unfold bind at 1.
    destruct (update_process_status os j w) as [[j'| |] w1]; try discriminate.
    unfold bind at 1.
    destruct (load_all os files w1) as [[ps| |] w2] eqn:Hl; try discriminate.
    intros _. constructor; [discriminate | exact (IH _ _ _ Hl)].
  - intros H. constructor; [discriminate | exact (IH _ _ _ H)].
  - intros H. constructor; [discriminate | exact (IH _ _ _ H)].
  - discriminate.
Qed.

(** The loop returns when every file is text and every document is a
    dict whose pid, if it has one, is a pid. *)
Lemma load_all_total files w :
  Forall (fun p => snd p <> FUndecodable) files ->
  Forall (fun x => exists kv, x = JObj kv /\
            (truthy (pid_field kv) = true -> exists p, as_pid (pid_field kv) = Ok p))
         (Mail.load_all files) ->
  exists l w', load_all os files w = (Ok l, w').
Proof.
  revert w. induction files as [|[name f] files IH]; intros w Hd H.
  - exists [], w. reflexivity.
  - inversion Hd as [|? ? Hf Hd']; subst.
    destruct f as [j| | |]; simpl in H |- *;
      [|apply IH; assumption|apply IH; assumption|destruct Hf; reflexivity].
    specialize (fun w => IH w Hd').
    inversion H as [|? ? [kv [-> Hpid]] H']; subst.
    unfold bind at 1. rewrite ProcStatus.update_process_status_dict. cbv zeta.
    fold (pid_field kv).
    destruct (truthy (pid_field kv)) eqn:Htr.
    + destruct (Hpid eq_refl) as [p Hp]. rewrite Hp.
      unfold bind at 1.
      match goal with
      | |- context [load_all os files ?w1] =>
          destruct (IH w1 H') as [l [w' Hl]]; rewrite Hl
      end.
      eexists. eexists. reflexivity.
    + unfold bind at 1. destruct (IH w H') as [l [w' Hl]]. rewrite Hl.
      eexists. eexists. reflexivity.
Qed.

End Listing.

End ProcListing.

Module ProcNoPid.
Import Proc ServerSpec.

Lemma Forall2_In_l {A B : Type} (R : A -> B -> Prop) (l : list A) (l' : list B)
  (x : A) :
  Forall2 R l l' -> In x l -> exists y, In y l' /\ R x y.
Proof.
  induction 1 as [|a b l l' Hab _ IH]; intros Hx; [destruct Hx|].
  destruct Hx as [<-|Hx].
  - exists b. split; [left; reflexivity | exact Hab].
  - destruct (IH Hx) as [y [Hy Hr]]. exists y. split; [right; exact Hy | exact Hr].
Qed.

Lemma Forall2_In_r {A B : Type} (R : A -> B -> Prop) (l : list A) (l' : list B)
  (y : B) :
  Forall2 R l l' -> In y l' -> exists x, In x l /\ R x y.
Proof.
  induction 1 as [|a b l l' Hab _ IH]; intros Hy; [destruct Hy|].
  destruct Hy as [<-|Hy].
  - exists a. split; [left; reflexivity | exact Hab].
  - destruct (IH Hy) as [x [Hx Hr]]. exists x. split; [right; exact Hx | exact Hr].
Qed.

Lemma In_load_all (files : list (string * file)) (j : json) :
  In j (Mail.load_all files) <-> exists name, In (name, FJson j) files.
Proof.
  induction files as [|[n f] files IH]; simpl.
  - split; [intros [] | intros [_ []]].
  - destruct f as [j'| | |]; simpl; rewrite ?IH; split.
    + intros [<-|[name H]]; [exists n; left; reflexivity | exists name; right; exact H].
    + intros [name [[= <- <-]|H]]; [left; reflexivity | right; exists name; exact H].
    + intros [name H]. exists name. right. exact H.
    + intros [name [H|H]]; [discriminate H | exists name; exact H].
    + intros [name H]. exists name. right. exact H.
    + intros [name [H|H]]; [discriminate H | exists name; exact H].
    + intros [name H]. exists name. right. exact H.
    + intros [name [H|H]]; [discriminate H | exists name; exact H].
Qed.

(** The summary of a listed record shows its status and its pid. *)
Lemma process_summary_fields (kv : list (string * json)) (s : json) :
  process_summary (JObj kv) = Ok s ->
  exists kvs, s = JObj kvs /\
    pid_field kvs = pid_field kv /\
    Dict.get "status" kvs = Dict.get "status" kv.
Proof.
  unfold process_summary. simpl.
  destruct (Dict.get "id" kv); simpl; [|discriminate].
  destruct (Dict.get "name" kv); simpl; [|discriminate].
  destruct (Dict.get "owner" kv); simpl; [|discriminate].
  destruct (Dict.get "status" kv) as [st|]; simpl; [|discriminate].
  destruct (Dict.get "started_at" kv); simpl; [|discriminate].
  intros [= <-]. eexists. split; [reflexivity|]. split; reflexivity.
Qed.

Section NoPid.
Context {E : Type} (os : os_iface E).
Implicit Types (w : world E) (kv : list (string * json)).

(** What a listing that returns has done. *)
Lemma process_list_returns w (owner : option string) (l : list json) w' :
  mcp__process_list os owner w = (Ok l, w') ->
  exists listed shown,
    Forall2 relisted (Mail.load_all (glob "proc_" ".json" (procs w))) listed /\
    (forall x, In x shown -> In x listed) /\
    (owner = None -> forall x, In x listed -> In x shown) /\
    Forall2 (fun x s => process_summary x = Ok s) shown l /\
    mail w' = mail w /\ procs w' = procs w /\ logs w' = logs w /\
    exists probes,
      trace w' = trace w ++ List.map probe probes /\
      Forall (fun p => p <> 0) probes /\
      List.length probes =
        List.length (List.filter has_pid
                       (Mail.load_all (glob "proc_" ".json" (procs w)))).
Proof.
  unfold mcp__process_list, list_processes. unfold bind at 1. unfold bind at 1.
  destruct (load_all os (glob "proc_" ".json" (procs w)) w) as [[l0| |] w0] eqn:Hl;
    try discriminate.
  destruct (ProcListing.load_all_returns os _ _ _ _ Hl) as [H2 [Hm [Hp [Hlg Htr]]]].
  unfold lift at 1.
  destruct (Sort.py_sort_desc (py_get_or "started_at" (JStr "")) l0)
    as [sorted| |] eqn:Hs; try discriminate.
  pose proof (ProcListing.py_sort_desc_perm _ _ _ Hs) as Hperm.
  unfold bind at 1, lift at 1.
  set (chosen := match owner with
                 | Some o => if String.eqb o "" then Ok sorted else owned_by o sorted
                 | None => Ok sorted
                 end).
  destruct chosen as [shown| |] eqn:Hc; try discriminate.
  unfold lift.
  destruct (summaries process_summary shown) as [out| |] eqn:Ho; try discriminate.
  intros [= <- <-].
  exists l0, shown. split; [exact H2|]. split; [|split; [|split]].
  - intros x Hx. apply (Permutation_in _ Hperm).
    unfold chosen in Hc. destruct owner as [o|].
    + destruct (String.eqb o ""); [injection Hc as <-; exact Hx|].
      apply (ProcListing.owned_by_In o sorted shown x Hc Hx).
    + injection Hc as <-. exact Hx.
  - intros -> x Hx. unfold chosen in Hc. injection Hc as <-.
    apply (Permutation_in _ (Permutation_sym Hperm) Hx).
  - apply ProcListing.summaries_Forall2, Ho.
  - repeat split; assumption.
Qed.

(** C10.  Let the stored record of a process identifier have no pid:
    the field is absent or 0 (or any other value Python counts as
    false).  Then deriving its status gives unknown and makes no call
    to the operating system; [mcp__process_stop] returns [False],
    makes no call and writes nothing; and whenever [mcp__process_list]
    returns, every entry without pid that it shows has status unknown,
    this record's entry is among them when no owner filter is given,
    and the calls it made are probes of pids other than 0, one for
    each stored record that has a pid. *)
Theorem no_pid_is_unknown w process_id name kv (owner : option string) :
  get_process_path process_id = Ok name ->
  procs w !! name = Some (FJson (JObj kv)) ->
  truthy (pid_field kv) = false ->
  update_process_status os (JObj kv) w
    = (Ok (JObj (Dict.set "status" (JStr "unknown") kv)), w) /\
  mcp__process_stop os process_id w = (Ok false, w) /\
  (forall l w',
     mcp__process_list os owner w = (Ok l, w') ->
     (forall s, In s l ->
        exists kvs, s = JObj kvs /\
          (truthy (pid_field kvs) = false ->
           Dict.get "status" kvs = Some (JStr "unknown"))) /\
     (owner = None ->
        exists s, In s l /\
          process_summary (JObj (Dict.set "status" (JStr "unknown") kv)) = Ok s) /\
     exists probes,
       trace w' = trace w ++ List.map probe probes /\
       Forall (fun p => p <> 0) probes /\
       List.length probes =
         List.length (List.filter has_pid
                        (Mail.load_all (glob "proc_" ".json" (procs w))))).
Proof.
  intros Hp Hf Hpid. split; [|split].
  - rewrite ProcStatus.update_process_status_dict. cbv zeta.
    fold (pid_field kv). rewrite Hpid. reflexivity.
  - apply (ProcStatus.process_stop_no_pid os w process_id name kv Hp Hf Hpid).
  - intros l w' Hl.
    destruct (process_list_returns w owner l w' Hl)
      as [listed [shown [H2 [Hsub [Hall [Hsum [_ [_ [_ Hprobes]]]]]]]]].
    split; [|split; [|exact Hprobes]].
    + intros s Hs.
      destruct (Forall2_In_r _ _ _ s Hsum Hs) as [x [Hx Hxs]].
      destruct (Forall2_In_r _ _ _ x H2 (Hsub x Hx))
        as [stored [_ [kv0 [st [-> [-> [Hunk _]]]]]]].
      destruct (process_summary_fields _ _ Hxs) as [kvs [-> [Hpf Hst]]].
      exists kvs. split; [reflexivity|]. intros Hfalse.
      rewrite Hst, DictFacts.get_set_eq. rewrite Hpf in Hfalse.
      unfold pid_field in Hfalse.
      rewrite DictFacts.get_set_ne in Hfalse by discriminate.
      rewrite (Hunk Hfalse). reflexivity.
    + intros Ho.
      assert (Hin : In (JObj kv) (Mail.load_all (glob "proc_" ".json" (procs w)))).
      { apply In_load_all. exists name. apply ListingFacts.glob_In. split; [exact Hf|].
        apply PathFacts.entry_name_inv in Hp. destruct Hp as [Hid ->].
        apply ListingFacts.glob_match_entry; [reflexivity | exact Hid | reflexivity]. }
      destruct (Forall2_In_l _ _ _ _ H2 Hin) as [x [Hx [kv0 [st [[= <-] [-> [Hunk _]]]]]]].
      rewrite (Hunk Hpid) in Hx.
      destruct (Forall2_In_l _ _ _ _ Hsum (Hall Ho _ Hx)) as [s [Hs Hxs]].
      exists s. split; assumption.
Qed.

End NoPid.

End ProcNoPid.

(* ===================================================================== *)
(** * Process manager: start and restart *)
(* ===================================================================== *)

Module ProcRestart.
Import Proc ServerSpec.

Section Restart.
Context {E : Type} (os : os_iface E).
Implicit Types (w : world E) (kv : list (string * json)).

(** [mcp__process_start], from what the environment answers. *)
Lemma process_start_unfold w (command cwd name owner : string) :
  let process_id := fst (os_uuid4 os (env w)) in
  let e1 := snd (os_uuid4 os (env w)) in
  let timestamp := fst (os_utcnow os e1) +:+ "Z" in
  let e2 := snd (os_utcnow os e1) in
  let log_path := LOG_DIR +:+ "/" +:+ process_id +:+ ".log" in
  let spawned := os_popen os e2 command cwd log_path in
  let after :=
    World (mail w) (procs w) (<[process_id +:+ ".log" := ""]> (logs w))
      (snd spawned) (trace w ++ [EvPopen command cwd log_path]) in
  Str.contains "/" process_id = false ->
  mcp__process_start os command cwd name owner w =
  match fst spawned with
  | inl pid =>
      (Ok process_id,
       with_procs
         (insert ("proc_" +:+ process_id +:+ ".json")
            (FJson (started_record process_id name owner command cwd pid
                      timestamp log_path)))
         after)
  | inr e => (Ok ("Error starting process: " +:+ e), after)
  end.
Proof.
  cbv zeta. intros Hid.
  unfold mcp__process_start, generate_process_id, utcnow_Z, ask, bind, lift, ret.
  destruct (os_uuid4 os (env w)) as [process_id e1]. simpl in Hid |- *.
  destruct (os_utcnow os e1) as [t e2]. simpl.
  unfold get_log_path. rewrite (PathFacts.entry_name_ok "" _ _ Hid).
  rewrite StrFacts.app_nil_l. unfold syscall. simpl.
  destruct (os_popen os e2 command cwd _) as [[pid|e] e3]; simpl; [|reflexivity].
  unfold save_process, bind, lift. simpl.
  unfold get_process_path. rewrite (PathFacts.entry_name_ok _ _ _ Hid).
  reflexivity.
Qed.

(** A record with a pid is always stopped. *)
Lemma process_stop_true w process_id name kv (p : Z) :
  get_process_path process_id = Ok name ->
  procs w !! name = Some (FJson (JObj kv)) ->
  Dict.get "id" kv = Some (JStr process_id) ->
  truthy (pid_field kv) = true ->
  as_pid (pid_field kv) = Ok p ->
  exists w1 kv',
    mcp__process_stop os process_id w = (Ok true, w1) /\
    procs w1 = <[name := FJson (JObj kv')]> (procs w) /\
    mail w1 = mail w /\ logs w1 = logs w /\
    Dict.get "status" kv' = Some (JStr "stopped") /\
    (forall k, k <> "status" -> k <> "stopped_at" -> Dict.get k kv' = Dict.get k kv).
Proof.
  intros Hp Hf Hid Htr Hpid.
  pose proof (ProcStop.process_stop_unfold os w process_id name kv Hp Hf Hid Htr)
    as Hstop.
  destruct (ProcStop.terminate_outcome os w _ p Hpid) as [w1 [Ht [Hm [Hpr Hl]]]].
  fold (pid_field kv) in Hstop.
  destruct Ht as [Ht|Ht]; rewrite Ht in Hstop;
    eexists; eexists; (split; [exact Hstop|]); simpl; rewrite Hm, Hpr, Hl;
    repeat split.
  - rewrite DictFacts.get_set_ne by discriminate. apply DictFacts.get_set_eq.
  - intros k H1 H2. rewrite !DictFacts.get_set_ne by assumption. reflexivity.
  - apply DictFacts.get_set_eq.
  - intros k H1 H2. rewrite DictFacts.get_set_ne by assumption. reflexivity.
Qed.

Lemma str_field_ok (k : string) kv (s : string) :
  Dict.get k kv = Some (JStr s) -> str_field k (JObj kv) = Ok s.
Proof. intros H. unfold str_field. simpl. rewrite H. reflexivity. Qed.

End Restart.

End ProcRestart.

Module ProcRestartSpec.
Import Proc ServerSpec.

Section Restart.
Context {E : Type} (os : os_iface E).
Implicit Types (w : world E) (kv : list (string * json)).


End Restart.


End ProcRestartSpec.

(* ===================================================================== *)
(** * Process manager: cleanup *)
(* ===================================================================== *)

Module ProcCleanup.
Import Proc ServerSpec.

(** ** Removing files *)

Lemma remove_files_In (names : list string) (d : gmap string file) (n : string) :
  In n names -> remove_files names d !! n = None.
Proof.
  unfold remove_files. revert d. induction names as [|m names IH]; intros d; [intros []|].
  simpl. destruct (decide (n = m)) as [->|Hne].
  - intros _. clear IH. generalize (lookup_delete_eq d m).
    generalize (delete m d). induction names as [|k names IH]; intros d' Hd; [exact Hd|].
    simpl. apply IH. rewrite lookup_delete_None. right. exact Hd.
  - intros [->|H]; [contradiction | apply IH, H].
Qed.

Lemma remove_files_not_In (names : list string) (d : gmap string file) (n : string) :
  ~ In n names -> remove_files names d !! n = d !! n.
Proof.
  unfold remove_files. revert d. induction names as [|m names IH]; intros d H; [reflexivity|].
  simpl. rewrite IH by (intros Hn; apply H; right; exact Hn).
  apply lookup_delete_ne. intros ->. apply H. left. reflexivity.
Qed.

Lemma remove_files_size (names : list string) (d : gmap string file) :
  List.NoDup names ->
  (forall n, In n names -> is_Some (d !! n)) ->
  (size (remove_files names d) + List.length names)%nat = size d.
Proof.
  unfold remove_files. revert d. induction names as [|m names IH]; intros d Hnd Hin.
  - simpl. lia.
  - inversion Hnd as [|? ? Hm Hnd']; subst. simpl.
    assert (IH' : (size (fold_left (fun d n => delete n d) names (delete m d))
                   + List.length names)%nat = size (delete m d)).
    { apply IH; [exact Hnd'|]. intros n Hn. rewrite lookup_delete_ne.
      - apply Hin. right. exact Hn.
      - intros ->. contradiction. }
    destruct (Hin m (or_introl eq_refl)) as [x Hx].
    pose proof (map_size_delete m d) as Hd. rewrite Hx in Hd.
    assert (size d <> 0)%nat.
    { intros H0. apply map_size_empty_iff in H0. subst.
      rewrite lookup_empty in Hx. discriminate Hx. }
    lia.
Qed.

Lemma In_stopped_files (listed : list json) (n : string) :
  In n (stopped_files listed) <->
  exists x, In x listed /\ is_stopped x = true /\ record_file x = Some n.
Proof.
  unfold stopped_files. rewrite in_flat_map. split.
  - intros [x [Hx Hn]]. exists x. split; [exact Hx|].
    destruct (is_stopped x); [|destruct Hn].
    destruct (record_file x) as [m|]; [|destruct Hn].
    destruct Hn as [<-|[]]. split; reflexivity.
  - intros [x [Hx [Hs Hr]]]. exists x. split; [exact Hx|].
    rewrite Hs, Hr. left. reflexivity.
Qed.

(** ** The loop *)

Lemma cleanup_loop_spec {E : Type} (l : list json) (w : world E) :
  Forall cleanable l ->
  cleanup_loop l w =
  (Ok (List.length (List.filter is_stopped l)),
   with_procs (remove_files (stopped_files l)) w).
Proof.
  intros H. revert w. induction H as [|x l Hx _ IH]; intros w.
  - destruct w. reflexivity.
  - destruct Hx as [kv [st [id [-> [Hst [Hid Hslash]]]]]].
    assert (Hs : is_stopped (JObj kv) = eq_str "stopped" (JStr st)).
    { unfold is_stopped. rewrite Hst. reflexivity. }
    assert (Hr : record_file (JObj kv) = Some ("proc_" +:+ id +:+ ".json")).
    { unfold record_file. rewrite Hid. reflexivity. }
    simpl cleanup_loop. unfold bind at 1, lift at 1. simpl py_index. rewrite Hst.
    unfold stopped_files. simpl flat_map. simpl List.filter.
    rewrite Hst, Hid. fold (stopped_files l).
    destruct (eq_str "stopped" (JStr st)).
    + unfold bind at 1, lift at 1.
      unfold bind at 1, lift at 1. simpl format_id.
      unfold bind at 1, lift at 1. unfold get_process_path.
      rewrite (PathFacts.entry_name_ok _ _ _ Hslash).
      unfold bind at 1. unfold bind at 1, lift at 1. unfold get_log_path.
      rewrite (PathFacts.entry_name_ok _ _ _ Hslash).
      unfold bind at 1. rewrite IH. reflexivity.
    + rewrite IH. reflexivity.
Qed.

End ProcCleanup.

Module ProcCleanupSpec.
Import Proc ServerSpec.

Lemma relisted_record_file (x y : json) :
  relisted x y -> record_file y = record_file x.
Proof.
  intros [kv [st [-> [-> _]]]]. unfold record_file.
  rewrite DictFacts.get_set_ne by discriminate. reflexivity.
Qed.

Lemma relisted_map_record_file (l l' : list json) :
  Forall2 relisted l l' -> List.map record_file l' = List.map record_file l.
Proof.
  induction 1 as [|x y l l' Hxy _ IH]; [reflexivity|].
  simpl. rewrite (relisted_record_file x y Hxy), IH. reflexivity.
Qed.

Lemma json_names_NoDup (files : list (string * file)) :
  List.NoDup (List.map fst files) -> List.NoDup (json_names files).
Proof.
  induction files as [|[n f] files IH]; simpl; intros H; [constructor|].
  inversion H as [|? ? Hn Hnd]; subst.
  destruct f; simpl; [|apply IH, Hnd..].
  constructor; [|apply IH, Hnd].
  intros Hin. apply Hn. unfold json_names in Hin. apply in_flat_map in Hin.
  destruct Hin as [[n' f'] [Hp Hin]]. simpl in Hin.
  destruct f'; try destruct Hin as [<-|[]]; try destruct Hin.
  apply (in_map fst) in Hp. exact Hp.
Qed.

Lemma glob_names_NoDup (prefix suffix : string) (d : gmap string file) :
  List.NoDup (List.map fst (glob prefix suffix d)).
Proof.
  unfold glob.
  assert (H : List.NoDup (List.map fst (map_to_list d))).
  { apply NoDup_ListNoDup. exact (NoDup_fst_map_to_list d). }
  revert H. induction (map_to_list d) as [|[n f] l IH]; simpl; intros H; [constructor|].
  inversion H as [|? ? Hn Hnd]; subst.
  destruct (glob_match prefix suffix n); simpl; [|apply IH, Hnd].
  constructor; [|apply IH, Hnd].
  intros Hin. apply Hn. apply in_map_iff in Hin. destruct Hin as [[n' f'] [Hf Hin]].
  apply filter_In in Hin. destruct Hin as [Hin _]. simpl in Hf. subst n'.
  apply (in_map fst) in Hin. exact Hin.
Qed.

Lemma docs_record_files (files : list (string * file)) :
  (forall n j, In (n, FJson j) files -> record_file j = Some n) ->
  List.map record_file (Mail.load_all files) = List.map Some (json_names files).
Proof.
  induction files as [|[n f] files IH]; intros H; [reflexivity|].
  assert (H' : forall n j, In (n, FJson j) files -> record_file j = Some n).
  { intros n' j' Hin. apply H. right. exact Hin. }
  destruct f as [j| | |]; simpl; [|apply IH, H'..].
  rewrite (H n j) by (left; reflexivity). rewrite (IH H'). reflexivity.
Qed.

Lemma NoDup_map_filter {A B : Type} (f : A -> B) (g : A -> bool) (l : list A) :
  List.NoDup (List.map f l) -> List.NoDup (List.map f (List.filter g l)).
Proof.
  induction l as [|x l IH]; simpl; intros H; [constructor|].
  inversion H as [|? ? Hx Hnd]; subst.
  destruct (g x); simpl; [|apply IH, Hnd].
  constructor; [|apply IH, Hnd].
  intros Hin. apply Hx. apply in_map_iff in Hin. destruct Hin as [y [Hy Hin]].
  apply filter_In in Hin. destruct Hin as [Hin _]. rewrite <- Hy. apply in_map, Hin.
Qed.

Lemma stopped_files_map (l : list json) :
  Forall (fun x => is_Some (record_file x)) l ->
  List.map Some (stopped_files l) = List.map record_file (List.filter is_stopped l).
Proof.
  induction 1 as [|x l [n Hn] _ IH]; [reflexivity|].
  unfold stopped_files in *. simpl.
  destruct (is_stopped x); simpl; [|exact IH].
  rewrite Hn. simpl. rewrite IH. reflexivity.
Qed.

Lemma NoDup_map_inj {A B : Type} (f : A -> B) (l : list A) (x y : A) :
  List.NoDup (List.map f l) -> In x l -> In y l -> f x = f y -> x = y.
Proof.
  induction l as [|a l IH]; simpl; intros H Hx Hy Hf; [destruct Hx|].
  inversion H as [|? ? Ha Hnd]; subst.
  destruct Hx as [<-|Hx], Hy as [<-|Hy].
  - reflexivity.
  - exfalso. apply Ha. rewrite Hf. apply in_map, Hy.
  - exfalso. apply Ha. rewrite <- Hf. apply in_map, Hx.
  - apply IH; assumption.
Qed.

Lemma In_json_names (files : list (string * file)) (n : string) :
  In n (json_names files) -> exists j, In (n, FJson j) files.
Proof.
  unfold json_names. rewrite in_flat_map. intros [[n' f] [Hin Hn]]. simpl in Hn.
  destruct f as [j| | |]; try destruct Hn as [<-|[]]; try destruct Hn.
  exists j. exact Hin.
Qed.

Section Cleanup.
Context {E : Type} (os : os_iface E).
Implicit Types (w : world E).

(** In a consistent directory the listing returns: the stored records
    with their derived status, newest first. *)
Lemma list_processes_total w :
  consistent_procs (procs w) ->
  exists l0 w1,
    list_processes os w = (Ok (sorted_by (sort_key "started_at") l0), w1) /\
    Forall2 relisted (Mail.load_all (glob "proc_" ".json" (procs w))) l0 /\
    mail w1 = mail w /\ procs w1 = procs w /\ logs w1 = logs w.
Proof.
  intros Hc.
  set (files := glob "proc_" ".json" (procs w)).
  assert (Hdocs : forall j, In j (Mail.load_all files) ->
            exists n, procs w !! n = Some (FJson j) /\ well_formed_process n j).
  { intros j Hj. apply ProcNoPid.In_load_all in Hj. destruct Hj as [n Hn].
    apply ListingFacts.glob_In in Hn. destruct Hn as [Hf Hg].
    exists n. split; [exact Hf | apply (proj2 Hc n j Hg Hf)]. }
  destruct (ProcListing.load_all_total os files w) as [l0 [w1 Hl]].
  { apply ListingFacts.decodable_glob, (proj1 Hc). }
  { apply List.Forall_forall. intros j Hj.
    destruct (Hdocs j Hj) as [n [_ [kv [id [-> [_ [_ [_ [Hpid _]]]]]]]]].
    exists kv. split; [reflexivity | exact Hpid]. }
  destruct (ProcListing.load_all_returns os _ _ _ _ Hl) as [H2 [Hm [Hp [Hlg _]]]].
  exists l0, w1. split; [|repeat split; assumption].
  unfold list_processes, bind. fold files. rewrite Hl. unfold lift.
  destruct (SortFacts.py_sort_desc_sortable "started_at" l0) as [Hs _].
  { apply List.Forall_forall. intros y Hy.
    destruct (ProcNoPid.Forall2_In_r _ _ _ y H2 Hy) as [x [Hx [kv [st [-> [-> _]]]]]].
    destruct (Hdocs _ Hx) as [n [_ [kv' [id [[= <-] [_ [_ [_ [_ Hst]]]]]]]]].
    exists (Dict.set "status" (JStr st) kv). split; [reflexivity|].
    rewrite DictFacts.get_set_ne by discriminate. exact Hst. }
  rewrite Hs. reflexivity.
Qed.

(** C5.  In a directory whose records are stored under the file of
    their identifier, [mcp__process_cleanup] lists the records with
    the status the probes give them, removes the metadata file of
    each listed process whose status is stopped and of no other,
    leaves every other file, all log files and the mail as they were,
    and returns the number of stopped processes, which is the number
    of files removed, together with the number listed minus that
    number. *)
Theorem cleanup_removes_stopped w :
  consistent_procs (procs w) ->
  exists listed w1 w2,
    list_processes os w = (Ok listed, w1) /\
    (exists l0,
       Forall2 relisted (Mail.load_all (glob "proc_" ".json" (procs w))) l0 /\
       Permutation listed l0) /\
    let cleaned := List.length (List.filter is_stopped listed) in
    mcp__process_cleanup os w =
      (Ok (JObj [("cleaned_processes", JInt (Z.of_nat cleaned));
                 ("remaining_processes",
                  JInt (Z.of_nat (List.length listed) - Z.of_nat cleaned))]),
       w2) /\
    (forall x name,
       In x listed -> is_stopped x = true -> record_file x = Some name ->
       is_Some (procs w !! name) /\ procs w2 !! name = None) /\
    (forall x name,
       In x listed -> is_stopped x = false -> record_file x = Some name ->
       procs w2 !! name = procs w !! name) /\
    (forall name,
       ~ (exists x, In x listed /\ is_stopped x = true /\ record_file x = Some name) ->
       procs w2 !! name = procs w !! name) /\
    logs w2 = logs w /\ mail w2 = mail w /\
    (size (procs w2) + cleaned)%nat = size (procs w).
Proof.
  intros Hc.
  destruct (list_processes_total w Hc) as [l0 [w1 [Hlist [H2 [Hm [Hp Hlg]]]]]].
  set (files := glob "proc_" ".json" (procs w)) in *.
  set (listed := sorted_by (sort_key "started_at") l0) in *.
  pose proof (SortFacts.sorted_by_perm (sort_key "started_at") l0 : Permutation listed l0)
    as Hperm.
  assert (Hfiles : forall n j, In (n, FJson j) files ->
            procs w !! n = Some (FJson j) /\ well_formed_process n j).
  { intros n j Hn. apply ListingFacts.glob_In in Hn. destruct Hn as [Hf Hg].
    split; [exact Hf | apply (proj2 Hc n j Hg Hf)]. }
  (* every listed record is a stored record with a status *)
  assert (Hlisted : forall y, In y listed ->
            exists kv st id,
              y = JObj (Dict.set "status" (JStr st) kv) /\
              Dict.get "id" kv = Some (JStr id) /\
              Str.contains "/" id = false /\
              procs w !! ("proc_" +:+ id +:+ ".json") = Some (FJson (JObj kv))).
  { intros y Hy. apply (Permutation_in _ Hperm) in Hy.
    destruct (ProcNoPid.Forall2_In_r _ _ _ y H2 Hy) as [x [Hx [kv [st [-> [-> _]]]]]].
    apply ProcNoPid.In_load_all in Hx. destruct Hx as [n Hn].
    destruct (Hfiles n _ Hn) as [Hf [kv' [id [[= <-] [Hid [Hsl [-> _]]]]]]].
    exists kv, st, id. repeat split; assumption. }
  assert (Hclean : Forall cleanable listed).
  { apply List.Forall_forall. intros y Hy.
    destruct (Hlisted y Hy) as [kv [st [id [-> [Hid [Hsl _]]]]]].
    exists (Dict.set "status" (JStr st) kv), st, id.
    split; [reflexivity|]. split; [apply DictFacts.get_set_eq|].
    split; [|exact Hsl]. rewrite DictFacts.get_set_ne by discriminate. exact Hid. }
  (* the files of the listed records are distinct *)
  assert (Hnd : List.NoDup (List.map record_file listed)).
  { apply (Permutation_NoDup (Permutation_map record_file (Permutation_sym Hperm))).
    rewrite (relisted_map_record_file _ _ H2).
    rewrite (docs_record_files files).
    - apply Finite.Injective_map_NoDup; [intros a b [= H]; exact H|].
      apply json_names_NoDup, glob_names_NoDup.
    - intros n j Hn. destruct (Hfiles n j Hn) as [_ [kv [id [-> [Hid [_ [-> _]]]]]]].
      unfold record_file. rewrite Hid. reflexivity. }
  assert (Hsome : Forall (fun x => is_Some (record_file x)) listed).
  { apply List.Forall_forall. intros y Hy.
    destruct (Hlisted y Hy) as [kv [st [id [-> [Hid _]]]]].
    unfold record_file. rewrite DictFacts.get_set_ne by discriminate.
    rewrite Hid. eexists. reflexivity. }
  pose proof (stopped_files_map listed Hsome) as Hmap.
  assert (Hlen : List.length (stopped_files listed)
                 = List.length (List.filter is_stopped listed)).
  { rewrite <- (List.length_map Some), Hmap, List.length_map. reflexivity. }
  assert (Hnd' : List.NoDup (stopped_files listed)).
  { apply (NoDup_map_inv Some). rewrite Hmap. apply NoDup_map_filter, Hnd. }
  assert (Hex : forall x name,
            In x listed -> record_file x = Some name -> is_Some (procs w !! name)).
  { intros x name Hx Hr. destruct (Hlisted x Hx) as [kv [st [id [-> [Hid [_ Hf]]]]]].
    unfold record_file in Hr. rewrite DictFacts.get_set_ne in Hr by discriminate.
    rewrite Hid in Hr. injection Hr as <-. eexists. exact Hf. }
  exists listed, w1, (with_procs (remove_files (stopped_files listed)) w1).
  split; [exact Hlist|]. split; [exists l0; split; assumption|].
  cbv zeta. split; [|split; [|split; [|split; [|split; [|split]]]]].
  - unfold mcp__process_cleanup, bind at 1. rewrite Hlist.
    unfold bind at 1. rewrite (ProcCleanup.cleanup_loop_spec listed w1 Hclean).
    reflexivity.
  - intros x name Hx Hs Hr. split; [apply (Hex x name Hx Hr)|].
    simpl. apply ProcCleanup.remove_files_In, ProcCleanup.In_stopped_files.
    exists x. repeat split; assumption.
  - intros x name Hx Hs Hr. simpl. rewrite Hp.
    apply ProcCleanup.remove_files_not_In. intros Hin.
    apply ProcCleanup.In_stopped_files in Hin. destruct Hin as [y [Hy [Hys Hyr]]].
    assert (x = y).
    { apply (NoDup_map_inj record_file listed); [assumption..|congruence]. }
    subst y. congruence.
  - intros name Hn. simpl. rewrite Hp.
    apply ProcCleanup.remove_files_not_In. intros Hin. apply Hn.
    apply ProcCleanup.In_stopped_files, Hin.
  - simpl. exact Hlg.
  - simpl. exact Hm.
  - simpl. rewrite Hp, <- Hlen. apply ProcCleanup.remove_files_size; [exact Hnd'|].
    intros n Hn. apply ProcCleanup.In_stopped_files in Hn.
    destruct Hn as [x [Hx [_ Hr]]]. apply (Hex x n Hx Hr).
Qed.

End Cleanup.

End ProcCleanupSpec.

(* ===================================================================== *)
(** * The order of the listings *)
(* ===================================================================== *)

Module ListingSorted.
Import ServerSpec.

(** Whenever the sort returns, the result holds the same elements,
    newest first. *)
Lemma keys_sort_key (k : string) (l ks : list json) (ss : list string) :
  Sort.keys (py_get_or k (JStr "")) l = Ok ks ->
  Sort.str_keys ks = Some ss ->
  Forall (fun x => py_get_or k (JStr "") x = Ok (JStr (sort_key k x))) l.
Proof.
  revert ks ss. induction l as [|x l IH]; simpl; intros ks ss; [constructor|].
  destruct (py_get_or k (JStr "") x) as [k0| |] eqn:Ek; simpl; try discriminate.
  destruct (Sort.keys (py_get_or k (JStr "")) l) as [ks'| |] eqn:Eks; simpl;
    try discriminate.
  intros [= <-]. simpl.
  destruct k0 as [| | |s| |]; simpl; try discriminate.
  destruct (Sort.str_keys ks') as [ss'|] eqn:Ess; [|discriminate].
  intros _. constructor; [|apply (IH ks' ss' eq_refl Ess)].
  unfold sort_key. rewrite Ek. reflexivity.
Qed.

Lemma py_sort_desc_returns (k : string) (l out : list json) :
  Sort.py_sort_desc (py_get_or k (JStr "")) l = Ok out ->
  newest_first k out /\ Permutation out l.
Proof.
  intros H. pose proof H as H0. unfold Sort.py_sort_desc in H.
  destruct (Sort.keys (py_get_or k (JStr "")) l) as [ks| |] eqn:Ek; simpl in H;
    try discriminate.
  destruct (Sort.str_keys ks) as [ss|] eqn:Es.
  - rewrite (SortFacts.py_sort_desc_str _ (sort_key k) l) in H0
      by apply (keys_sort_key k l ks ss Ek Es).
    injection H0 as <-. split;
      [apply SortFacts.sorted_by_sorted | apply SortFacts.sorted_by_perm].
  - destruct l as [|x [|y l]]; simpl in H.
    + injection H as <-. split; [constructor | reflexivity].
    + injection H as <-. split; [repeat constructor | reflexivity].
    + destruct (existsb Sort.unorderable ks || existsb Sort.is_str ks); discriminate.
Qed.

(** A loop that summarises or skips keeps the order, when a summary
    has the sort key of its record. *)
Lemma picked_In (f : json -> outcome json) (l out : list json) (s : json) :
  picked f l out -> In s out -> exists x, In x l /\ f x = Ok s.
Proof.
  induction 1 as [|x s0 l out Hf _ IH|x l out _ IH]; intros Hs.
  - destruct Hs.
  - destruct Hs as [<-|Hs].
    + exists x. split; [left; reflexivity | exact Hf].
    + destruct (IH Hs) as [y [Hy Hfy]]. exists y. split; [right; exact Hy | exact Hfy].
  - destruct (IH Hs) as [y [Hy Hfy]]. exists y. split; [right; exact Hy | exact Hfy].
Qed.

Lemma picked_sorted (k : string) (f : json -> outcome json) (l out : list json) :
  (forall x s, f x = Ok s -> sort_key k s = sort_key k x) ->
  picked f l out -> newest_first k l -> newest_first k out.
Proof.
  intros Hk Hp. unfold newest_first.
  induction Hp as [|x s l out Hf Hp IH|x l out Hp IH]; intros Hs.
  - constructor.
  - inversion Hs as [|? ? Hl Hx]; subst. constructor; [apply IH, Hl|].
    apply List.Forall_forall. intros s' Hs'.
    destruct (picked_In f l out s' Hp Hs') as [y [Hy Hfy]].
    rewrite List.Forall_forall in Hx.
    rewrite (Hk _ _ Hf), (Hk _ _ Hfy). apply Hx, Hy.
  - inversion Hs as [|? ? Hl Hx]; subst. apply IH, Hl.
Qed.

Lemma summaries_picked (f : json -> outcome json) (l out : list json) :
  summaries f l = Ok out -> picked f l out.
Proof.
  revert out. induction l as [|x l IH]; simpl; intros out.
  - intros [= <-]. constructor.
  - destruct (f x) as [s| |] eqn:Ef; simpl; try discriminate.
    destruct (summaries f l) as [ss| |]; simpl; try discriminate.
    intros [= <-]. constructor; [exact Ef | apply IH; reflexivity].
Qed.

Lemma inbox_loop_picked (to_agent : string) (l out : list json) :
  Mail.inbox_loop to_agent l = Ok out -> picked Mail.inbox_summary l out.
Proof.
  revert out. induction l as [|x l IH]; simpl; intros out.
  - intros [= <-]. constructor.
  - destruct (py_get_or "to" (JList []) x) as [to| |]; simpl; try discriminate.
    destruct (py_in to_agent to) as [[|]| |]; simpl; try discriminate.
    + destruct (Mail.inbox_summary x) as [s| |] eqn:Es; simpl; try discriminate.
      destruct (Mail.inbox_loop to_agent l) as [ss| |]; simpl; try discriminate.
      intros [= <-]. constructor; [exact Es | apply IH; reflexivity].
    + intros H. apply picked_skip, IH, H.
Qed.

Lemma owned_by_picked (owner : string) (l out : list json) :
  Proc.owned_by owner l = Ok out -> picked Ok l out.
Proof.
  revert out. induction l as [|x l IH]; simpl; intros out.
  - intros [= <-]. constructor.
  - destruct (py_get "owner" x) as [o| |]; simpl; try discriminate.
    destruct (Proc.owned_by owner l) as [ps| |]; simpl; try discriminate.
    intros [= <-]. destruct (eq_str owner o).
    + constructor; [reflexivity | apply IH; reflexivity].
    + apply picked_skip, IH. reflexivity.
Qed.

Lemma inbox_summary_key (x s : json) :
  Mail.inbox_summary x = Ok s -> sort_key "timestamp" s = sort_key "timestamp" x.
Proof.
  unfold Mail.inbox_summary. destruct x as [| | | | |kv]; simpl; try discriminate.
  destruct (Dict.get "id" kv); simpl; [|discriminate].
  destruct (Dict.get "from" kv); simpl; [|discriminate].
  destruct (Dict.get "subject" kv); simpl; [|discriminate].
  destruct (Dict.get "timestamp" kv) as [t|] eqn:Et; simpl; [|discriminate].
  intros [= <-]. unfold sort_key. simpl. rewrite Et. reflexivity.
Qed.

Lemma list_all_summary_key (x s : json) :
  Mail.list_all_summary x = Ok s -> sort_key "timestamp" s = sort_key "timestamp" x.
Proof.
  unfold Mail.list_all_summary. destruct x as [| | | | |kv]; simpl; try discriminate.
  destruct (Dict.get "id" kv); simpl; [|discriminate].
  destruct (Dict.get "from" kv); simpl; [|discriminate].
  destruct (Dict.get "to" kv); simpl; [|discriminate].
  destruct (Dict.get "subject" kv); simpl; [|discriminate].
  destruct (Dict.get "timestamp" kv) as [t|] eqn:Et; simpl; [|discriminate].
  intros [= <-]. unfold sort_key. simpl. rewrite Et. reflexivity.
Qed.

Lemma process_summary_key (x s : json) :
  Proc.process_summary x = Ok s -> sort_key "started_at" s = sort_key "started_at" x.
Proof.
  unfold Proc.process_summary. destruct x as [| | | | |kv]; simpl; try discriminate.
  destruct (Dict.get "id" kv); simpl; [|discriminate].
  destruct (Dict.get "name" kv); simpl; [|discriminate].
  destruct (Dict.get "owner" kv); simpl; [|discriminate].
  destruct (Dict.get "status" kv); simpl; [|discriminate].
  destruct (Dict.get "started_at" kv) as [t|] eqn:Et; simpl; [|discriminate].
  intros [= <-]. unfold sort_key. simpl. rewrite Et. reflexivity.
Qed.

Section Listings.
Context {E : Type} (os : os_iface E).
Implicit Types (w : world E).

(** Whenever a listing operation returns, its entries are newest
    first, and it has written nothing. *)
Lemma mail_list_all_sorted w (out : list json) w' :
  Mail.mcp__mail_list_all w = (Ok out, w') ->
  newest_first "timestamp" out /\ w' = w.
Proof.
  unfold Mail.mcp__mail_list_all, bind, lift.
  destruct (Mail.list_messages w) as [[messages| |] w0] eqn:Hl; try discriminate.
  destruct (MailListing.list_messages_returns w _ _ Hl) as [-> [_ Hs]].
  destruct (summaries Mail.list_all_summary messages) as [ss| |] eqn:Hsum;
    try discriminate.
  intros [= <- <-]. split; [|reflexivity].
  apply (picked_sorted "timestamp" Mail.list_all_summary messages).
  - exact list_all_summary_key.
  - apply summaries_picked, Hsum.
  - apply (py_sort_desc_returns _ _ _ Hs).
Qed.

Lemma mail_inbox_sorted w (to_agent : string) (out : list json) w' :
  Mail.mcp__mail_inbox to_agent w = (Ok out, w') ->
  newest_first "timestamp" out /\ w' = w.
Proof.
  unfold Mail.mcp__mail_inbox, bind, lift.
  destruct (Mail.list_messages w) as [[messages| |] w0] eqn:Hl; try discriminate.
  destruct (MailListing.list_messages_returns w _ _ Hl) as [-> [_ Hs]].
  destruct (Mail.inbox_loop to_agent messages) as [ss| |] eqn:Hsum;
    try discriminate.
  intros [= <- <-]. split; [|reflexivity].
  apply (picked_sorted "timestamp" Mail.inbox_summary messages).
  - exact inbox_summary_key.
  - apply (inbox_loop_picked to_agent), Hsum.
  - apply (py_sort_desc_returns _ _ _ Hs).
Qed.

Lemma process_list_sorted w (owner : option string) (out : list json) w' :
  Proc.mcp__process_list os owner w = (Ok out, w') ->
  newest_first "started_at" out.
Proof.
  unfold Proc.mcp__process_list, Proc.list_processes.
  unfold bind at 1. unfold bind at 1.
  destruct (Proc.load_all os _ w) as [[l0| |] w0]; try discriminate.
  unfold lift at 1.
  destruct (Sort.py_sort_desc _ l0) as [sorted| |] eqn:Hs; try discriminate.
  unfold bind at 1, lift at 1.
  set (chosen := match owner with
                 | Some o => if String.eqb o "" then Ok sorted
                             else Proc.owned_by o sorted
                 | None => Ok sorted
                 end).
  destruct chosen as [shown| |] eqn:Hc; try discriminate.
  unfold lift.
  destruct (summaries Proc.process_summary shown) as [ss| |] eqn:Hsum;
    try discriminate.
  intros [= <- <-].
  apply (picked_sorted "started_at" Proc.process_summary shown).
  - exact process_summary_key.
  - apply summaries_picked, Hsum.
  - pose proof (proj1 (py_sort_desc_returns _ _ _ Hs)) as Hsorted.
    unfold chosen in Hc. destruct owner as [o|].
    + destruct (String.eqb o ""); [injection Hc as <-; exact Hsorted|].
      apply (picked_sorted "started_at" Ok sorted shown).
      * intros x s [= <-]. reflexivity.
      * apply (owned_by_picked o), Hc.
      * exact Hsorted.
    + injection Hc as <-. exact Hsorted.
Qed.

End Listings.

End ListingSorted.

Module ListingOrder.
Import ServerSpec.

Lemma summaries_total (f : json -> outcome json) (l : list json) :
  Forall (fun x => exists s, f x = Ok s) l -> exists out, summaries f l = Ok out.
Proof.
  induction 1 as [|x l [s Hs] _ [out IH]]; simpl.
  - exists []. reflexivity.
  - rewrite Hs, IH. eexists. reflexivity.
Qed.

Lemma owned_by_total (owner : string) (l : list json) :
  Forall (fun x => exists kv, x = JObj kv) l ->
  exists out, Proc.owned_by owner l = Ok out /\ forall x, In x out -> In x l.
Proof.
  induction 1 as [|x l [kv ->] _ [out [IH Hin]]]; simpl.
  - exists []. split; [reflexivity | intros x []].
  - rewrite IH. simpl. eexists. split; [reflexivity|].
    intros x. destruct (eq_str owner _); simpl; intuition.
Qed.

Section Listings.
Context {E : Type} (os : os_iface E).
Implicit Types (w : world E).

(** The loop of [list_processes] raises [UnicodeDecodeError] when a
    file is not text and the records of the files before it can be
    given a status; no file is written. *)
Lemma load_all_undecodable (files : list (string * file)) w :
  Exists (fun p => snd p = FUndecodable) files ->
  Forall (fun x => exists kv, x = JObj kv /\
            (truthy (pid_field kv) = true ->
             exists p, Proc.as_pid (pid_field kv) = Ok p))
         (Mail.load_all files) ->
  exists w', Proc.load_all os files w = (Raise UnicodeDecodeError, w') /\
             mail w' = mail w /\ procs w' = procs w /\ logs w' = logs w.
Proof.
  revert w. induction files as [|[name f] files IH]; intros w Hx H.
  - inversion Hx.
  - destruct f as [j| | |]; simpl in H |- *.
    + inversion Hx as [? ? Hh|? ? Hx']; subst; [discriminate Hh|].
      inversion H as [|? ? [kv [-> Hpid]] H']; subst.
      unfold bind at 1. rewrite ProcStatus.update_process_status_dict. cbv zeta.
      fold (pid_field kv).
      destruct (truthy (pid_field kv)) eqn:Htr.
      * destruct (Hpid eq_refl) as [p Hp]. rewrite Hp.
        unfold bind at 1.
        match goal with
        | |- context [Proc.load_all os files ?w1] =>
            destruct (IH w1 Hx' H') as [w' [Hl Hw]]; rewrite Hl
        end.
        exists w'. split; [reflexivity | exact Hw].
      * unfold bind at 1. destruct (IH w Hx' H') as [w' [Hl Hw]]. rewrite Hl.
        exists w'. split; [reflexivity | exact Hw].
    + inversion Hx as [? ? Hh|? ? Hx']; subst; [discriminate Hh|].
      apply IH; assumption.
    + inversion Hx as [? ? Hh|? ? Hx']; subst; [discriminate Hh|].
      apply IH; assumption.
    + exists w. repeat split.
Qed.

(** C4.  In a directory whose matching files are all text,
    [list_messages] and [list_processes] return the records of all
    files that load, newest first by timestamp string, a record
    without timestamp counting as the empty string, the oldest; files
    that are not JSON or cannot be read are left out and nothing is
    raised.  On records that have the fields a summary shows,
    [mcp__mail_inbox], [mcp__mail_list_all] and [mcp__process_list]
    return their entries in that order.  A matching file whose bytes
    are not text is not left out: the helpers and the three listing
    operations raise [UnicodeDecodeError]. *)
Theorem listings_newest_first w :
  (decodable "msg_" ".json" (mail w) ->
   (forall j, loads "msg_" ".json" (mail w) j -> sortable "timestamp" j) ->
   exists messages,
     Mail.list_messages w = (Ok messages, w) /\
     newest_first "timestamp" messages /\
     (forall j, In j messages <-> loads "msg_" ".json" (mail w) j)) /\
  (consistent_procs (procs w) ->
   exists processes w1,
     Proc.list_processes os w = (Ok processes, w1) /\
     newest_first "started_at" processes /\
     exists l0,
       Forall2 relisted (Mail.load_all (glob "proc_" ".json" (procs w))) l0 /\
       Permutation processes l0) /\
  (well_formed_mail (mail w) ->
   forall to_agent,
     exists inbox,
       Mail.mcp__mail_inbox to_agent w = (Ok inbox, w) /\
       newest_first "timestamp" inbox) /\
  (well_formed_mail (mail w) -> addressed_mail (mail w) ->
   exists entries,
     Mail.mcp__mail_list_all w = (Ok entries, w) /\
     newest_first "timestamp" entries) /\
  (consistent_procs (procs w) -> complete_procs (procs w) ->
   forall owner,
     exists entries w1,
       Proc.mcp__process_list os owner w = (Ok entries, w1) /\
       newest_first "started_at" entries) /\
  ((exists name, glob_match "msg_" ".json" name = true /\
                 mail w !! name = Some FUndecodable) ->
   Mail.list_messages w = (Raise UnicodeDecodeError, w) /\
   Mail.mcp__mail_list_all w = (Raise UnicodeDecodeError, w) /\
   forall to_agent,
     Mail.mcp__mail_inbox to_agent w = (Raise UnicodeDecodeError, w)) /\
  ((exists name, glob_match "proc_" ".json" name = true /\
                 procs w !! name = Some FUndecodable) ->
   (forall name j,
      glob_match "proc_" ".json" name = true ->
      procs w !! name = Some (FJson j) ->
      well_formed_process name j) ->
   exists w1,
     Proc.list_processes os w = (Raise UnicodeDecodeError, w1) /\
     forall owner,
       Proc.mcp__process_list os owner w = (Raise UnicodeDecodeError, w1)).
Proof.
  split; [|split; [|split; [|split; [|split; [|split]]]]].
  - intros Hd Hs. destruct (MailListing.list_messages_sorted w Hd Hs)
      as [messages [H1 [H2 [H3 _]]]].
    exists messages. repeat split; try assumption; apply H3.
  - intros Hc.
    destruct (ProcCleanupSpec.list_processes_total os w Hc)
      as [l0 [w1 [Hl [H2 _]]]].
    eexists. exists w1. split; [exact Hl|]. split.
    + apply SortFacts.sorted_by_sorted.
    + exists l0. split; [exact H2 | apply SortFacts.sorted_by_perm].
  - intros Hwf to_agent.
    destruct (MailListing.list_messages_sorted w) as [messages [Hl [_ [Hin _]]]].
    { exact (proj1 Hwf). }
    { intros j Hj. apply MailListing.well_formed_sortable, (proj2 Hwf), Hj. }
    assert (Hall : Forall well_formed_message messages).
    { apply List.Forall_forall. intros j Hj. apply (proj2 Hwf), Hin, Hj. }
    assert (Hr : Mail.mcp__mail_inbox to_agent w
                 = (Ok (flat_map (inbox_entry to_agent) messages), w)).
    { unfold Mail.mcp__mail_inbox, bind, lift. rewrite Hl.
      rewrite (MailListing.inbox_loop_well_formed to_agent messages Hall).
      reflexivity. }
    eexists. split; [exact Hr|].
    apply (ListingSorted.mail_inbox_sorted w to_agent _ w Hr).
  - intros Hwf Hto.
    destruct (MailListing.list_messages_sorted w) as [messages [Hl [_ [Hin _]]]].
    { exact (proj1 Hwf). }
    { intros j Hj. apply MailListing.well_formed_sortable, (proj2 Hwf), Hj. }
    destruct (summaries_total Mail.list_all_summary messages) as [out Hout].
    { apply List.Forall_forall. intros j Hj. apply Hin in Hj.
      destruct (proj2 Hwf j Hj) as [kv [-> [[id Hid] [[from Hfrom] [[sub Hsub] [[ts Hts] _]]]]]].
      destruct (Hto _ Hj) as [kv' [[= <-] [to Hto']]].
      unfold Mail.list_all_summary, py_index, py_get_or.
      rewrite Hid, Hfrom, Hto', Hsub, Hts. simpl. eexists. reflexivity. }
    assert (Hr : Mail.mcp__mail_list_all w = (Ok out, w)).
    { unfold Mail.mcp__mail_list_all, bind, lift. rewrite Hl, Hout. reflexivity. }
    exists out. split; [exact Hr|].
    apply (ListingSorted.mail_list_all_sorted w out w Hr).
  - intros Hc Hcomplete owner.
    destruct (ProcCleanupSpec.list_processes_total os w Hc)
      as [l0 [w1 [Hl [H2 _]]]].
    set (listed := sorted_by (sort_key "started_at") l0) in *.
    assert (Hlisted : forall y, In y listed ->
              exists kv st, y = JObj (Dict.set "status" (JStr st) kv) /\
                is_Some (Dict.get "id" kv) /\ is_Some (Dict.get "name" kv) /\
                is_Some (Dict.get "owner" kv) /\ is_Some (Dict.get "started_at" kv)).
    { intros y Hy.
      apply (Permutation_in _ (SortFacts.sorted_by_perm _ l0)) in Hy.
      destruct (ProcNoPid.Forall2_In_r _ _ _ y H2 Hy) as [x [Hx [kv [st [-> [-> _]]]]]].
      assert (Hloads : loads "proc_" ".json" (procs w) (JObj kv)).
      { apply ProcNoPid.In_load_all in Hx. destruct Hx as [n Hn].
        apply ListingFacts.glob_In in Hn. exists n. split; apply Hn. }
      destruct Hloads as [n [Hg Hf]].
      destruct (proj2 Hc n _ Hg Hf) as [kv' [id [[= <-] [Hid _]]]].
      destruct (Hcomplete (JObj kv)) as [kv' [[= <-] [Hn [Ho Hs]]]].
      { exists n. split; assumption. }
      exists kv, st. split; [reflexivity|]. rewrite Hid. repeat split; eauto. }
    assert (Hchosen : exists shown,
              match owner with
              | Some o => if String.eqb o "" then Ok listed
                          else Proc.owned_by o listed
              | None => Ok listed
              end = Ok shown /\ forall x, In x shown -> In x listed).
    { destruct owner as [o|]; [|exists listed; split; [reflexivity | auto]].
      destruct (String.eqb o ""); [exists listed; split; [reflexivity | auto]|].
      apply owned_by_total. apply List.Forall_forall. intros y Hy.
      destruct (Hlisted y Hy) as [kv [st [-> _]]]. eexists. reflexivity. }
    destruct Hchosen as [shown [Hch Hsub]].
    destruct (summaries_total Proc.process_summary shown) as [out Hout].
    { apply List.Forall_forall. intros y Hy.
      destruct (Hlisted y (Hsub y Hy))
        as [kv [st [-> [[id Hid] [[nm Hn] [[o Ho] [s Hs]]]]]]].
      unfold Proc.process_summary, py_index, py_get.
      rewrite DictFacts.get_set_eq.
      rewrite !DictFacts.get_set_ne by discriminate.
      rewrite Hid, Hn, Ho, Hs. simpl. eexists. reflexivity. }
    assert (Hr : Proc.mcp__process_list os owner w = (Ok out, w1)).
    { unfold Proc.mcp__process_list. unfold bind at 1. rewrite Hl.
      unfold bind at 1, lift at 1. rewrite Hch. unfold lift. rewrite Hout.
      reflexivity. }
    exists out, w1. split; [exact Hr|].
    apply (ListingSorted.process_list_sorted os w owner out w1 Hr).
  - intros [name [Hg Hf]].
    assert (Hl : Mail.list_messages w = (Raise UnicodeDecodeError, w)).
    { unfold Mail.list_messages.
      destruct (ListingFacts.mail_load_loop_outcome (glob "msg_" ".json" (mail w)))
        as [[Hd _] | [_ ->]]; [|reflexivity].
      exfalso. exact (ListingFacts.glob_decodable _ _ _ Hd name Hg Hf). }
    split; [exact Hl|]. split.
    + unfold Mail.mcp__mail_list_all, bind. rewrite Hl. reflexivity.
    + intros to_agent. unfold Mail.mcp__mail_inbox, bind. rewrite Hl. reflexivity.
  - intros [name [Hg Hf]] Hc.
    destruct (load_all_undecodable (glob "proc_" ".json" (procs w)) w)
      as [w1 [Hl _]].
    { apply List.Exists_exists. exists (name, FUndecodable).
      split; [|reflexivity]. apply ListingFacts.glob_In. split; assumption. }
    { apply List.Forall_forall. intros j Hj.
      apply ProcNoPid.In_load_all in Hj. destruct Hj as [n Hn].
      apply ListingFacts.glob_In in Hn. destruct Hn as [Hfn Hgn].
      destruct (Hc n j Hgn Hfn) as [kv [id [-> [_ [_ [_ [Hpid _]]]]]]].
      exists kv. split; [reflexivity | exact Hpid]. }
    assert (Hlist : Proc.list_processes os w = (Raise UnicodeDecodeError, w1)).
    { unfold Proc.list_processes, bind. rewrite Hl. reflexivity. }
    exists w1. split; [exact Hlist|].
    intros owner. unfold Proc.mcp__process_list. unfold bind at 1.
    rewrite Hlist. reflexivity.
Qed.

End Listings.

(** C4, the failing inputs.  A message file without [timestamp]:
    [list_messages] sorts the message last, as the oldest, but
    [mcp__mail_list_all] and [mcp__mail_inbox] raise [KeyError]; on a
    process record without [started_at] so does [mcp__process_list].
    A message file, or a process file, whose bytes are not text, next
    to a file that loads: the helpers and the listing operations raise
    [UnicodeDecodeError] where the file should be left out. *)
Theorem listings_raise :
  (fst (Mail.list_messages Samples.undated_mail)
     = Ok [Samples.message "m1" "carol" "bob" "review" "2024-07-03T09:00:00Z";
           Samples.undated_message] /\
   fst (Mail.mcp__mail_list_all Samples.undated_mail) = Raise (KeyError "timestamp") /\
   fst (Mail.mcp__mail_inbox "bob" Samples.undated_mail) = Raise (KeyError "timestamp") /\
   fst (Proc.list_processes ToyOS.os Samples.unstarted_procs)
     = Ok [JObj (Dict.set "status" (JStr "stopped")
                   match Samples.unstarted_record with JObj kv => kv | _ => [] end)] /\
   fst (Proc.mcp__process_list ToyOS.os None Samples.unstarted_procs)
     = Raise (KeyError "started_at")) /\
  (mail Samples.binary_mail !! "msg_m2.json" = Some FUndecodable /\
   fst (Mail.list_messages Samples.binary_mail) = Raise UnicodeDecodeError /\
   fst (Mail.mcp__mail_list_all Samples.binary_mail) = Raise UnicodeDecodeError /\
   fst (Mail.mcp__mail_inbox "bob" Samples.binary_mail) = Raise UnicodeDecodeError /\
   procs Samples.binary_procs !! "proc_p2.json" = Some FUndecodable /\
   fst (Proc.list_processes ToyOS.os Samples.binary_procs) = Raise UnicodeDecodeError /\
   fst (Proc.mcp__process_list ToyOS.os None Samples.binary_procs)
     = Raise UnicodeDecodeError).
Proof. repeat split; vm_compute; reflexivity. Qed.

End ListingOrder.

(* ===================================================================== *)
(** * The directories stay well formed *)
(* ===================================================================== *)

Module Invariants.
Import ServerSpec.

Lemma loads_insert (prefix suffix : string) (d : gmap string file) (name : string)
  (f : file) (j : json) :
  loads prefix suffix (<[name := f]> d) j -> f = FJson j \/ loads prefix suffix d j.
Proof.
  intros [n [Hg Hf]]. apply lookup_insert_Some in Hf.
  destruct Hf as [[_ ->] | [_ Hf]]; [left; reflexivity|].
  right. exists n. split; assumption.
Qed.

Section Mail.
Context {E : Type} (os : os_iface E).
Implicit Types (w : world E).

(** Sending keeps the mail directory well formed, every message
    naming its recipients. *)
Lemma mail_send_well_formed w (from_agent : string) (to_agents : list string)
  (subject body : string) :
  Str.contains "/" (fst (os_uuid4 os (env w))) = false ->
  well_formed_mail (mail w) ->
  addressed_mail (mail w) ->
  let w' := snd (Mail.mcp__mail_send os from_agent to_agents subject body w) in
  well_formed_mail (mail w') /\ addressed_mail (mail w') /\
  procs w' = procs w /\ logs w' = logs w.
Proof.
  intros Hid Hwf Hto.
  unfold Mail.mcp__mail_send, Mail.generate_message_id, utcnow_Z, Mail.save_message,
    ask, bind, lift, ret.
  destruct (os_uuid4 os (env w)) as [id e1]. simpl in Hid |- *.
  destruct (os_utcnow os e1) as [t e2]. simpl.
  unfold Mail.get_message_path. rewrite (PathFacts.entry_name_ok _ _ _ Hid). simpl.
  split; [|split; [|split; reflexivity]].
  - split; [apply ListingFacts.decodable_insert, (proj1 Hwf)|].
    intros j Hj. apply loads_insert in Hj.
    destruct Hj as [[= <-] | Hj]; [|apply (proj2 Hwf), Hj].
    eexists. split; [reflexivity|]. simpl.
    repeat split; try (eexists; reflexivity). right. eexists. reflexivity.
  - intros j Hj. apply loads_insert in Hj. destruct Hj as [[= <-] | Hj]; [|apply Hto, Hj].
    eexists. split; [reflexivity|]. eexists. reflexivity.
Qed.

End Mail.

Section Processes.
Context {E : Type} (os : os_iface E).
Implicit Types (w : world E).

Lemma consistent_insert (d : gmap string file) (name : string) (j : json) :
  consistent_procs d ->
  well_formed_process name j ->
  consistent_procs (<[name := FJson j]> d).
Proof.
  intros Hc Hj. split; [apply ListingFacts.decodable_insert, (proj1 Hc)|].
  intros n j' Hg Hf. apply lookup_insert_Some in Hf.
  destruct Hf as [[<- [= <-]] | [_ Hf]]; [exact Hj | apply (proj2 Hc n j' Hg Hf)].
Qed.

(** Starting a process keeps the process directory consistent, when
    the pid of the new process fits the C type. *)
Lemma process_start_consistent w (command cwd name owner : string) :
  Str.contains "/" (fst (os_uuid4 os (env w))) = false ->
  (forall e c d l pid, fst (os_popen os e c d l) = inl pid ->
     -2147483648 <= pid <= 2147483647) ->
  consistent_procs (procs w) ->
  consistent_procs (procs (snd (Proc.mcp__process_start os command cwd name owner w))).
Proof.
  intros Hid Hpid Hc.
  rewrite (ProcRestart.process_start_unfold os w command cwd name owner Hid).
  cbv zeta.
  destruct (fst (os_popen os _ command cwd _)) as [pid|e] eqn:Hp; simpl; [|exact Hc].
  apply consistent_insert; [exact Hc|].
  eexists. eexists. split; [reflexivity|]. split; [reflexivity|].
  split; [exact Hid|]. split; [reflexivity|]. split.
  - intros _. simpl. specialize (Hpid _ _ _ _ pid Hp).
    destruct (Z.leb_spec (-2147483648) pid); [|lia].
    destruct (Z.leb_spec pid 2147483647); [|lia].
    eexists. reflexivity.
  - right. eexists. reflexivity.
Qed.

(** Stopping a process keeps the process directory consistent. *)
Lemma process_stop_consistent w (process_id name : string)
  (kv : list (string * json)) (p : Z) :
  Proc.get_process_path process_id = Ok name ->
  procs w !! name = Some (FJson (JObj kv)) ->
  Dict.get "id" kv = Some (JStr process_id) ->
  truthy (pid_field kv) = true ->
  Proc.as_pid (pid_field kv) = Ok p ->
  consistent_procs (procs w) ->
  consistent_procs (procs (snd (Proc.mcp__process_stop os process_id w))).
Proof.
  intros Hp Hf Hid Htr Hpid Hc.
  destruct (ProcRestart.process_stop_true os w process_id name kv p Hp Hf Hid Htr Hpid)
    as [w1 [kv1 [Hstop [Hpr [_ [_ [_ Hsame]]]]]]].
  rewrite Hstop. simpl. rewrite Hpr.
  apply consistent_insert; [exact Hc|].
  apply PathFacts.entry_name_inv in Hp. destruct Hp as [Hsl Hname].
  assert (Hg : glob_match "proc_" ".json" name = true).
  { rewrite Hname. apply ListingFacts.glob_match_entry; [reflexivity|exact Hsl|reflexivity]. }
  destruct (proj2 Hc name _ Hg Hf) as [kv' [id [[= <-] [Hid' [Hsl' [Hn [Hp' Hs']]]]]]].
  exists kv1, id. split; [reflexivity|].
  unfold pid_field in *.
  rewrite !Hsame by discriminate. repeat split; assumption.
Qed.

End Processes.

End Invariants.

(* ===================================================================== *)
(** * Lines of a text *)
(* ===================================================================== *)

Module TextFacts.

Lemma app_nil_r (s : string) : s +:+ "" = s.
Proof.
  induction s as [|a s IH]; [reflexivity|].
  rewrite StrFacts.app_cons, IH. reflexivity.
Qed.










End TextFacts.

(* ===================================================================== *)
(** * Reading the log of a process *)
(* ===================================================================== *)

Module ProcLogs.
Import Proc.

Section Logs.
Context {E : Type}.
Implicit Types w : world E.



End Logs.
End ProcLogs.

(* ===================================================================== *)
(** * What the process tools leave alone *)
(* ===================================================================== *)

Module Frame.
Import Proc ServerSpec.

Section Framed.
Context {E : Type} (os : os_iface E) (R : world E -> world E -> Prop).
Hypothesis R_refl : forall w, R w w.
Hypothesis R_trans : forall w1 w2 w3, R w1 w2 -> R w2 w3 -> R w1 w3.
(** [R] does not look at the environment or at the calls made. *)
Hypothesis R_sys :
  forall w e t, R w (World (mail w) (procs w) (logs w) e t).

Lemma framed_ret {A : Type} (a : A) : framed R (ret a).
Proof. intros w. apply R_refl. Qed.

Lemma framed_lift {A : Type} (o : outcome A) : framed R (lift o).
Proof. intros w. apply R_refl. Qed.

Lemma framed_bind {A B : Type} (m : M E A) (k : A -> M E B) :
  framed R m -> (forall a, framed R (k a)) -> framed R (bind m k).
Proof.
  intros Hm Hk w. unfold bind. specialize (Hm w).
  destruct (m w) as [[a|e|] w1]; simpl in *; [|exact Hm..].
  eapply R_trans; [exact Hm | apply Hk].
Qed.

Lemma framed_except {A : Type} (body handler : M E A) :
  framed R body -> framed R handler -> framed R (except_OSError body handler).
Proof.
  intros Hb Hh w. unfold except_OSError. specialize (Hb w).
  destruct (body w) as [[a|e|] w1]; simpl in *; [exact Hb| |exact Hb].
  destruct e; try exact Hb.
  eapply R_trans; [exact Hb | apply Hh].
Qed.

Lemma framed_ask {A : Type} (f : E -> A * E) : framed R (ask f).
Proof. intros w. unfold ask. destruct (f (env w)). apply R_sys. Qed.

Lemma framed_utcnow : framed R (utcnow_Z os).
Proof.
  apply framed_bind; [apply framed_ask | intros t; apply framed_ret].
Qed.

Lemma framed_kill (pid : json) (sig : signal) : framed R (kill os pid sig).
Proof.
  apply framed_bind; [apply framed_lift|]. intros p w.
  destruct (os_kill os (env w) p sig). apply R_sys.
Qed.

Lemma framed_getpgid (pid : json) : framed R (getpgid os pid).
Proof.
  apply framed_bind; [apply framed_lift|]. intros p w.
  destruct (os_getpgid os (env w) p). apply R_sys.
Qed.

Lemma framed_killpg (pgid : Z) (sig : signal) : framed R (killpg os pgid sig).
Proof. intros w. unfold killpg. destruct (os_killpg os (env w) pgid sig). apply R_sys. Qed.

Lemma framed_sleep (seconds : Z) : framed R (sleep os seconds).
Proof. intros w. apply R_sys. Qed.

Lemma framed_update_process_status (process_data : json) :
  framed R (update_process_status os process_data).
Proof.
  apply framed_bind; [apply framed_lift|]. intros pid.
  destruct (negb (truthy pid)); [apply framed_lift|].
  apply framed_except; [|apply framed_lift].
  apply framed_bind; [apply framed_kill | intros _; apply framed_lift].
Qed.

Lemma framed_load_all (files : list (string * file)) : framed R (load_all os files).
Proof.
  induction files as [|[name [j| | |]] files IH]; simpl; try exact IH.
  - apply framed_ret.
  - apply framed_bind; [apply framed_update_process_status|]. intros j'.
    apply framed_bind; [exact IH | intros l; apply framed_ret].
  - apply framed_lift.
Qed.

Lemma framed_list_processes : framed R (list_processes os).
Proof.
  apply framed_bind; [|intros l; apply framed_lift].
  intros w. apply framed_load_all.
Qed.

Lemma framed_process_list (owner : option string) :
  framed R (mcp__process_list os owner).
Proof.
  apply framed_bind; [apply framed_list_processes|]. intros l.
  apply framed_bind; [apply framed_lift | intros l'; apply framed_lift].
Qed.

Lemma framed_terminate (pid : json) : framed R (terminate os pid).
Proof.
  apply framed_bind; [apply framed_getpgid|]. intros g.
  apply framed_bind; [apply framed_killpg|]. intros _.
  apply framed_bind; [apply framed_sleep|]. intros _.
  apply framed_bind.
  - apply framed_except; [|apply framed_ret].
    apply framed_bind; [apply framed_kill | intros _; apply framed_ret].
  - intros [|]; [|apply framed_ret].
    apply framed_bind; [apply framed_getpgid | intros g'; apply framed_killpg].
Qed.

(** [R] does not look at the metadata files either. *)
Hypothesis R_procs : forall w f, R w (with_procs f w).

Lemma framed_load_process (process_id : string) : framed R (load_process process_id).
Proof.
  apply framed_bind; [apply framed_lift|]. intros name w.
  destruct (procs w !! name) as [[j| | |]|]; apply R_refl.
Qed.

Lemma framed_save_process (process_data : json) : framed R (save_process process_data).
Proof.
  apply framed_bind; [apply framed_lift|]. intros id.
  apply framed_bind; [apply framed_lift|]. intros process_id.
  apply framed_bind; [apply framed_lift|]. intros name w. apply R_procs.
Qed.

Lemma framed_process_stop (process_id : string) :
  framed R (mcp__process_stop os process_id).
Proof.
  apply framed_bind; [apply framed_load_process|]. intros process_data.
  destruct (negb (truthy process_data)); [apply framed_ret|].
  apply framed_bind; [apply framed_lift|]. intros pid.
  destruct (negb (truthy pid)); [apply framed_ret|].
  apply framed_except.
  - apply framed_bind; [apply framed_terminate|]. intros _.
    apply framed_bind; [apply framed_lift|]. intros d1.
    apply framed_bind; [apply framed_utcnow|]. intros t.
    apply framed_bind; [apply framed_lift|]. intros d2.
    apply framed_bind; [apply framed_save_process | intros _; apply framed_ret].
  - apply framed_bind; [apply framed_lift|]. intros d1.
    apply framed_bind; [apply framed_save_process | intros _; apply framed_ret].
Qed.

Lemma framed_cleanup_loop (processes : list json) : framed R (cleanup_loop processes).
Proof.
  induction processes as [|process rest IH]; simpl; [apply framed_ret|].
  apply framed_bind; [apply framed_lift|]. intros status.
  destruct (eq_str "stopped" status); [|exact IH].
  apply framed_bind; [apply framed_lift|]. intros id.
  apply framed_bind; [apply framed_lift|]. intros process_id.
  apply framed_bind; [apply framed_lift|]. intros name.
  apply framed_bind; [intros w; apply R_procs|]. intros _.
  apply framed_bind; [apply framed_lift|]. intros _.
  apply framed_bind; [exact IH | intros n; apply framed_ret].
Qed.

Lemma framed_process_cleanup : framed R (mcp__process_cleanup os).
Proof.
  apply framed_bind; [apply framed_list_processes|]. intros l.
  apply framed_bind; [apply framed_cleanup_loop | intros n; apply framed_ret].
Qed.

End Framed.

Section Kept.
Context {E : Type} (os : os_iface E).
Implicit Types w : world E.

Lemma same_files_refl w : same_files w w.
Proof. repeat split. Qed.

Lemma same_files_trans w1 w2 w3 :
  same_files w1 w2 -> same_files w2 w3 -> same_files w1 w3.
Proof. intros [? [? ?]] [? [? ?]]. repeat split; congruence. Qed.

Lemma same_logs_mail_refl w : same_logs_mail w w.
Proof. split; reflexivity. Qed.

Lemma same_logs_mail_trans w1 w2 w3 :
  same_logs_mail w1 w2 -> same_logs_mail w2 w3 -> same_logs_mail w1 w3.
Proof. intros [? ?] [? ?]. split; congruence. Qed.

(** X3.  Whatever they return or raise, [mcp__process_list] writes
    no file (the status it derives is not written back), and
    [mcp__process_stop] and [mcp__process_cleanup] write neither a
    log file nor a mail file: they create, change and remove none;
    [mcp__process_logs] changes nothing at all.  So cleaning up the
    metadata does not take a log away.  What a process writes to its
    own log while it is stopped is its own doing and no part of this. *)
Theorem process_tools_keep_logs w :
  (forall owner, same_files w (snd (mcp__process_list os owner w))) /\
  (forall process_id, same_logs_mail w (snd (mcp__process_stop os process_id w))) /\
  same_logs_mail w (snd (mcp__process_cleanup os w)) /\
  (forall process_id lines, snd (mcp__process_logs process_id lines w) = w).
Proof.
  assert (Hlist : forall owner, same_files w (snd (mcp__process_list os owner w))).
  { intros owner.
    apply (framed_process_list os same_files same_files_refl same_files_trans).
    intros w0 e t. repeat split. }
  assert (Hstop : forall process_id,
            same_logs_mail w (snd (mcp__process_stop os process_id w))).
  { intros process_id.
    apply (framed_process_stop os same_logs_mail same_logs_mail_refl
             same_logs_mail_trans).
    - intros w0 e t. split; reflexivity.
    - intros w0 f. split; reflexivity. }
  assert (Hclean : same_logs_mail w (snd (mcp__process_cleanup os w))).
  { apply (framed_process_cleanup os same_logs_mail same_logs_mail_refl
             same_logs_mail_trans).
    - intros w0 e t. split; reflexivity.
    - intros w0 f. split; reflexivity. }
  split; [exact Hlist|]. split; [exact Hstop|]. split; [exact Hclean|].
  intros process_id lines.
  unfold mcp__process_logs, bind, lift.
  destruct (get_log_path process_id) as [name| |]; try reflexivity.
  destruct (logs w !! name); reflexivity.
Qed.

End Kept.
End Frame.

(* ===================================================================== *)
(** * Stopping, in detail *)
(* ===================================================================== *)

Module ProcSignals.
Import Proc ServerSpec.

Section Signals.
Context {E : Type} (os : os_iface E).
Implicit Types w : world E.

(** X4.  Stopping a record that has a pid [p] makes these calls and
    no others, in this order, each with the state of the operating
    system the call before left: [getpgid(p)]; [killpg(g, SIGTERM)]
    for the group [g] that [getpgid] answered; [sleep(2)];
    the probe [kill(p, 0)]; and, only when the probe finds the
    process, [getpgid(p)] again and [killpg(g', SIGKILL)] for the
    group [g'] of the second answer.  The calls end at the first one
    that raises: after the first [getpgid] when the process has no
    group to ask for, after the [SIGTERM] when that is refused, after
    the second [getpgid] when that raises.  A probe that raises ends
    them too, but as a success.  The record is stored back every
    time; its [stopped_at] is set, to the time read after the last
    call, exactly when no call other than the probe raised, and is
    left as stored otherwise.  Signals go to the process group; the
    pid itself only gets the probe. *)
Theorem process_stop_calls w (process_id name : string)
  (kv : list (string * json)) (p : Z) :
  get_process_path process_id = Ok name ->
  procs w !! name = Some (FJson (JObj kv)) ->
  Dict.get "id" kv = Some (JStr process_id) ->
  truthy (pid_field kv) = true ->
  as_pid (pid_field kv) = Ok p ->
  exists w' kv',
    mcp__process_stop os process_id w = (Ok true, w') /\
    procs w' = <[name := FJson (JObj kv')]> (procs w) /\
    let made calls := trace w' = trace w ++ calls in
    let unstamped := Dict.get "stopped_at" kv' = Dict.get "stopped_at" kv in
    let stamped e :=
      Dict.get "stopped_at" kv' = Some (JStr (fst (os_utcnow os e) +:+ "Z")) in
    let asked := os_getpgid os (env w) p in
    match fst asked with
    | None => made [EvGetpgid p] /\ unstamped
    | Some g =>
        let termed := os_killpg os (snd asked) g SIGTERM in
        if fst termed then
          let alive := os_kill os (os_sleep os (snd termed) 2) p SIG0 in
          if fst alive then
            let asked_again := os_getpgid os (snd alive) p in
            match fst asked_again with
            | None =>
                made [EvGetpgid p; EvKillpg g SIGTERM; EvSleep 2; EvKill p SIG0;
                      EvGetpgid p] /\
                unstamped
            | Some g' =>
                let killed := os_killpg os (snd asked_again) g' SIGKILL in
                made [EvGetpgid p; EvKillpg g SIGTERM; EvSleep 2; EvKill p SIG0;
                      EvGetpgid p; EvKillpg g' SIGKILL] /\
                if fst killed then stamped (snd killed) else unstamped
            end
          else
            made [EvGetpgid p; EvKillpg g SIGTERM; EvSleep 2; EvKill p SIG0] /\
            stamped (snd alive)
        else made [EvGetpgid p; EvKillpg g SIGTERM] /\ unstamped
    end.
Proof.
  intros Hpath Hf Hid Ht Hp.
  pose proof (ProcStop.process_stop_unfold os w process_id name kv Hpath Hf Hid Ht)
    as Hstop.
  fold (pid_field kv) in Hstop. revert Hstop.
  unfold terminate, is_process_running, getpgid, killpg, sleep, kill.
  unfold bind, lift, ret, except_OSError, syscall. rewrite Hp.
  cbv zeta. cbn [env trace mail procs logs].
  assert (Hun : Dict.get "stopped_at" (Dict.set "status" (JStr "stopped") kv)
                = Dict.get "stopped_at" kv).
  { apply DictFacts.get_set_ne. discriminate. }
  destruct (os_getpgid os (env w) p) as [[g|] e1];
    cbn [fst snd env trace mail procs logs].
  2:{ intros Hstop. eexists. eexists. split; [exact Hstop|].
      split; [reflexivity|]. split; [reflexivity | exact Hun]. }
  destruct (os_killpg os e1 g SIGTERM) as [[|] e2];
    cbn [fst snd env trace mail procs logs].
  2:{ intros Hstop. eexists. eexists. split; [exact Hstop|].
      split; [reflexivity|]. cbn [trace with_procs].
      split; [rewrite <- List.app_assoc; reflexivity | exact Hun]. }
  destruct (os_kill os (os_sleep os e2 2) p SIG0) as [[|] e4];
    cbn [fst snd env trace mail procs logs].
  2:{ intros Hstop. eexists. eexists. split; [exact Hstop|].
      split; [reflexivity|]. cbn [trace with_procs].
      split; [rewrite <- !List.app_assoc; reflexivity|].
      apply DictFacts.get_set_eq. }
  destruct (os_getpgid os e4 p) as [[g'|] e5];
    cbn [fst snd env trace mail procs logs].
  2:{ intros Hstop. eexists. eexists. split; [exact Hstop|].
      split; [reflexivity|]. cbn [trace with_procs].
      split; [rewrite <- !List.app_assoc; reflexivity | exact Hun]. }
  destruct (os_killpg os e5 g' SIGKILL) as [[|] e6];
    cbn [fst snd env trace mail procs logs];
    intros Hstop; eexists; eexists; (split; [exact Hstop|]);
    (split; [reflexivity|]); cbn [trace with_procs];
    (split; [rewrite <- !List.app_assoc; reflexivity|]).
  - apply DictFacts.get_set_eq.
  - exact Hun.
Qed.

(** X5.  A stop can be repeated: stopping a record that has a pid
    returns [True], and stopping it again returns [True] again (not
    [False]); the record is then still stored with status stopped and
    all its fields other than the status and the stop time as they
    were at the start. *)
Theorem process_stop_twice w (process_id name : string)
  (kv : list (string * json)) (p : Z) :
  get_process_path process_id = Ok name ->
  procs w !! name = Some (FJson (JObj kv)) ->
  Dict.get "id" kv = Some (JStr process_id) ->
  truthy (pid_field kv) = true ->
  as_pid (pid_field kv) = Ok p ->
  exists w1 w2 kv2,
    mcp__process_stop os process_id w = (Ok true, w1) /\
    mcp__process_stop os process_id w1 = (Ok true, w2) /\
    procs w2 = <[name := FJson (JObj kv2)]> (procs w) /\
    Dict.get "status" kv2 = Some (JStr "stopped") /\
    (forall k, k <> "status" -> k <> "stopped_at" ->
               Dict.get k kv2 = Dict.get k kv).
Proof.
  intros Hpath Hf Hid Ht Hp.
  destruct (ProcRestart.process_stop_true os w process_id name kv p
              Hpath Hf Hid Ht Hp) as [w1 [kv1 [H1 [Hp1 [_ [_ [Hs1 Hk1]]]]]]].
  assert (Hf1 : procs w1 !! name = Some (FJson (JObj kv1))).
  { rewrite Hp1. apply lookup_insert_eq. }
  assert (Hpid1 : pid_field kv1 = pid_field kv).
  { unfold pid_field. rewrite Hk1 by discriminate. reflexivity. }
  destruct (ProcRestart.process_stop_true os w1 process_id name kv1 p Hpath Hf1)
    as [w2 [kv2 [H2 [Hp2 [_ [_ [Hs2 Hk2]]]]]]].
  { rewrite Hk1 by discriminate. exact Hid. }
  { rewrite Hpid1. exact Ht. }
  { rewrite Hpid1. exact Hp. }
  exists w1, w2, kv2. split; [exact H1|]. split; [exact H2|].
  split; [|split; [exact Hs2|]].
  - rewrite Hp2, Hp1. apply insert_insert_eq.
  - intros k Hk Hk'. rewrite Hk2, Hk1 by assumption. reflexivity.
Qed.

(** X6.  A process that was started can be stopped: when the spawn
    succeeds with a pid (not 0, and a C int),
    [mcp__process_start] returns the new identifier, and
    [mcp__process_stop] of that identifier returns [True] and leaves
    the record stored under the identifier with status stopped and
    with the name, owner, command, directory, pid, start time and log
    file that the start recorded. *)
Theorem start_then_stop w (command cwd name owner : string) (pid : Z) :
  let process_id := fst (os_uuid4 os (env w)) in
  let e1 := snd (os_uuid4 os (env w)) in
  let timestamp := fst (os_utcnow os e1) +:+ "Z" in
  let log_path := LOG_DIR +:+ "/" +:+ process_id +:+ ".log" in
  Str.contains "/" process_id = false ->
  fst (os_popen os (snd (os_utcnow os e1)) command cwd log_path) = inl pid ->
  pid <> 0 ->
  -2147483648 <= pid <= 2147483647 ->
  exists w1 w2 kv,
    mcp__process_start os command cwd name owner w = (Ok process_id, w1) /\
    procs w1 !! ("proc_" +:+ process_id +:+ ".json")
    = Some (FJson (started_record process_id name owner command cwd pid
                     timestamp log_path)) /\
    logs w1 !! (process_id +:+ ".log") = Some "" /\
    mcp__process_stop os process_id w1 = (Ok true, w2) /\
    procs w2 !! ("proc_" +:+ process_id +:+ ".json") = Some (FJson (JObj kv)) /\
    Dict.get "status" kv = Some (JStr "stopped") /\
    Dict.get "id" kv = Some (JStr process_id) /\
    Dict.get "name" kv = Some (JStr name) /\
    Dict.get "owner" kv = Some (JStr owner) /\
    Dict.get "command" kv = Some (JStr command) /\
    Dict.get "cwd" kv = Some (JStr cwd) /\
    Dict.get "pid" kv = Some (JInt pid) /\
    Dict.get "started_at" kv = Some (JStr timestamp) /\
    Dict.get "log_file" kv = Some (JStr log_path).
Proof.
  intros process_id e1 timestamp log_path Hid Hspawn Hnz Hrange.
  pose proof (ProcRestart.process_start_unfold os w command cwd name owner Hid)
    as Hstart.
  cbv zeta in Hstart. fold process_id e1 timestamp log_path in Hstart.
  rewrite Hspawn in Hstart.
  set (rec := [("id", JStr process_id); ("name", JStr name); ("owner", JStr owner);
               ("command", JStr command); ("cwd", JStr cwd); ("pid", JInt pid);
               ("status", JStr "running"); ("started_at", JStr timestamp);
               ("log_file", JStr log_path)]).
  match type of Hstart with _ = (_, ?x) => set (w1 := x) in * end.
  assert (Hf1 : procs w1 !! ("proc_" +:+ process_id +:+ ".json")
                = Some (FJson (JObj rec))).
  { unfold w1, with_procs. cbn [procs]. apply lookup_insert_eq. }
  assert (Hpath : get_process_path process_id
                  = Ok ("proc_" +:+ process_id +:+ ".json")).
  { apply PathFacts.entry_name_ok, Hid. }
  assert (Htruthy : truthy (pid_field rec) = true).
  { unfold pid_field, rec. cbn. apply negb_true_iff, Z.eqb_neq, Hnz. }
  assert (Hpid : as_pid (pid_field rec) = Ok pid).
  { unfold pid_field, rec. cbn.
    destruct (Z.leb_spec (-2147483648) pid); [|lia].
    destruct (Z.leb_spec pid 2147483647); [reflexivity | lia]. }
  destruct (ProcRestart.process_stop_true os w1 process_id _ rec pid
              Hpath Hf1 eq_refl Htruthy Hpid)
    as [w2 [kv [H2 [Hp2 [_ [_ [Hs Hk]]]]]]].
  exists w1, w2, kv. split; [exact Hstart|]. split; [exact Hf1|].
  split; [unfold w1, with_procs; cbn [logs]; apply lookup_insert_eq|].
  split; [exact H2|].
  split; [rewrite Hp2; apply lookup_insert_eq|].
  split; [exact Hs|].
  repeat split; rewrite Hk by discriminate; reflexivity.
Qed.

End Signals.
End ProcSignals.

(* ===================================================================== *)
(** * The owner filter of the process listing *)
(* ===================================================================== *)

Module ProcOwner.
Import Proc ServerSpec.

Lemma summaries_dicts (l out : list json) :
  summaries process_summary l = Ok out ->
  Forall (fun x => exists kv, x = JObj kv) l.
Proof.
  revert out. induction l as [|x l IH]; intros out H; [constructor|].
  simpl in H.
  destruct (process_summary x) as [s| |] eqn:Hs; try discriminate H.
  destruct (summaries process_summary l) as [ss| |] eqn:Hss; try discriminate H.
  constructor; [|eapply IH; reflexivity].
  destruct x; try discriminate Hs. eexists. reflexivity.
Qed.

Lemma summary_owner (owner : string) (x s : json) :
  process_summary x = Ok s ->
  exists o, py_get "owner" x = Ok o /\ owner_is owner s = eq_str owner o.
Proof.
  destruct x as [| | | | |kv]; try discriminate.
  unfold process_summary, py_index, py_get.
  destruct (Dict.get "id" kv); [|discriminate].
  destruct (Dict.get "name" kv); [|discriminate].
  destruct (Dict.get "owner" kv) as [o|]; [|discriminate].
  destruct (Dict.get "status" kv); [|discriminate].
  destruct (Dict.get "started_at" kv); [|discriminate].
  cbn. intros [= <-]. exists o. split; reflexivity.
Qed.

(** Filtering the records by owner and summarising them gives the
    summaries filtered by owner. *)
Lemma owned_by_summaries (owner : string) (l out : list json) :
  summaries process_summary l = Ok out ->
  exists chosen,
    owned_by owner l = Ok chosen /\
    summaries process_summary chosen = Ok (List.filter (owner_is owner) out).
Proof.
  revert out. induction l as [|x l IH]; intros out H.
  - injection H as <-. exists []. split; reflexivity.
  - simpl in H.
    destruct (process_summary x) as [s| |] eqn:Hs; try discriminate H.
    destruct (summaries process_summary l) as [ss| |] eqn:Hss; try discriminate H.
    injection H as <-.
    destruct (IH ss eq_refl) as [chosen [Hc Hsum]].
    destruct (summary_owner owner x s Hs) as [o [Ho Heq]].
    exists (if eq_str owner o then x :: chosen else chosen). split.
    + simpl. rewrite Ho. simpl. rewrite Hc. reflexivity.
    + cbn [List.filter]. rewrite Heq. destruct (eq_str owner o); [|exact Hsum].
      simpl. rewrite Hs. simpl. rewrite Hsum. reflexivity.
Qed.

Section Owner.
Context {E : Type} (os : os_iface E).
Implicit Types w : world E.

(** X7.  The owner filter of [mcp__process_list] selects from the
    full listing: when the listing without an owner returns, the
    listing for an owner returns, after the same probes, exactly its
    entries whose owner is that string, in the same order; an empty
    owner string filters nothing. *)
Theorem process_list_owner_filter w (all : list json) w' :
  mcp__process_list os None w = (Ok all, w') ->
  mcp__process_list os (Some "") w = (Ok all, w') /\
  forall owner,
    owner <> "" ->
    mcp__process_list os (Some owner) w
    = (Ok (List.filter (owner_is owner) all), w').
Proof.
  unfold mcp__process_list. unfold bind at 1 3 5.
  destruct (list_processes os w) as [[l|e|] w1]; try discriminate.
  unfold bind, lift. intros H. split; [exact H|].
  intros owner Hne. apply String.eqb_neq in Hne. rewrite Hne.
  destruct (summaries process_summary l) as [out| |] eqn:Hout; try discriminate H.
  injection H as <- <-.
  destruct (owned_by_summaries owner l out Hout) as [chosen [Hc Hsum]].
  rewrite Hc, Hsum. reflexivity.
Qed.

End Owner.
End ProcOwner.

(* ===================================================================== *)
(** * Deleting, and reading what was sent *)
(* ===================================================================== *)

Module MailDelete.
Import Mail ServerSpec.

Section Delete.
Context {E : Type} (os : os_iface E).
Implicit Types w : world E.

Lemma mail_send_unfold w (from_agent : string) (to_agents : list string)
  (subject body : string) :
  let id := fst (os_uuid4 os (env w)) in
  let e1 := snd (os_uuid4 os (env w)) in
  let timestamp := fst (os_utcnow os e1) +:+ "Z" in
  Str.contains "/" id = false ->
  mcp__mail_send os from_agent to_agents subject body w =
  (Ok id,
   World (<["msg_" +:+ id +:+ ".json" :=
              FJson (JObj [("id", JStr id); ("from", JStr from_agent);
                           ("to", JList (List.map JStr to_agents));
                           ("subject", JStr subject); ("body", JStr body);
                           ("timestamp", JStr timestamp);
                           ("read", JBool false)])]> (mail w))
     (procs w) (logs w) (snd (os_utcnow os e1)) (trace w)).
Proof.
  destruct (os_uuid4 os (env w)) as [id e1] eqn:Hu. simpl.
  destruct (os_utcnow os e1) as [t e2] eqn:Ht. simpl. intros Hid.
  unfold mcp__mail_send, generate_message_id, utcnow_Z, save_message, ask, bind,
    lift, ret. rewrite Hu. simpl. rewrite Ht. simpl.
  unfold get_message_path. rewrite (PathFacts.entry_name_ok _ _ _ Hid).
  reflexivity.
Qed.

Lemma mail_listing_reads w w' :
  mail w' = mail w ->
  (forall r, fst (mcp__mail_inbox r w') = fst (mcp__mail_inbox r w)) /\
  fst (mcp__mail_list_all w') = fst (mcp__mail_list_all w).
Proof.
  intros Hm. split; [intros r|];
    unfold mcp__mail_inbox, mcp__mail_list_all, list_messages, bind, lift;
    rewrite Hm;
    destruct (obind _ _) as [l| |]; reflexivity.
Qed.

(** X8.  [mcp__mail_delete] of an identifier without a file returns
    [False] and changes nothing.  If the file exists (whether or not
    it holds valid JSON) it returns [True] and removes that file and no
    other; afterwards [mcp__mail_read] of the identifier answers with
    the not-found error and a second delete returns [False]. *)
Theorem mail_delete_removes w (message_id name : string) :
  get_message_path message_id = Ok name ->
  (mail w !! name = None -> mcp__mail_delete message_id w = (Ok false, w)) /\
  (forall j,
     mail w !! name = Some (FJson j) \/ mail w !! name = Some FCorrupt ->
     let w' := with_mail (delete name) w in
     mcp__mail_delete message_id w = (Ok true, w') /\
     mail w' !! name = None /\
     (forall other, other <> name -> mail w' !! other = mail w !! other) /\
     procs w' = procs w /\ logs w' = logs w /\
     mcp__mail_read message_id w' = (Ok (not_found message_id), w') /\
     mcp__mail_delete message_id w' = (Ok false, w')).
Proof.
  intros Hp. split.
  - intros Hf. unfold mcp__mail_delete, bind, lift. rewrite Hp, Hf. reflexivity.
  - intros j Hf w'.
    assert (Hgone : mail w' !! name = None).
    { unfold w', with_mail. cbn [mail]. apply lookup_delete_eq. }
    split; [|split; [exact Hgone|split; [|split; [|split; [|split]]]]].
    + unfold mcp__mail_delete, bind, lift. rewrite Hp.
      destruct Hf as [-> | ->]; reflexivity.
    + intros other Hne. unfold w', with_mail. cbn [mail].
      apply lookup_delete_ne. congruence.
    + reflexivity.
    + reflexivity.
    + unfold mcp__mail_read, bind.
      rewrite (MailRead.load_message_unloadable w' message_id name Hp
                 (or_introl Hgone)).
      reflexivity.
    + unfold mcp__mail_delete, bind, lift. rewrite Hp, Hgone. reflexivity.
Qed.

(** X9.  Deleting the message that was just sent undoes the send:
    [mcp__mail_send] returns the new identifier, [mcp__mail_delete] of
    it returns [True], and the mail directory is then the one before
    the send without the file of that identifier; so when the
    identifier was unused the directory is as it was, and every inbox
    and the full listing answer as before the send. *)
Theorem send_then_delete w (from_agent : string) (to_agents : list string)
  (subject body : string) :
  let id := fst (os_uuid4 os (env w)) in
  let name := "msg_" +:+ id +:+ ".json" in
  Str.contains "/" id = false ->
  exists w1 w2,
    mcp__mail_send os from_agent to_agents subject body w = (Ok id, w1) /\
    mcp__mail_delete id w1 = (Ok true, w2) /\
    mail w2 = delete name (mail w) /\
    (mail w !! name = None ->
     mail w2 = mail w /\
     (forall r, fst (mcp__mail_inbox r w2) = fst (mcp__mail_inbox r w)) /\
     fst (mcp__mail_list_all w2) = fst (mcp__mail_list_all w)).
Proof.
  intros id name Hid.
  pose proof (mail_send_unfold w from_agent to_agents subject body Hid) as Hsend.
  cbv zeta in Hsend. fold id name in Hsend.
  match type of Hsend with _ = (_, ?x) => set (w1 := x) in * end.
  assert (Hp : get_message_path id = Ok name).
  { apply PathFacts.entry_name_ok, Hid. }
  exists w1, (with_mail (delete name) w1).
  assert (Hm : mail (with_mail (delete name) w1) = delete name (mail w)).
  { unfold w1, with_mail. cbn [mail]. apply delete_insert_eq. }
  split; [exact Hsend|]. split; [|split; [exact Hm|]].
  - unfold mcp__mail_delete, bind, lift. rewrite Hp.
    unfold w1 at 1. cbn [mail]. rewrite lookup_insert_eq. reflexivity.
  - intros Hfresh.
    assert (Hm' : mail (with_mail (delete name) w1) = mail w).
    { rewrite Hm. apply delete_id, Hfresh. }
    split; [exact Hm' | apply mail_listing_reads, Hm'].
Qed.

(** X10.  Reading the message that was just sent returns it whole:
    [mcp__mail_read] of the identifier [mcp__mail_send] returned gives
    the seven fields of the message, with the sender, recipients,
    subject and body of the send, its time, and [read] true; that
    record is what the file of the identifier then holds, and no other
    file has changed. *)
Theorem send_then_read w (from_agent : string) (to_agents : list string)
  (subject body : string) :
  let id := fst (os_uuid4 os (env w)) in
  let timestamp := fst (os_utcnow os (snd (os_uuid4 os (env w)))) +:+ "Z" in
  let name := "msg_" +:+ id +:+ ".json" in
  let message :=
    JObj [("id", JStr id); ("from", JStr from_agent);
          ("to", JList (List.map JStr to_agents));
          ("subject", JStr subject); ("body", JStr body);
          ("timestamp", JStr timestamp); ("read", JBool true)] in
  Str.contains "/" id = false ->
  exists w1 w2,
    mcp__mail_send os from_agent to_agents subject body w = (Ok id, w1) /\
    mcp__mail_read id w1 = (Ok message, w2) /\
    mail w2 = <[name := FJson message]> (mail w) /\
    procs w2 = procs w /\ logs w2 = logs w.
Proof.
  intros id timestamp name message Hid.
  pose proof (mail_send_unfold w from_agent to_agents subject body Hid) as Hsend.
  cbv zeta in Hsend. fold id timestamp name in Hsend.
  match type of Hsend with _ = (_, ?x) => set (w1 := x) in * end.
  assert (Hp : get_message_path id = Ok name).
  { apply PathFacts.entry_name_ok, Hid. }
  exists w1, (with_mail (insert name (FJson message)) w1).
  split; [exact Hsend|]. split; [|split; [|split; reflexivity]].
  - unfold mcp__mail_read, load_message, save_message, bind, lift, ret.
    rewrite Hp. unfold w1 at 1. cbn [mail]. rewrite lookup_insert_eq.
    cbn. rewrite Hp. reflexivity.
  - unfold w1, with_mail. cbn [mail]. apply insert_insert_eq.
Qed.

(** X11.  [mcp__mail_read] writes at most one file: whatever it
    returns or raises, either the world is exactly as before (so for
    the not-found answer and for every exception), or it returned a
    record with [read] true and stored that record under the file of
    the record's own identifier, changing nothing else.  It never
    touches the process directory or the logs and makes no call to the
    operating system. *)
Theorem mail_read_writes_one_file w (message_id : string) r w' :
  mcp__mail_read message_id w = (r, w') ->
  w' = w \/
  exists kv id,
    r = Ok (JObj kv) /\
    Dict.get "read" kv = Some (JBool true) /\
    Dict.get "id" kv = Some (JStr id) /\
    w' = with_mail (insert ("msg_" +:+ id +:+ ".json") (FJson (JObj kv))) w.
Proof.
  unfold mcp__mail_read, load_message, save_message, bind, lift, ret.
  unfold get_message_path at 1.
  destruct (entry_name "msg_" message_id ".json") as [name| |];
    [|intros [= <- <-]; left; reflexivity..].
  destruct (mail w !! name) as [[j| | |]|];
    [|intros H; left; cbn in H; injection H as <- <-; reflexivity..].
  destruct (negb (truthy j)); [intros [= <- <-]; left; reflexivity|].
  destruct j as [| | | | |kv]; cbn [py_setitem];
    try (intros [= <- <-]; left; reflexivity).
  cbn [py_index].
  destruct (Dict.get "id" (Dict.set "read" (JBool true) kv)) as [v|] eqn:Hid;
    [|intros [= <- <-]; left; reflexivity].
  destruct v as [| | |id| |]; cbn [format_id];
    try (intros [= <- <-]; left; reflexivity).
  unfold get_message_path, entry_name.
  destruct (Str.contains "/" id); [intros [= <- <-]; left; reflexivity|].
  intros [= <- <-]. right. exists (Dict.set "read" (JBool true) kv), id.
  split; [reflexivity|]. split; [apply DictFacts.get_set_eq|].
  split; [exact Hid | reflexivity].
Qed.

End Delete.
End MailDelete.

(* ===================================================================== *)
(** * What an inbox shows *)
(* ===================================================================== *)

Module MailInbox.
Import Mail ServerSpec.

Lemma inbox_loop_sound (to_agent : string) (l out : list json) :
  inbox_loop to_agent l = Ok out ->
  Forall (fun s => exists m to,
            In m l /\
            py_get_or "to" (JList []) m = Ok to /\
            py_in to_agent to = Ok true /\
            inbox_summary m = Ok s) out.
Proof.
  revert out. induction l as [|m l IH]; intros out H.
  - injection H as <-. constructor.
  - simpl in H.
    destruct (py_get_or "to" (JList []) m) as [to| |] eqn:Hto; try discriminate H.
    simpl in H.
    destruct (py_in to_agent to) as [[|]| |] eqn:Hin; try discriminate H; simpl in H.
    + destruct (inbox_summary m) as [s| |] eqn:Hs; try discriminate H. simpl in H.
      destruct (inbox_loop to_agent l) as [rest| |]; try discriminate H.
      injection H as <-. constructor.
      * exists m, to. split; [left; reflexivity|]. auto.
      * eapply List.Forall_impl; [|apply IH; reflexivity].
        intros s' [m' [to' [Hm' H']]]. exists m', to'.
        split; [right; exact Hm' | exact H'].
    + eapply List.Forall_impl; [|apply IH; exact H].
      intros s' [m' [to' [Hm' H']]]. exists m', to'.
      split; [right; exact Hm' | exact H'].
Qed.

Section Inbox.
Context {E : Type}.
Implicit Types w : world E.

(** X12.  Whenever [mcp__mail_inbox] returns, the world is
    unchanged and every entry is the summary of a stored message that
    names the agent among its recipients: the entry has exactly the
    fields id, from, subject, timestamp and read, taken from that
    message ([read] false when the message has none), and never the
    body. *)
Theorem inbox_only_addressed w (to_agent : string) (inbox : list json) w' :
  mcp__mail_inbox to_agent w = (Ok inbox, w') ->
  w' = w /\
  Forall (fun s =>
            exists kv id from subject timestamp,
              loads "msg_" ".json" (mail w) (JObj kv) /\
              py_in to_agent (default (JList []) (Dict.get "to" kv)) = Ok true /\
              Dict.get "id" kv = Some id /\
              Dict.get "from" kv = Some from /\
              Dict.get "subject" kv = Some subject /\
              Dict.get "timestamp" kv = Some timestamp /\
              s = JObj [("id", id); ("from", from); ("subject", subject);
                        ("timestamp", timestamp);
                        ("read", default (JBool false) (Dict.get "read" kv))])
         inbox.
Proof.
  unfold mcp__mail_inbox, bind, lift.
  destruct (list_messages w) as [[messages| |] w0] eqn:Hl; try discriminate.
  destruct (MailListing.list_messages_returns w _ _ Hl) as [-> [_ Hsort]].
  destruct (inbox_loop to_agent messages) as [out| |] eqn:Hloop; try discriminate.
  intros [= <- <-]. split; [reflexivity|].
  eapply List.Forall_impl; [|apply (inbox_loop_sound _ _ _ Hloop)].
  intros s [m [to [Hm [Hto [Hin Hs]]]]].
  apply (Permutation_in _ (ProcListing.py_sort_desc_perm _ _ _ Hsort)) in Hm.
  apply ProcNoPid.In_load_all in Hm. destruct Hm as [name Hm].
  apply ListingFacts.glob_In in Hm. destruct Hm as [Hf Hg].
  destruct m as [| | | | |kv]; try discriminate Hs.
  unfold inbox_summary, py_index, py_get_or in Hs.
  destruct (Dict.get "id" kv) as [id|] eqn:Hid; [|discriminate Hs].
  destruct (Dict.get "from" kv) as [from|] eqn:Hfrom; [|discriminate Hs].
  destruct (Dict.get "subject" kv) as [subject|] eqn:Hsub; [|discriminate Hs].
  destruct (Dict.get "timestamp" kv) as [timestamp|] eqn:Hts; [|discriminate Hs].
  cbn in Hs. injection Hs as <-.
  injection Hto as <-.
  exists kv, id, from, subject, timestamp.
  split; [exists name; split; assumption|]. split; [exact Hin|].
  repeat split; assumption.
Qed.

End Inbox.
End MailInbox.

(* ===================================================================== *)
(** * Runs of the mail tools *)
(* ===================================================================== *)

Module MailRuns.
Import Mail ServerSpec.

Lemma server_mail_well_formed (d : gmap string file) :
  server_mail d -> well_formed_mail d /\ addressed_mail d.
Proof.
  intros [Hd H]. split; [split; [exact Hd|]|]; intros j [name [Hg Hf]];
    destruct (H name j Hg Hf)
      as [kv [id [-> [Hid [_ [_ [Hfrom [Hsub [Hts [l Hto]]]]]]]]]];
    exists kv; (split; [reflexivity|]).
  - split; [eexists; exact Hid|]. split; [exact Hfrom|]. split; [exact Hsub|].
    split; [exact Hts|]. right. exists l. exact Hto.
  - eexists. exact Hto.
Qed.

Lemma server_mail_insert (d : gmap string file) (name : string) (j : json) :
  server_mail d -> server_message name j -> server_mail (<[name := FJson j]> d).
Proof.
  intros Hd Hj. split; [apply ListingFacts.decodable_insert, (proj1 Hd)|].
  intros n x Hg Hf. apply lookup_insert_Some in Hf.
  destruct Hf as [[<- [= <-]] | [_ Hf]]; [exact Hj | apply (proj2 Hd n x Hg Hf)].
Qed.

Lemma server_mail_delete (d : gmap string file) (name : string) :
  server_mail d -> server_mail (delete name d).
Proof.
  intros Hd. split; [apply ListingFacts.decodable_delete, (proj1 Hd)|].
  intros n x Hg Hf. apply lookup_delete_Some in Hf. apply (proj2 Hd n x Hg), Hf.
Qed.

Section Runs.
Context {E : Type} (os : os_iface E).
Implicit Types w : world E.

Lemma mail_read_found w (message_id name : string) kv :
  get_message_path message_id = Ok name ->
  mail w !! name = Some (FJson (JObj kv)) ->
  Dict.get "id" kv = Some (JStr message_id) ->
  mcp__mail_read message_id w =
  (Ok (JObj (Dict.set "read" (JBool true) kv)),
   with_mail (insert name (FJson (JObj (Dict.set "read" (JBool true) kv)))) w).
Proof.
  intros Hp Hf Hid.
  unfold mcp__mail_read, load_message, save_message, bind, lift, ret.
  rewrite Hp, Hf. rewrite (DictFacts.get_some_nonempty _ _ _ Hid). simpl.
  rewrite DictFacts.get_set_ne by discriminate. rewrite Hid. simpl.
  rewrite Hp. reflexivity.
Qed.

Lemma mail_listings_return w :
  server_mail (mail w) ->
  (forall to_agent, exists inbox, mcp__mail_inbox to_agent w = (Ok inbox, w)) /\
  exists entries,
    mcp__mail_list_all w = (Ok entries, w) /\
    List.length entries
    = List.length (load_all (glob "msg_" ".json" (mail w))).
Proof.
  intros Hs. destruct (server_mail_well_formed _ Hs) as [Hwf Hto].
  destruct (MailListing.list_messages_sorted w) as [messages [Hl [_ [Hin Hperm]]]].
  { exact (proj1 Hwf). }
  { intros j Hj. apply MailListing.well_formed_sortable, (proj2 Hwf), Hj. }
  split.
  - intros to_agent.
    assert (Hall : Forall well_formed_message messages).
    { apply List.Forall_forall. intros j Hj. apply (proj2 Hwf), Hin, Hj. }
    exists (flat_map (inbox_entry to_agent) messages).
    unfold mcp__mail_inbox, bind, lift. rewrite Hl.
    rewrite (MailListing.inbox_loop_well_formed to_agent messages Hall).
    reflexivity.
  - destruct (ListingOrder.summaries_total list_all_summary messages) as [out Hout].
    { apply List.Forall_forall. intros j Hj. apply Hin in Hj.
      destruct (proj2 Hwf j Hj) as [kv [-> [[id Hid] [[from Hfrom] [[sub Hsub] [[ts Hts] _]]]]]].
      destruct (Hto _ Hj) as [kv' [[= <-] [to Hto']]].
      unfold list_all_summary, py_index, py_get_or.
      rewrite Hid, Hfrom, Hto', Hsub, Hts. simpl. eexists. reflexivity. }
    exists out. split.
    + unfold mcp__mail_list_all, bind, lift. rewrite Hl, Hout. reflexivity.
    + rewrite <- (Forall2_length _ _ _ (ProcListing.summaries_Forall2 _ _ _ Hout)).
      rewrite (Permutation_length Hperm).
      rewrite <- ListingFacts.mail_load_all_flat_map. reflexivity.
Qed.

(** One call from a directory of the server's own messages: the call
    returns and leaves such a directory. *)
Lemma mail_step_ok w (c : mail_call) :
  uuid_without_slash os ->
  mail_call_in_dir c ->
  server_mail (mail w) ->
  mail_call_returns os c w /\
  server_mail (mail (mail_step os w c)) /\
  procs (mail_step os w c) = procs w /\
  logs (mail_step os w c) = logs w /\
  trace (mail_step os w c) = trace w.
Proof.
  intros Hu Hc Hs.
  destruct c as [from_agent to_agents subject body|to_agent|message_id|message_id|];
    cbn [mail_call_returns mail_step mail_call_in_dir] in *.
  - (* send *)
    pose proof (MailDelete.mail_send_unfold os w from_agent to_agents subject body
                  (Hu (env w))) as Hsend.
    cbv zeta in Hsend. rewrite Hsend. cbn [snd procs logs trace mail].
    split; [eexists; eexists; exact Hsend|]. split; [|repeat split].
    apply server_mail_insert; [exact Hs|].
    eexists. exists (fst (os_uuid4 os (env w))).
    split; [reflexivity|]. cbn.
    repeat split; try (eexists; reflexivity). apply Hu.
  - (* inbox *)
    destruct (mail_listings_return w Hs) as [Hinbox _].
    destruct (Hinbox to_agent) as [inbox Hr]. rewrite Hr.
    split; [eexists; eexists; exact Hr|].
      split; [exact Hs | repeat split].
  - (* read *)
    set (name := "msg_" +:+ message_id +:+ ".json").
    assert (Hp : get_message_path message_id = Ok name).
    { apply PathFacts.entry_name_ok, Hc. }
    assert (Hg : glob_match "msg_" ".json" name = true).
    { apply ListingFacts.glob_match_entry; [reflexivity | exact Hc | reflexivity]. }
    destruct (mail w !! name) as [[j| | |]|] eqn:Hf.
    + destruct (proj2 Hs name j Hg Hf)
        as [kv [id [-> [Hid [Hslash [Hname [Hfrom [Hsub [Hts Hto]]]]]]]]].
      apply StrFacts.entry_inj in Hname. subst id.
      pose proof (mail_read_found w message_id name kv Hp Hf Hid) as Hr.
      rewrite Hr. cbn [snd]. unfold with_mail. cbn [mail procs logs trace].
      split; [eexists; eexists; exact Hr|]. split; [|repeat split].
      apply server_mail_insert; [exact Hs|].
      exists (Dict.set "read" (JBool true) kv), message_id.
      split; [reflexivity|].
      rewrite !DictFacts.get_set_ne by discriminate.
      repeat split; assumption.
    + assert (Hr : mcp__mail_read message_id w = (Ok (not_found message_id), w)).
      { unfold mcp__mail_read, bind.
        rewrite (MailRead.load_message_unloadable w message_id name Hp); auto. }
      rewrite Hr. split; [eexists; eexists; exact Hr|].
      split; [exact Hs | repeat split].
    + assert (Hr : mcp__mail_read message_id w = (Ok (not_found message_id), w)).
      { unfold mcp__mail_read, bind.
        rewrite (MailRead.load_message_unloadable w message_id name Hp); auto. }
      rewrite Hr. split; [eexists; eexists; exact Hr|].
      split; [exact Hs | repeat split].
    + destruct (proj1 Hs name Hg Hf).
    + assert (Hr : mcp__mail_read message_id w = (Ok (not_found message_id), w)).
      { unfold mcp__mail_read, bind.
        rewrite (MailRead.load_message_unloadable w message_id name Hp); auto. }
      rewrite Hr. split; [eexists; eexists; exact Hr|].
      split; [exact Hs | repeat split].
  - (* delete *)
    unfold returns, mcp__mail_delete, get_message_path, bind, lift.
    rewrite (PathFacts.entry_name_ok "msg_" message_id ".json" Hc).
    destruct (mail w !! ("msg_" +:+ message_id +:+ ".json"));
      cbn [snd except_OSError unlink bind ret].
    + split; [eexists; eexists; reflexivity|]. split; [|repeat split].
      unfold with_mail. cbn [mail]. apply server_mail_delete, Hs.
    + split; [eexists; eexists; reflexivity|]. split; [exact Hs | repeat split].
  - (* list all *)
    destruct (mail_listings_return w Hs) as [_ [entries [Hr _]]]. rewrite Hr.
    split; [eexists; eexists; exact Hr|].
      split; [exact Hs | repeat split].
Qed.

(** X17.  The mail server can always work on what it wrote itself.
From a mail directory whose message files are as the server writes
them (the empty directory, for one), after any sequence of calls
of the five tools, every further call returns a value (no tool
raises), the directory is again of that kind, the full listing has
one entry for each message file, and the mail tools have left the
process directory and the logs alone and made no call to the
operating system.  The identifiers drawn and those passed to read
and delete hold no path separator. *)
Theorem mail_calls_return w (calls : list mail_call) (c : mail_call) :
  uuid_without_slash os ->
  Forall mail_call_in_dir calls ->
  mail_call_in_dir c ->
  server_mail (mail w) ->
  let w' := mail_run os calls w in
  mail_call_returns os c w' /\
  server_mail (mail w') /\
  (exists entries,
     mcp__mail_list_all w' = (Ok entries, w') /\
     List.length entries
     = List.length (load_all (glob "msg_" ".json" (mail w')))) /\
  procs w' = procs w /\ logs w' = logs w /\ trace w' = trace w.
Proof.
  intros Hu Hcalls Hc Hs.
  assert (Hrun : server_mail (mail (mail_run os calls w)) /\
                 procs (mail_run os calls w) = procs w /\
                 logs (mail_run os calls w) = logs w /\
                 trace (mail_run os calls w) = trace w).
  { revert w Hs. induction Hcalls as [|c0 calls0 Hc0 _ IH]; intros w Hs.
    - split; [exact Hs | repeat split].
    - destruct (mail_step_ok w c0 Hu Hc0 Hs) as [_ [Hs1 [Hp1 [Hl1 Ht1]]]].
      destruct (IH _ Hs1) as [Hs2 [Hp2 [Hl2 Ht2]]].
      unfold mail_run in *. cbn [List.fold_left].
      split; [exact Hs2|]. repeat split; congruence. }
  destruct Hrun as [Hs' [Hp' [Hl' Ht']]]. cbv zeta.
  split; [apply (mail_step_ok _ c Hu Hc Hs')|]. split; [exact Hs'|].
  split; [apply (mail_listings_return _ Hs')|]. repeat split; assumption.
Qed.

End Runs.
End MailRuns.

(* ===================================================================== *)
(** * Runs of the process tools *)
(* ===================================================================== *)

Module ProcRuns.
Import Proc ServerSpec.

Lemma server_process_well_formed (name : string) (j : json) :
  server_process name j -> well_formed_process name j.
Proof.
  intros [kv [id [pid [-> [Hid [Hslash [Hname [Hpid [Hrange [_ [_ [_ [_ Hst]]]]]]]]]]]]].
  exists kv, id. split; [reflexivity|]. split; [exact Hid|]. split; [exact Hslash|].
  split; [exact Hname|]. split; [|right; exact Hst].
  intros _. exists pid. unfold pid_field. rewrite Hpid. cbn.
  destruct (Z.leb_spec (-2147483648) pid); [|lia].
  destruct (Z.leb_spec pid 2147483647); [reflexivity | lia].
Qed.

Lemma server_procs_consistent (d : gmap string file) :
  server_procs d -> consistent_procs d /\ complete_procs d.
Proof.
  intros [Hd H]. split.
  - split; [exact Hd|].
    intros name j Hg Hf. apply server_process_well_formed, (H name j Hg Hf).
  - intros j [name [Hg Hf]].
    destruct (H name j Hg Hf)
      as [kv [id [pid [-> [_ [_ [_ [_ [_ [[n Hn] [[o Ho] [_ [_ [s Hs]]]]]]]]]]]]]].
    exists kv. split; [reflexivity|]. rewrite Hn, Ho, Hs. repeat split; eexists; reflexivity.
Qed.

Lemma server_procs_insert (d : gmap string file) (name : string) (j : json) :
  server_procs d -> server_process name j -> server_procs (<[name := FJson j]> d).
Proof.
  intros Hd Hj. split; [apply ListingFacts.decodable_insert, (proj1 Hd)|].
  intros n x Hg Hf. apply lookup_insert_Some in Hf.
  destruct Hf as [[<- [= <-]] | [_ Hf]]; [exact Hj | apply (proj2 Hd n x Hg Hf)].
Qed.

Lemma server_procs_remove (names : list string) (d : gmap string file) :
  server_procs d -> server_procs (remove_files names d).
Proof.
  intros Hd. split.
  - intros n Hg Hf.
    destruct (List.in_dec String.string_dec n names) as [Hin|Hout].
    + rewrite (ProcCleanup.remove_files_In names d n Hin) in Hf. discriminate Hf.
    + rewrite (ProcCleanup.remove_files_not_In names d n Hout) in Hf.
      apply (proj1 Hd n Hg Hf).
  - intros n x Hg Hf.
    destruct (List.in_dec String.string_dec n names) as [Hin|Hout].
    + rewrite (ProcCleanup.remove_files_In names d n Hin) in Hf. discriminate Hf.
    + rewrite (ProcCleanup.remove_files_not_In names d n Hout) in Hf.
      apply (proj2 Hd n x Hg Hf).
Qed.

Lemma glob_match_proc (process_id : string) :
  Str.contains "/" process_id = false ->
  glob_match "proc_" ".json" ("proc_" +:+ process_id +:+ ".json") = true.
Proof.
  intros H. apply ListingFacts.glob_match_entry; [reflexivity | exact H | reflexivity].
Qed.

Section Runs.
Context {E : Type} (os : os_iface E).
Implicit Types w : world E.

(** The records of a directory of the manager's own records, as a
    listing shows them. *)
Lemma listed_records w (l0 : list json) (y : json) :
  server_procs (procs w) ->
  Forall2 relisted (Mail.load_all (glob "proc_" ".json" (procs w))) l0 ->
  In y (sorted_by (sort_key "started_at") l0) ->
  exists kv st name,
    y = JObj (Dict.set "status" (JStr st) kv) /\
    server_process name (JObj kv).
Proof.
  intros Hs H2 Hy.
  apply (Permutation_in _ (SortFacts.sorted_by_perm _ l0)) in Hy.
  destruct (ProcNoPid.Forall2_In_r _ _ _ y H2 Hy) as [x [Hx [kv [st [-> [-> _]]]]]].
  apply ProcNoPid.In_load_all in Hx. destruct Hx as [n Hn].
  apply ListingFacts.glob_In in Hn. destruct Hn as [Hf Hg].
  exists kv, st, n. split; [reflexivity | apply (proj2 Hs n _ Hg Hf)].
Qed.

Lemma process_list_total w (owner : option string) :
  server_procs (procs w) ->
  keeps_server_procs (mcp__process_list os owner) w.
Proof.
  intros Hs. destruct (server_procs_consistent _ Hs) as [Hc _].
  destruct (ProcCleanupSpec.list_processes_total os w Hc)
    as [l0 [w1 [Hl [H2 [Hm [Hp Hlg]]]]]].
  set (listed := sorted_by (sort_key "started_at") l0) in *.
  assert (Hchosen : exists shown,
            match owner with
            | Some o => if String.eqb o "" then Ok listed else owned_by o listed
            | None => Ok listed
            end = Ok shown /\ forall x, In x shown -> In x listed).
  { destruct owner as [o|]; [|exists listed; split; [reflexivity | auto]].
    destruct (String.eqb o ""); [exists listed; split; [reflexivity | auto]|].
    apply ListingOrder.owned_by_total. apply List.Forall_forall. intros y Hy.
    destruct (listed_records w l0 y Hs H2 Hy) as [kv [st [n [-> _]]]].
    eexists. reflexivity. }
  destruct Hchosen as [shown [Hch Hsub]].
  destruct (ListingOrder.summaries_total process_summary shown) as [out Hout].
  { apply List.Forall_forall. intros y Hy.
    destruct (listed_records w l0 y Hs H2 (Hsub y Hy))
      as [kv [st [n [-> Hrec]]]].
    destruct Hrec
      as [kv' [id [pid [[= <-] [Hid [_ [_ [_ [_ [[nm Hn] [[o Ho] [_ [_ [s Hst]]]]]]]]]]]]]].
    unfold process_summary, py_index, py_get.
    rewrite DictFacts.get_set_eq.
    rewrite !DictFacts.get_set_ne by discriminate.
    rewrite Hid, Hn, Ho, Hst. simpl. eexists. reflexivity. }
  exists out, w1. split; [|split; [rewrite Hp; exact Hs|split]].
  - unfold mcp__process_list. unfold bind at 1. rewrite Hl.
    unfold bind at 1, lift at 1. rewrite Hch. unfold lift. rewrite Hout.
    reflexivity.
  - exact Hm.
  - intros n Hn. rewrite Hlg. exact Hn.
Qed.

Lemma process_start_total w (command cwd name owner : string) :
  uuid_without_slash os ->
  pids_fit os ->
  server_procs (procs w) ->
  keeps_server_procs (mcp__process_start os command cwd name owner) w.
Proof.
  intros Hu Hfit Hs.
  pose proof (ProcRestart.process_start_unfold os w command cwd name owner
                (Hu (env w))) as Hstart.
  cbv zeta in Hstart.
  set (process_id := fst (os_uuid4 os (env w))) in *.
  set (e2 := snd (os_utcnow os (snd (os_uuid4 os (env w))))) in *.
  set (log_path := LOG_DIR +:+ "/" +:+ process_id +:+ ".log") in *.
  destruct (fst (os_popen os e2 command cwd log_path)) as [pid|err] eqn:Hspawn.
  - eexists. eexists. split; [exact Hstart|].
    unfold with_procs. cbn [procs mail logs]. split; [|split; [reflexivity|]].
    + apply server_procs_insert; [exact Hs|].
      eexists. exists process_id, pid. split; [reflexivity|]. cbn.
      split; [reflexivity|]. split; [apply Hu|]. split; [reflexivity|].
      split; [reflexivity|]. split; [apply (Hfit _ _ _ _ _ Hspawn)|].
      repeat split; eexists; reflexivity.
    + intros n Hn. destruct (decide (process_id +:+ ".log" = n)) as [<-|Hne].
      * rewrite lookup_insert_eq. eexists. reflexivity.
      * rewrite lookup_insert_ne by exact Hne. exact Hn.
  - eexists. eexists. split; [exact Hstart|].
    cbn [procs mail logs]. split; [exact Hs|]. split; [reflexivity|].
    intros n Hn. destruct (decide (process_id +:+ ".log" = n)) as [<-|Hne].
    + rewrite lookup_insert_eq. eexists. reflexivity.
    + rewrite lookup_insert_ne by exact Hne. exact Hn.
Qed.

(** A stop from a directory of the manager's own records. *)
Lemma process_stop_total w (process_id : string) :
  Str.contains "/" process_id = false ->
  server_procs (procs w) ->
  exists stopped w',
    mcp__process_stop os process_id w = (Ok stopped, w') /\
    server_procs (procs w') /\
    mail w' = mail w /\ logs w' = logs w /\
    (stopped = false -> w' = w).
Proof.
  intros Hid Hs.
  set (name := "proc_" +:+ process_id +:+ ".json").
  assert (Hp : get_process_path process_id = Ok name).
  { apply PathFacts.entry_name_ok, Hid. }
  destruct (procs w !! name) as [[j| | |]|] eqn:Hf.
  4: destruct (proj1 Hs name (glob_match_proc _ Hid) Hf).
  2-4: exists false, w;
    (split; [apply (ProcStatus.process_stop_no_record os w process_id name Hp); auto|]);
    (split; [exact Hs|]); repeat split; auto.
  destruct (proj2 Hs name j (glob_match_proc _ Hid) Hf)
    as [kv [id [pid [-> [Hrid [Hslash [Hname [Hpid [Hrange Hrest]]]]]]]]].
  apply StrFacts.entry_inj in Hname. subst id.
  assert (Hpf : pid_field kv = JInt pid).
  { unfold pid_field. rewrite Hpid. reflexivity. }
  destruct (Z.eq_dec pid 0) as [Hz|Hnz].
  - exists false, w.
    split; [|split; [exact Hs|]; repeat split; auto].
    apply (ProcStatus.process_stop_no_pid os w process_id name kv Hp Hf).
    fold (pid_field kv). rewrite Hpf, Hz. reflexivity.
  - assert (Htruthy : truthy (pid_field kv) = true).
    { rewrite Hpf. cbn. apply negb_true_iff, Z.eqb_neq, Hnz. }
    assert (Has : as_pid (pid_field kv) = Ok pid).
    { rewrite Hpf. cbn.
      destruct (Z.leb_spec (-2147483648) pid); [|lia].
      destruct (Z.leb_spec pid 2147483647); [reflexivity | lia]. }
    destruct (ProcRestart.process_stop_true os w process_id name kv pid
                Hp Hf Hrid Htruthy Has)
      as [w1 [kv' [H1 [Hp1 [Hm1 [Hl1 [_ Hk]]]]]]].
    exists true, w1. split; [exact H1|]. split; [|repeat split; auto; discriminate].
    rewrite Hp1. apply server_procs_insert; [exact Hs|].
    exists kv', process_id, pid. split; [reflexivity|].
    rewrite !Hk by discriminate.
    split; [exact Hrid|]. split; [exact Hslash|]. split; [reflexivity|].
    split; [exact Hpid|]. split; [exact Hrange | exact Hrest].
Qed.

Lemma process_restart_total w (process_id : string) :
  uuid_without_slash os ->
  pids_fit os ->
  Str.contains "/" process_id = false ->
  server_procs (procs w) ->
  keeps_server_procs (mcp__process_restart os process_id) w.
Proof.
  intros Hu Hfit Hid Hs.
  set (name := "proc_" +:+ process_id +:+ ".json").
  assert (Hp : get_process_path process_id = Ok name).
  { apply PathFacts.entry_name_ok, Hid. }
  unfold mcp__process_restart. unfold keeps_server_procs, bind at 1.
  destruct (procs w !! name) as [[j| | |]|] eqn:Hf.
  4: destruct (proj1 Hs name (glob_match_proc _ Hid) Hf).
  2-4: rewrite (ProcStatus.load_process_unloadable w process_id name Hp) by auto;
    exists false, w; (split; [reflexivity|]); (split; [exact Hs|]);
    repeat split; auto.
  rewrite (ProcStatus.load_process_found w process_id name j Hp Hf).
  destruct (proj2 Hs name j (glob_match_proc _ Hid) Hf)
    as [kv [id [pid [-> [Hrid [_ [_ [_ [_ [[nm Hn] [[o Ho] [[c Hc] [[d Hd] _]]]]]]]]]]]]].
  rewrite (DictFacts.get_some_nonempty _ _ _ Hrid). cbn [negb].
  unfold bind at 1.
  destruct (process_stop_total w process_id Hid Hs)
    as [stopped [w1 [H1 [Hs1 [Hm1 [Hl1 Hsame]]]]]].
  rewrite H1. destruct stopped; cbn [negb].
  - unfold bind at 1, lift at 1. rewrite (ProcRestart.str_field_ok _ _ _ Hc).
    unfold bind at 1, lift at 1. rewrite (ProcRestart.str_field_ok _ _ _ Hd).
    unfold bind at 1, lift at 1. rewrite (ProcRestart.str_field_ok _ _ _ Hn).
    unfold bind at 1, lift at 1. rewrite (ProcRestart.str_field_ok _ _ _ Ho).
    destruct (process_start_total w1 c d nm o Hu Hfit Hs1)
      as [new_id [w2 [H2 [Hs2 [Hm2 Hl2]]]]].
    unfold bind, ret. rewrite H2.
    eexists. exists w2. split; [reflexivity|]. split; [exact Hs2|].
    split; [congruence|]. intros n Hn'. apply Hl2. rewrite Hl1. exact Hn'.
  - rewrite (Hsame eq_refl). exists false, w.
    split; [reflexivity|]. split; [exact Hs|]. repeat split; auto.
Qed.

Lemma process_cleanup_total w :
  server_procs (procs w) ->
  keeps_server_procs (mcp__process_cleanup os) w.
Proof.
  intros Hs. destruct (server_procs_consistent _ Hs) as [Hc _].
  destruct (ProcCleanupSpec.list_processes_total os w Hc)
    as [l0 [w1 [Hl [H2 [Hm [Hp Hlg]]]]]].
  set (listed := sorted_by (sort_key "started_at") l0) in *.
  assert (Hclean : Forall cleanable listed).
  { apply List.Forall_forall. intros y Hy.
    destruct (listed_records w l0 y Hs H2 Hy) as [kv [st [n [-> Hrec]]]].
    destruct Hrec as [kv' [id [pid [[= <-] [Hid [Hslash _]]]]]].
    exists (Dict.set "status" (JStr st) kv), st, id.
    split; [reflexivity|]. split; [apply DictFacts.get_set_eq|].
    split; [|exact Hslash].
    rewrite DictFacts.get_set_ne by discriminate. exact Hid. }
  unfold keeps_server_procs, mcp__process_cleanup. unfold bind at 1. rewrite Hl.
  unfold bind at 1. rewrite (ProcCleanup.cleanup_loop_spec listed w1 Hclean).
  unfold ret. eexists. eexists. split; [reflexivity|].
  unfold with_procs. cbn [procs mail logs].
  split; [rewrite Hp; apply server_procs_remove, Hs|].
  split; [exact Hm|]. intros n Hn. rewrite Hlg. exact Hn.
Qed.

Lemma process_step_ok w (c : process_call) :
  uuid_without_slash os ->
  pids_fit os ->
  process_call_in_dir c ->
  server_procs (procs w) ->
  process_call_returns os c w /\
  server_procs (procs (process_step os w c)) /\
  mail (process_step os w c) = mail w /\
  (forall n, is_Some (logs w !! n) -> is_Some (logs (process_step os w c) !! n)).
Proof.
  intros Hu Hfit Hc Hs.
  destruct c as [command cwd name owner|owner|process_id|process_id|];
    cbn [process_call_returns process_step process_call_in_dir] in *.
  - destruct (process_start_total w command cwd name owner Hu Hfit Hs)
      as [a [w' [Hr H]]].
    rewrite Hr. split; [exists a, w'; exact Hr | exact H].
  - destruct (process_list_total w owner Hs) as [a [w' [Hr H]]].
    rewrite Hr. split; [exists a, w'; exact Hr | exact H].
  - destruct (process_stop_total w process_id Hc Hs)
      as [a [w' [Hr [Hs' [Hm [Hl _]]]]]].
    rewrite Hr. split; [exists a, w'; exact Hr|]. split; [exact Hs'|].
    split; [exact Hm|]. intros n Hn. cbn [snd]. rewrite Hl. exact Hn.
  - destruct (process_restart_total w process_id Hu Hfit Hc Hs) as [a [w' [Hr H]]].
    rewrite Hr. split; [exists a, w'; exact Hr | exact H].
  - destruct (process_cleanup_total w Hs) as [a [w' [Hr H]]].
    rewrite Hr. split; [exists a, w'; exact Hr | exact H].
Qed.

(** X18.  The process manager can always work on the records it
    wrote itself.  From a process directory whose metadata files are
    as the manager writes them (the empty directory, for one), after
    any sequence of calls of the five tools that work on the records
    (start, list, stop, restart, cleanup), every further call of one
    of them returns a value (none raises), the directory is again of
    that kind, the mail is untouched, and every log file that existed
    still exists: these tools never remove a log.  Reading a log is
    not among the calls: what a log holds is written by the command
    that was started, not by the manager.  The identifiers drawn and
    those passed to the tools hold no path separator, and the pids of
    new processes are C ints. *)
Theorem process_calls_return w (calls : list process_call) (c : process_call) :
  uuid_without_slash os ->
  pids_fit os ->
  Forall process_call_in_dir calls ->
  process_call_in_dir c ->
  server_procs (procs w) ->
  let w' := process_run os calls w in
  process_call_returns os c w' /\
  server_procs (procs w') /\
  mail w' = mail w /\
  (forall n, is_Some (logs w !! n) -> is_Some (logs w' !! n)).
Proof.
  intros Hu Hfit Hcalls Hc Hs.
  assert (Hrun : server_procs (procs (process_run os calls w)) /\
                 mail (process_run os calls w) = mail w /\
                 (forall n, is_Some (logs w !! n) ->
                            is_Some (logs (process_run os calls w) !! n))).
  { revert w Hs. induction Hcalls as [|c0 calls0 Hc0 _ IH]; intros w Hs.
    - split; [exact Hs|]. split; [reflexivity | auto].
    - destruct (process_step_ok w c0 Hu Hfit Hc0 Hs) as [_ [Hs1 [Hm1 Hl1]]].
      destruct (IH _ Hs1) as [Hs2 [Hm2 Hl2]].
      unfold process_run in *. cbn [List.fold_left].
      split; [exact Hs2|]. split; [congruence|]. intros n Hn. apply Hl2, Hl1, Hn. }
  destruct Hrun as [Hs' [Hm' Hl']]. cbv zeta.
  split; [apply (process_step_ok _ c Hu Hfit Hc Hs')|].
  split; [exact Hs'|]. split; [exact Hm' | exact Hl'].
Qed.

End Runs.
End ProcRuns.

(* ===================================================================== *)
(** * Listing what was started *)
(* ===================================================================== *)

Module ProcStartList.
Import Proc ServerSpec.

Section StartList.
Context {E : Type} (os : os_iface E).
Implicit Types w : world E.

(** X19.  A process that was started is listed: in a directory of
    the manager's own records, after [mcp__process_start] has spawned a
    process with pid [pid] (not 0), [mcp__process_list] without an
    owner returns, and so does the listing for the owner given to the
    start; both hold the entry of the new process, with its
    identifier, name, owner, start time and pid and with the status
    running or stopped that the probe of the pid gives it. *)
Theorem start_then_list w (command cwd name owner : string) (pid : Z) :
  let process_id := fst (os_uuid4 os (env w)) in
  let e1 := snd (os_uuid4 os (env w)) in
  let timestamp := fst (os_utcnow os e1) +:+ "Z" in
  let log_path := LOG_DIR +:+ "/" +:+ process_id +:+ ".log" in
  Str.contains "/" process_id = false ->
  fst (os_popen os (snd (os_utcnow os e1)) command cwd log_path) = inl pid ->
  pid <> 0 ->
  -2147483648 <= pid <= 2147483647 ->
  server_procs (procs w) ->
  exists w1 w2 entries mine status,
    mcp__process_start os command cwd name owner w = (Ok process_id, w1) /\
    mcp__process_list os None w1 = (Ok entries, w2) /\
    mcp__process_list os (Some owner) w1 = (Ok mine, w2) /\
    (status = "running" \/ status = "stopped") /\
    let entry :=
      JObj [("id", JStr process_id); ("name", JStr name); ("owner", JStr owner);
            ("status", JStr status); ("started_at", JStr timestamp);
            ("pid", JInt pid)] in
    In entry entries /\ In entry mine /\
    (forall s, In s mine -> In s entries).
Proof.
  intros process_id e1 timestamp log_path Hid Hspawn Hnz Hrange Hs.
  pose proof (ProcRestart.process_start_unfold os w command cwd name owner Hid)
    as Hstart.
  cbv zeta in Hstart. fold process_id e1 timestamp log_path in Hstart.
  rewrite Hspawn in Hstart.
  set (rec := [("id", JStr process_id); ("name", JStr name); ("owner", JStr owner);
               ("command", JStr command); ("cwd", JStr cwd); ("pid", JInt pid);
               ("status", JStr "running"); ("started_at", JStr timestamp);
               ("log_file", JStr log_path)]).
  set (file_name := "proc_" +:+ process_id +:+ ".json") in *.
  match type of Hstart with _ = (_, ?x) => set (w1 := x) in * end.
  assert (Hf1 : procs w1 !! file_name = Some (FJson (JObj rec))).
  { unfold w1, with_procs. cbn [procs]. apply lookup_insert_eq. }
  assert (Hs1 : server_procs (procs w1)).
  { unfold w1, with_procs. cbn [procs].
    apply ProcRuns.server_procs_insert; [exact Hs|].
    exists rec, process_id, pid. split; [reflexivity|]. cbn.
    split; [reflexivity|]. split; [exact Hid|]. split; [reflexivity|].
    split; [reflexivity|]. split; [exact Hrange|].
    repeat split; eexists; reflexivity. }
  destruct (ProcRuns.server_procs_consistent _ Hs1) as [Hc1 _].
  destruct (ProcCleanupSpec.list_processes_total os w1 Hc1)
    as [l0 [w2 [Hl [H2 _]]]].
  set (listed := sorted_by (sort_key "started_at") l0) in *.
  (* the new record, relisted *)
  assert (Hin : In (JObj rec) (Mail.load_all (glob "proc_" ".json" (procs w1)))).
  { apply ProcNoPid.In_load_all. exists file_name. apply ListingFacts.glob_In.
    split; [exact Hf1 | apply ProcRuns.glob_match_proc, Hid]. }
  destruct (ProcNoPid.Forall2_In_l _ _ _ _ H2 Hin)
    as [y [Hy [kv [status [[= <-] [-> [_ Hst]]]]]]].
  assert (Hstatus : status = "running" \/ status = "stopped").
  { apply Hst. unfold pid_field, rec. cbn. apply negb_true_iff, Z.eqb_neq, Hnz. }
  apply (Permutation_in _ (Permutation_sym (SortFacts.sorted_by_perm (sort_key "started_at") l0))) in Hy.
  fold listed in Hy.
  (* the summaries of the listing *)
  destruct (ListingOrder.summaries_total process_summary listed) as [entries Hout].
  { apply List.Forall_forall. intros z Hz.
    destruct (ProcRuns.listed_records w1 l0 z Hs1 H2 Hz)
      as [kvz [st [n [-> Hrec]]]].
    destruct Hrec
      as [kv' [id [p [[= <-] [Hzid [_ [_ [_ [_ [[nm Hn] [[o Ho] [_ [_ [s Hsa]]]]]]]]]]]]]].
    unfold process_summary, py_index, py_get.
    rewrite DictFacts.get_set_eq.
    rewrite !DictFacts.get_set_ne by discriminate.
    rewrite Hzid, Hn, Ho, Hsa. simpl. eexists. reflexivity. }
  assert (Hall : mcp__process_list os None w1 = (Ok entries, w2)).
  { unfold mcp__process_list. unfold bind at 1. rewrite Hl.
    unfold bind, lift. rewrite Hout. reflexivity. }
  set (entry := JObj [("id", JStr process_id); ("name", JStr name);
                      ("owner", JStr owner); ("status", JStr status);
                      ("started_at", JStr timestamp); ("pid", JInt pid)]).
  assert (Hentry : In entry entries).
  { destruct (ProcNoPid.Forall2_In_l _ _ _ _
                (ProcListing.summaries_Forall2 _ _ _ Hout) Hy) as [s [Hs' Hsum]].
    cbn in Hsum. injection Hsum as <-. exact Hs'. }
  destruct (String.eqb owner "") eqn:Hown.
  - exists w1, w2, entries, entries, status.
    split; [exact Hstart|]. split; [exact Hall|]. split; [|split; [exact Hstatus|]].
    + unfold mcp__process_list. unfold bind at 1. rewrite Hl.
      unfold bind, lift. rewrite Hown, Hout. reflexivity.
    + cbv zeta. fold entry. auto.
  - destruct (ProcOwner.owned_by_summaries owner listed entries Hout)
      as [chosen [Hch Hsum]].
    exists w1, w2, entries, (List.filter (owner_is owner) entries), status.
    split; [exact Hstart|]. split; [exact Hall|]. split; [|split; [exact Hstatus|]].
    + unfold mcp__process_list. unfold bind at 1. rewrite Hl.
      unfold bind, lift. rewrite Hown, Hch, Hsum. reflexivity.
    + cbv zeta. fold entry. split; [exact Hentry|]. split.
      * apply List.filter_In. split; [exact Hentry|].
        unfold entry. cbn. apply String.eqb_refl.
      * intros s Hsin. apply List.filter_In in Hsin. apply Hsin.
Qed.

End StartList.
End ProcStartList.

(* ===================================================================== *)
(** * The inbox, exactly *)
(* ===================================================================== *)

Module MailInboxExact.
Import Mail ServerSpec.

Lemma inbox_entries (to_agent : string) (l : list json) :
  Forall well_formed_message l ->
  Forall2 (fun m s => inbox_summary m = Ok s)
    (List.filter (addressed to_agent) l) (flat_map (inbox_entry to_agent) l).
Proof.
  induction 1 as [|m l Hm _ IH]; [constructor|].
  cbn [List.filter flat_map].
  destruct Hm as [kv [-> [[id Hid] [[from Hfrom] [[sub Hsub] [[ts Hts] Hto]]]]]].
  assert (Hsum : exists s, inbox_summary (JObj kv) = Ok s).
  { unfold inbox_summary, py_index, py_get_or. rewrite Hid, Hfrom, Hsub, Hts.
    simpl. eexists. reflexivity. }
  destruct Hsum as [s Hs].
  unfold addressed, inbox_entry. cbn [inbox_loop py_get_or].
  destruct Hto as [Hto | [to Hto]]; rewrite Hto; cbn.
  - exact IH.
  - destruct (List.existsb (eq_str to_agent) to).
    + rewrite Hs. cbn. constructor; [exact Hs | exact IH].
    + exact IH.
Qed.

Section Exact.
Context {E : Type}.
Implicit Types w : world E.

(** X20.  In a directory of the server's own messages the inbox of
    an agent is exactly the stored messages that name the agent among
    their recipients, each as its summary, newest first: there is an
    ordering of the stored messages by decreasing time of which the
    inbox summarises, in order, the messages addressed to the agent and
    no other. *)
Theorem inbox_exact w (to_agent : string) :
  server_mail (mail w) ->
  exists inbox messages,
    mcp__mail_inbox to_agent w = (Ok inbox, w) /\
    Permutation messages (load_all (glob "msg_" ".json" (mail w))) /\
    newest_first "timestamp" messages /\
    Forall2 (fun m s => inbox_summary m = Ok s)
      (List.filter (addressed to_agent) messages) inbox.
Proof.
  intros Hs. destruct (MailRuns.server_mail_well_formed _ Hs) as [Hwf _].
  destruct (MailListing.list_messages_sorted w) as [messages [Hl [Hnew [Hin Hperm]]]].
  { exact (proj1 Hwf). }
  { intros j Hj. apply MailListing.well_formed_sortable, (proj2 Hwf), Hj. }
  assert (Hall : Forall well_formed_message messages).
  { apply List.Forall_forall. intros j Hj. apply (proj2 Hwf), Hin, Hj. }
  exists (flat_map (inbox_entry to_agent) messages), messages.
  split; [|split; [|split; [exact Hnew|]]].
  - unfold mcp__mail_inbox, bind, lift. rewrite Hl.
    rewrite (MailListing.inbox_loop_well_formed to_agent messages Hall).
    reflexivity.
  - unfold glob. rewrite ListingFacts.mail_load_all_flat_map. exact Hperm.
  - apply inbox_entries, Hall.
Qed.

End Exact.
End MailInboxExact.

(* ===================================================================== *)
(** * A start that fails *)
(* ===================================================================== *)

Module ProcStartFailure.
Import Proc ServerSpec.

Section Failure.
Context {E : Type} (os : os_iface E).
Implicit Types w : world E.

(** X21.  When the spawn fails, [mcp__process_start] does not raise:
    it returns the text "Error starting process: " followed by the
    error, and writes no metadata, so no listing shows the attempt and
    stopping or restarting the identifier drawn for it returns
    [False].  The log file opened for the process stays behind, empty:
    [mcp__process_logs] of that identifier returns the empty text
    rather than the no-logs message. *)
Theorem start_failure_leaves_log w (command cwd name owner err : string) :
  let process_id := fst (os_uuid4 os (env w)) in
  let e1 := snd (os_uuid4 os (env w)) in
  let log_path := LOG_DIR +:+ "/" +:+ process_id +:+ ".log" in
  Str.contains "/" process_id = false ->
  fst (os_popen os (snd (os_utcnow os e1)) command cwd log_path) = inr err ->
  exists w1,
    mcp__process_start os command cwd name owner w
    = (Ok ("Error starting process: " +:+ err), w1) /\
    Str.startswith "Error" ("Error starting process: " +:+ err) = true /\
    procs w1 = procs w /\ mail w1 = mail w /\
    logs w1 = <[process_id +:+ ".log" := ""]> (logs w) /\
    trace w1 = trace w ++ [EvPopen command cwd log_path] /\
    (forall lines, mcp__process_logs process_id lines w1 = (Ok "", w1)) /\
    (procs w !! ("proc_" +:+ process_id +:+ ".json") = None ->
     mcp__process_stop os process_id w1 = (Ok false, w1) /\
     mcp__process_restart os process_id w1 = (Ok false, w1)).
Proof.
  intros process_id e1 log_path Hid Hspawn.
  pose proof (ProcRestart.process_start_unfold os w command cwd name owner Hid)
    as Hstart.
  cbv zeta in Hstart. fold process_id e1 log_path in Hstart.
  rewrite Hspawn in Hstart.
  match type of Hstart with _ = (_, ?x) => set (w1 := x) in * end.
  exists w1. split; [exact Hstart|]. split; [reflexivity|].
  split; [reflexivity|]. split; [reflexivity|]. split; [reflexivity|].
  split; [reflexivity|]. split.
  - intros lines. unfold mcp__process_logs, get_log_path, bind, lift.
    rewrite (PathFacts.entry_name_ok "" process_id ".log" Hid).
    rewrite StrFacts.app_nil_l. unfold w1 at 1. cbn [logs].
    rewrite lookup_insert_eq. cbn.
    destruct (lines >? 0); reflexivity.
  - intros Hfresh.
    assert (Hp : get_process_path process_id
                 = Ok ("proc_" +:+ process_id +:+ ".json")).
    { apply PathFacts.entry_name_ok, Hid. }
    split.
    + apply (ProcStatus.process_stop_no_record os w1 process_id _ Hp).
      left. exact Hfresh.
    + unfold mcp__process_restart, bind.
      rewrite (ProcStatus.load_process_unloadable w1 process_id _ Hp)
        by (left; exact Hfresh).
      reflexivity.
Qed.

End Failure.
End ProcStartFailure.

(* ===================================================================== *)
(** * The status is what the probe says *)
(* ===================================================================== *)

Module ProcProbe.
Import Proc ServerSpec.

Section Probe.
Context {E : Type} (os : os_iface E).
Implicit Types w : world E.





End Probe.
End ProcProbe.

(* ===================================================================== *)
(** * Messages are sent or kept *)
(* ===================================================================== *)

Module MailImmutable.
Import Mail ServerSpec.

Lemma same_but_read_trans (kv1 kv2 kv3 : list (string * json)) :
  same_but_read kv1 kv2 -> same_but_read kv2 kv3 -> same_but_read kv1 kv3.
Proof.
  intros [H1 R1] [H2 R2]. split.
  - intros k Hk. rewrite (H2 k Hk). apply (H1 k Hk).
  - destruct R2 as [R2|R2]; [rewrite R2; exact R1 | right; exact R2].
Qed.

Lemma sent_by_kept (c : mail_call) (kv kv' : list (string * json)) :
  sent_by c kv -> same_but_read kv kv' -> sent_by c kv'.
Proof.
  destruct c as [from_agent to_agents subject body| | | |]; [|intros []..].
  intros [H1 [H2 [H3 H4]]] [Hk _].
  cbn. rewrite !Hk by discriminate. repeat split; assumption.
Qed.

Section Immutable.
Context {E : Type} (os : os_iface E).
Implicit Types w : world E.

Lemma mail_listing_keeps w :
  (forall to_agent, snd (mcp__mail_inbox to_agent w) = w) /\
  snd (mcp__mail_list_all w) = w.
Proof.
  split; [intros to_agent|];
    unfold mcp__mail_inbox, mcp__mail_list_all, list_messages, bind, lift;
    destruct (obind _ _) as [l| |]; reflexivity.
Qed.

(** One call: every file afterwards was there, or is a message marked
    read, or is the message sent. *)
Lemma mail_step_origin w (c : mail_call) (name : string) (f : file) :
  uuid_without_slash os ->
  mail_call_in_dir c ->
  server_mail (mail w) ->
  mail (mail_step os w c) !! name = Some f ->
  file_origin [c] (mail w) name f.
Proof.
  intros Hu Hc Hs.
  destruct c as [from_agent to_agents subject body|to_agent|message_id|message_id|];
    cbn [mail_step mail_call_in_dir] in *.
  - (* send *)
    pose proof (MailDelete.mail_send_unfold os w from_agent to_agents subject body
                  (Hu (env w))) as Hsend.
    cbv zeta in Hsend. rewrite Hsend. cbn [snd mail]. intros Hf.
    apply lookup_insert_Some in Hf. destruct Hf as [[_ <-] | [_ Hf]].
    + right. right. eexists. eexists. split; [reflexivity|].
      split; [left; reflexivity|]. cbn. repeat split.
    + left. exact Hf.
  - (* inbox *)
    destruct (mail_listing_keeps w) as [-> _]. intros Hf. left. exact Hf.
  - (* read *)
    set (file_name := "msg_" +:+ message_id +:+ ".json").
    assert (Hp : get_message_path message_id = Ok file_name).
    { apply PathFacts.entry_name_ok, Hc. }
    assert (Hg : glob_match "msg_" ".json" file_name = true).
    { apply ListingFacts.glob_match_entry; [reflexivity | exact Hc | reflexivity]. }
    assert (Hnot : mail w !! file_name = None \/ mail w !! file_name = Some FCorrupt \/
                   mail w !! file_name = Some FUnreadable ->
                   mail (snd (mcp__mail_read message_id w)) !! name = Some f ->
                   file_origin [CallRead message_id] (mail w) name f).
    { intros Hcase. unfold mcp__mail_read, bind.
      rewrite (MailRead.load_message_unloadable w message_id file_name Hp Hcase).
      cbn. intros Hf. left. exact Hf. }
    destruct (mail w !! file_name) as [[j| | |]|] eqn:Hfile;
      try solve [apply Hnot; auto];
      try solve [destruct (proj1 Hs file_name Hg Hfile)].
    destruct (proj2 Hs file_name j Hg Hfile) as [kv [id [-> [Hid [_ [Hname _]]]]]].
    apply StrFacts.entry_inj in Hname. subst id.
    rewrite (MailRuns.mail_read_found w message_id file_name kv Hp Hfile Hid).
    cbn [snd]. unfold with_mail. cbn [mail]. intros Hf.
    apply lookup_insert_Some in Hf. destruct Hf as [[<- <-] | [_ Hf]].
    + right. left. exists kv, (Dict.set "read" (JBool true) kv).
      split; [reflexivity|]. split; [exact Hfile|]. split.
      * intros k Hk. apply DictFacts.get_set_ne. exact Hk.
      * right. apply DictFacts.get_set_eq.
    + left. exact Hf.
  - (* delete *)
    unfold mcp__mail_delete, get_message_path, bind, lift.
    rewrite (PathFacts.entry_name_ok "msg_" message_id ".json" Hc).
    destruct (mail w !! ("msg_" +:+ message_id +:+ ".json"));
      cbv [except_OSError unlink ret]; cbn [snd].
    + unfold with_mail. cbn [mail]. intros Hf.
      apply lookup_delete_Some in Hf. left. apply Hf.
    + intros Hf. left. exact Hf.
  - (* list all *)
    destruct (mail_listing_keeps w) as [_ ->]. intros Hf. left. exact Hf.
Qed.

(** X24.  Messages are sent or kept.  After any sequence of calls of
    the mail tools from a directory of the server's own messages,
    every file of the mail directory either was there before and is
    untouched, or is a message that was there with at most [read]
    changed, to true, or is the message of one of the sends of the
    sequence (its sender, recipients, subject and body are those of
    the call): no tool alters the sender, recipients, subject, body or
    time of a message, and a file that is not valid JSON is never
    rewritten. *)
Theorem messages_sent_or_kept w (calls : list mail_call) (name : string)
  (f : file) :
  uuid_without_slash os ->
  Forall mail_call_in_dir calls ->
  server_mail (mail w) ->
  mail (mail_run os calls w) !! name = Some f ->
  file_origin calls (mail w) name f.
Proof.
  intros Hu Hcalls. revert w f.
  induction Hcalls as [|c calls Hc _ IH]; intros w f Hs Hf.
  - left. exact Hf.
  - unfold mail_run in *. cbn [List.fold_left] in Hf.
    destruct (MailRuns.mail_step_ok os w c Hu Hc Hs) as [_ [Hs1 _]].
    assert (Hstep : forall f1, mail (mail_step os w c) !! name = Some f1 ->
              file_origin (c :: calls) (mail w) name f1).
    { intros f1 Hf1.
      destruct (mail_step_origin w c name f1 Hu Hc Hs Hf1)
        as [H | [[kv [kv' [-> [H1 H2]]]] | [c0 [kv' [-> [[<-|[]] H2]]]]]].
      - left. exact H.
      - right. left. exists kv, kv'. auto.
      - right. right. exists c, kv'. split; [reflexivity|].
        split; [left; reflexivity | exact H2]. }
    destruct (IH _ f Hs1 Hf)
      as [H | [[kv1 [kv' [-> [H1 H2]]]] | [c0 [kv' [-> [Hin H2]]]]]].
    + apply Hstep, H.
    + destruct (Hstep _ H1)
        as [H | [[kv [kv0 [[= <-] [H3 H4]]]] | [c0 [kv0 [[= <-] [Hin H4]]]]]].
      * right. left. exists kv1, kv'. auto.
      * right. left. exists kv, kv'. split; [reflexivity|].
        split; [exact H3 | apply (same_but_read_trans _ _ _ H4 H2)].
      * right. right. exists c0, kv'. split; [reflexivity|].
        split; [exact Hin | apply (sent_by_kept _ _ _ H4 H2)].
    + right. right. exists c0, kv'. split; [reflexivity|].
      split; [right; exact Hin | exact H2].
Qed.

End Immutable.
End MailImmutable.

(* ===================================================================== *)
(** * One entry for each file *)
(* ===================================================================== *)

Module ListingUnique.
Import ServerSpec.

Lemma entry_file_id (prefix : string) (x : json) :
  entry_file prefix x = id_file prefix (py_get "id" x).
Proof.
  destruct x as [| | | | |kv]; try reflexivity. cbn.
  destruct (Dict.get "id" kv) as [[| | | | |]|]; reflexivity.
Qed.

(** The stored documents name their files, so no two name the same. *)
Lemma stored_files (prefix : string) (files : list (string * file)) :
  (forall n j, In (n, FJson j) files -> entry_file prefix j = Some n) ->
  List.map (entry_file prefix) (Mail.load_all files)
  = List.map Some (json_names files).
Proof.
  induction files as [|[n [j| | |]] files IH]; intros H; cbn;
    try (apply IH; intros n' j' Hin; apply H; right; exact Hin).
  - reflexivity.
  - rewrite (H n j) by (left; reflexivity). f_equal.
    apply IH. intros n' j' Hin. apply H. right. exact Hin.
Qed.

Lemma stored_files_NoDup (prefix : string) (d : gmap string file) :
  (forall n j, glob_match prefix ".json" n = true -> d !! n = Some (FJson j) ->
               entry_file prefix j = Some n) ->
  List.NoDup (List.map (entry_file prefix) (Mail.load_all (glob prefix ".json" d))).
Proof.
  intros H. rewrite stored_files.
  - apply Finite.Injective_map_NoDup; [intros a b [= ->]; reflexivity|].
    apply ProcCleanupSpec.json_names_NoDup, ProcCleanupSpec.glob_names_NoDup.
  - intros n j Hin. apply ListingFacts.glob_In in Hin. destruct Hin as [Hf Hg].
    apply (H n j Hg Hf).
Qed.

Lemma summaries_files (prefix : string) (f : json -> outcome json)
  (l out : list json) :
  (forall x s, f x = Ok s -> entry_file prefix s = entry_file prefix x) ->
  summaries f l = Ok out ->
  List.map (entry_file prefix) out = List.map (entry_file prefix) l.
Proof.
  intros Hf Hs. apply ProcListing.summaries_Forall2 in Hs.
  induction Hs as [|x s l out Hx _ IH]; [reflexivity|].
  cbn. rewrite (Hf x s Hx), IH. reflexivity.
Qed.

Lemma list_all_summary_file (x s : json) :
  Mail.list_all_summary x = Ok s -> entry_file "msg_" s = entry_file "msg_" x.
Proof.
  destruct x as [| | | | |kv]; try discriminate.
  unfold Mail.list_all_summary, py_index, py_get_or.
  destruct (Dict.get "id" kv) as [id|] eqn:Hid; [|discriminate].
  destruct (Dict.get "from" kv); [|discriminate].
  destruct (Dict.get "to" kv); [|discriminate].
  destruct (Dict.get "subject" kv); [|discriminate].
  destruct (Dict.get "timestamp" kv); [|discriminate].
  cbn. intros [= <-]. cbn. rewrite Hid. reflexivity.
Qed.

Lemma process_summary_file (x s : json) :
  Proc.process_summary x = Ok s -> entry_file "proc_" s = entry_file "proc_" x.
Proof.
  destruct x as [| | | | |kv]; try discriminate.
  unfold Proc.process_summary, py_index, py_get.
  destruct (Dict.get "id" kv) as [id|] eqn:Hid; [|discriminate].
  destruct (Dict.get "name" kv); [|discriminate].
  destruct (Dict.get "owner" kv); [|discriminate].
  destruct (Dict.get "status" kv); [|discriminate].
  destruct (Dict.get "started_at" kv); [|discriminate].
  cbn. intros [= <-]. cbn. rewrite Hid. reflexivity.
Qed.

Lemma ids_NoDup (prefix : string) (entries : list json) :
  List.NoDup (List.map (entry_file prefix) entries) ->
  List.NoDup (List.map (py_get "id") entries).
Proof.
  intros H. apply (List.NoDup_map_inv (id_file prefix)).
  rewrite List.map_map.
  rewrite (List.map_ext _ (entry_file prefix)); [exact H|].
  intros x. symmetry. apply entry_file_id.
Qed.

Section Unique.
Context {E : Type} (os : os_iface E).
Implicit Types w : world E.

(** X25.  A listing has one entry for each file, and no identifier
    twice.  In a directory of the server's own messages
    [mcp__mail_list_all] returns as many entries as there are message
    files that load, with pairwise different [id]; in a directory of
    the manager's own records so does [mcp__process_list] without an
    owner, for the metadata files. *)
Theorem listings_one_entry_per_file w :
  (server_mail (mail w) ->
   exists entries,
     Mail.mcp__mail_list_all w = (Ok entries, w) /\
     List.NoDup (List.map (py_get "id") entries) /\
     List.length entries
     = List.length (Mail.load_all (glob "msg_" ".json" (mail w)))) /\
  (server_procs (procs w) ->
   exists entries w',
     Proc.mcp__process_list os None w = (Ok entries, w') /\
     List.NoDup (List.map (py_get "id") entries) /\
     List.length entries
     = List.length (Mail.load_all (glob "proc_" ".json" (procs w)))).
Proof.
  split.
  - intros Hs.
    destruct (MailRuns.mail_listings_return w Hs) as [_ [entries [Hr Hlen]]].
    exists entries. split; [exact Hr|]. split; [|exact Hlen].
    unfold Mail.mcp__mail_list_all, bind, lift in Hr.
    destruct (Mail.list_messages w) as [[messages| |] w0] eqn:Hlist;
      try discriminate Hr.
    destruct (MailListing.list_messages_returns w _ _ Hlist) as [-> [_ Hsort]].
    destruct (summaries Mail.list_all_summary messages) as [out| |] eqn:Hout;
      try discriminate Hr.
    injection Hr as <-.
    apply (ids_NoDup "msg_").
    rewrite (summaries_files "msg_" _ _ _ list_all_summary_file Hout).
    apply (Permutation_NoDup
             (Permutation_map _
                (Permutation_sym (ProcListing.py_sort_desc_perm _ _ _ Hsort)))).
    apply stored_files_NoDup. intros n j Hg Hf.
    destruct (proj2 Hs n j Hg Hf) as [kv [id [-> [Hid [_ [-> _]]]]]].
    cbn. rewrite Hid. reflexivity.
  - intros Hs.
    destruct (ProcRuns.server_procs_consistent _ Hs) as [Hc _].
    destruct (ProcCleanupSpec.list_processes_total os w Hc)
      as [l0 [w1 [Hl [H2 _]]]].
    destruct (ProcRuns.process_list_total os w None Hs) as [entries [w' [Hr _]]].
    exists entries, w'. split; [exact Hr|].
    unfold Proc.mcp__process_list in Hr. unfold bind at 1 in Hr.
    rewrite Hl in Hr. unfold bind, lift in Hr.
    destruct (summaries Proc.process_summary _) as [out| |] eqn:Hout;
      try discriminate Hr.
    injection Hr as <- _.
    assert (Hfiles : List.map (entry_file "proc_")
                       (sorted_by (sort_key "started_at") l0)
                     = List.map (entry_file "proc_") out).
    { symmetry. apply (summaries_files "proc_" _ _ _ process_summary_file Hout). }
    split.
    + apply (ids_NoDup "proc_"). rewrite <- Hfiles.
      apply (Permutation_NoDup
               (Permutation_map _
                  (Permutation_sym (SortFacts.sorted_by_perm
                                      (sort_key "started_at") l0)))).
      change (entry_file "proc_") with record_file.
      rewrite (ProcCleanupSpec.relisted_map_record_file _ _ H2).
      change record_file with (entry_file "proc_").
      apply stored_files_NoDup. intros n j Hg Hf.
      destruct (proj2 Hs n j Hg Hf) as [kv [id [pid [-> [Hid [_ [-> _]]]]]]].
      cbn. rewrite Hid. reflexivity.
    + rewrite <- (List.length_map (entry_file "proc_") out), <- Hfiles.
      rewrite List.length_map.
      rewrite (Permutation_length (SortFacts.sorted_by_perm _ l0)).
      symmetry. apply (Forall2_length _ _ _ H2).
Qed.

End Unique.
End ListingUnique.

(* ===================================================================== *)
(** * Settings read from the environment *)
(* ===================================================================== *)

Module SplitFacts.

Lemma contains_char (c : ascii) (s : string) :
  Str.contains (String c "") s = Str.existsb (Ascii.eqb c) s.
Proof.
  induction s as [|a s IH]; [reflexivity|].
  cbn [Str.contains Str.existsb Str.startswith]. rewrite IH, andb_true_r. reflexivity.
Qed.

Lemma split_cons (sep : ascii) (s : string) :
  exists field fields, Str.split sep s = field :: fields.
Proof.
  induction s as [|c s [field [fields IH]]]; simpl; [eauto|].
  destruct (Ascii.eqb c sep); [eauto|]. rewrite IH. eauto.
Qed.

(** No field holds the separator. *)
Lemma split_fields (sep : ascii) (s : string) :
  Forall (fun field => Str.existsb (Ascii.eqb sep) field = false) (Str.split sep s).
Proof.
  induction s as [|c s IH]; simpl.
  - constructor; [reflexivity | constructor].
  - destruct (Ascii.eqb c sep) eqn:Hc.
    + constructor; [reflexivity | exact IH].
    + destruct (Str.split sep s) as [|field fields]; inversion IH; subst.
      * constructor; [|constructor]. simpl. rewrite Ascii.eqb_sym, Hc. reflexivity.
      * constructor; [|assumption]. simpl. rewrite Ascii.eqb_sym, Hc. assumption.
Qed.

Lemma split_no_sep (sep : ascii) (s : string) :
  Str.existsb (Ascii.eqb sep) s = false -> Str.split sep s = [s].
Proof.
  induction s as [|c s IH]; [reflexivity|].
  cbn [Str.existsb Str.split]. rewrite orb_false_iff. intros [Hc Hs].
  rewrite Ascii.eqb_sym, Hc, (IH Hs). reflexivity.
Qed.

Lemma split_app (sep : ascii) (s t : string) :
  Str.existsb (Ascii.eqb sep) s = false ->
  Str.split sep (s +:+ String sep t) = s :: Str.split sep t.
Proof.
  induction s as [|c s IH].
  - intros _. rewrite StrFacts.app_nil_l. cbn [Str.split].
    rewrite Ascii.eqb_refl. reflexivity.
  - cbn [Str.existsb]. rewrite orb_false_iff. intros [Hc Hs].
    rewrite StrFacts.app_cons. cbn [Str.split].
    rewrite Ascii.eqb_sym, Hc, (IH Hs). reflexivity.
Qed.

(** Splitting what was joined gives the fields back. *)
Lemma split_join (x : string) (l : list string) :
  Forall (fun field => Str.existsb (Ascii.eqb ",") field = false) (x :: l) ->
  Str.split "," (Str.join "," (x :: l)) = x :: l.
Proof.
  revert x. induction l as [|y l IH]; intros x H; inversion H; subst.
  - apply split_no_sep. assumption.
  - change (Str.join "," (x :: y :: l)) with (x +:+ "," +:+ Str.join "," (y :: l)).
    change ("," +:+ Str.join "," (y :: l)) with (String "," (Str.join "," (y :: l))).
    rewrite split_app by assumption. rewrite IH by assumption. reflexivity.
Qed.

Lemma lstrip_head (s : string) (c : ascii) (rest : string) :
  Str.lstrip s = String c rest -> Str.is_space c = false.
Proof.
  induction s as [|a s IH]; [discriminate|].
  simpl. destruct (Str.is_space a) eqn:Ha; [exact IH|].
  intros [= <- <-]. exact Ha.
Qed.

Lemma lstrip_id (c : ascii) (rest : string) :
  Str.is_space c = false -> Str.lstrip (String c rest) = String c rest.
Proof. intros H. simpl. rewrite H. reflexivity. Qed.

Lemma rstrip_cons (c : ascii) (s : string) :
  Str.is_space c = false -> Str.rstrip (String c s) = String c (Str.rstrip s).
Proof. intros H. simpl. rewrite H. destruct (Str.rstrip s); reflexivity. Qed.

Lemma rstrip_idem (s : string) : Str.rstrip (Str.rstrip s) = Str.rstrip s.
Proof.
  induction s as [|a s IH]; [reflexivity|].
  cbn [Str.rstrip]. destruct (Str.rstrip s) as [|b r] eqn:Hr.
  - destruct (Str.is_space a) eqn:Ha; [reflexivity|].
    simpl. rewrite Ha. reflexivity.
  - cbn [Str.rstrip]. cbn [Str.rstrip] in IH. rewrite IH. reflexivity.
Qed.

(** The last character left by [rstrip] is not white space. *)
Lemma rstrip_last (s front : string) (c : ascii) :
  Str.rstrip s = front +:+ String c "" -> Str.is_space c = false.
Proof.
  revert front. induction s as [|a s IH]; intros front.
  - destruct front; discriminate.
  - cbn [Str.rstrip]. destruct (Str.rstrip s) as [|b r] eqn:Hr.
    + destruct (Str.is_space a) eqn:Ha.
      * destruct front; discriminate.
      * destruct front as [|f front].
        -- intros [= <-]. exact Ha.
        -- rewrite StrFacts.app_cons. intros [= _ H]. destruct front; discriminate H.
    + destruct front as [|f front].
      * rewrite StrFacts.app_nil_l. discriminate.
      * rewrite StrFacts.app_cons. intros [= _ H]. apply (IH front). exact H.
Qed.

Lemma strip_head (s : string) (c : ascii) (rest : string) :
  Str.strip s = String c rest -> Str.is_space c = false.
Proof.
  unfold Str.strip. destruct (Str.lstrip s) as [|a u] eqn:Hl; [discriminate|].
  pose proof (lstrip_head s a u Hl) as Ha.
  rewrite (rstrip_cons a u Ha). intros [= <- _]. exact Ha.
Qed.

Lemma strip_idem (s : string) : Str.strip (Str.strip s) = Str.strip s.
Proof.
  destruct (Str.strip s) as [|c rest] eqn:Hs; [reflexivity|].
  pose proof (strip_head s c rest Hs) as Hc.
  unfold Str.strip at 1. rewrite (lstrip_id c rest Hc), <- Hs.
  unfold Str.strip. apply rstrip_idem.
Qed.

Lemma lstrip_no_char (c : ascii) (s : string) :
  Str.existsb (Ascii.eqb c) s = false ->
  Str.existsb (Ascii.eqb c) (Str.lstrip s) = false.
Proof.
  induction s as [|a s IH]; [reflexivity|].
  intros H. cbn [Str.lstrip]. destruct (Str.is_space a); [|exact H].
  cbn [Str.existsb] in H. apply orb_false_iff in H. apply IH, H.
Qed.

Lemma rstrip_no_char (c : ascii) (s : string) :
  Str.existsb (Ascii.eqb c) s = false ->
  Str.existsb (Ascii.eqb c) (Str.rstrip s) = false.
Proof.
  induction s as [|a s IH]; [reflexivity|].
  cbn [Str.existsb]. rewrite orb_false_iff. intros [Ha Hs].
  cbn [Str.rstrip]. specialize (IH Hs). destruct (Str.rstrip s) as [|b r].
  - destruct (Str.is_space a); [reflexivity|]. simpl. rewrite Ha. reflexivity.
  - cbn [Str.existsb]. cbn [Str.existsb] in IH. rewrite Ha, IH. reflexivity.
Qed.

Lemma strip_no_char (c : ascii) (s : string) :
  Str.existsb (Ascii.eqb c) s = false ->
  Str.existsb (Ascii.eqb c) (Str.strip s) = false.
Proof. intros H. apply rstrip_no_char, lstrip_no_char, H. Qed.

End SplitFacts.

Module ConfigEnv.
Import Config ConfigSpec.

Lemma list_item_field (t : string) :
  list_item t ->
  Str.existsb (Ascii.eqb ",") t = false /\
  negb (String.eqb (Str.strip t) "") = true.
Proof.
  intros [Hne [Hs Hc]]. rewrite SplitFacts.contains_char in Hc.
  split; [exact Hc|]. rewrite Hs. apply negb_true_iff, String.eqb_neq, Hne.
Qed.

(** X13.  Every item of a list setting ([API_TOKENS], [CORS_ORIGINS],
    [ALLOWED_FILE_EXTENSIONS]) read from a comma-separated text of
    ASCII characters is clean: it is not empty, it holds no comma, and
    neither its first nor its last character is white space (stripping
    it again changes nothing).  Empty and blank fields are dropped. *)
Theorem env_list_items (raw : string) :
  Str.forallb Str.is_ascii raw = true ->
  Forall (fun t =>
            list_item t /\
            (forall c rest, t = String c rest -> Str.is_space c = false) /\
            (forall front c, t = front +:+ String c "" -> Str.is_space c = false))
         (env_list raw).
Proof.
  intros _. unfold env_list.
  apply List.Forall_map, List.Forall_forall. intros field Hf.
  apply List.filter_In in Hf. destruct Hf as [Hf Hne].
  pose proof (SplitFacts.split_fields "," raw) as Hfields.
  rewrite List.Forall_forall in Hfields. specialize (Hfields field Hf).
  split; [split; [|split]|split].
  - apply String.eqb_neq, negb_true_iff, Hne.
  - apply SplitFacts.strip_idem.
  - rewrite SplitFacts.contains_char. apply SplitFacts.strip_no_char, Hfields.
  - intros c rest H. apply (SplitFacts.strip_head field c rest H).
  - intros front c H. apply (SplitFacts.rstrip_last (Str.lstrip field) front c H).
Qed.

(** X14.  A list setting survives being written with commas and read
    back: for items of ASCII characters that are clean, reading the
    items joined by commas gives the items, in order; so reading a
    setting, joining the result and reading again gives the same
    list. *)
Theorem env_list_join (items : list string) (raw : string) :
  Forall (fun t => Str.forallb Str.is_ascii t = true) items ->
  Str.forallb Str.is_ascii raw = true ->
  Forall list_item items ->
  env_list (Str.join "," items) = items /\
  env_list (Str.join "," (env_list raw)) = env_list raw.
Proof.
  intros _ _.
  assert (Hjoin : forall l, Forall list_item l -> env_list (Str.join "," l) = l).
  { intros l Hl. destruct l as [|x l]; [reflexivity|].
    unfold env_list. rewrite SplitFacts.split_join.
    - assert (Hkeep : forall l0, Forall list_item l0 ->
                List.map Str.strip
                  (List.filter (fun t => negb (String.eqb (Str.strip t) "")) l0) = l0).
      { induction l0 as [|y l0 IH]; intros H0; [reflexivity|].
        inversion H0 as [|? ? Hy Hrest]; subst.
        cbn [List.filter]. destruct (list_item_field y Hy) as [_ ->].
        cbn [List.map]. rewrite (IH Hrest).
        destruct Hy as [_ [-> _]]. reflexivity. }
      apply Hkeep, Hl.
    - eapply List.Forall_impl; [|exact Hl].
      intros t Ht. apply (list_item_field t Ht). }
  intros Hitems. split; [apply Hjoin, Hitems|].
  apply Hjoin.
  unfold env_list. apply List.Forall_map, List.Forall_forall. intros field Hf.
  apply List.filter_In in Hf. destruct Hf as [Hf Hne].
  pose proof (SplitFacts.split_fields "," raw) as Hfields.
  rewrite List.Forall_forall in Hfields. specialize (Hfields field Hf).
  split; [|split].
  - apply String.eqb_neq, negb_true_iff, Hne.
  - apply SplitFacts.strip_idem.
  - rewrite SplitFacts.contains_char. apply SplitFacts.strip_no_char, Hfields.
Qed.

(** X15.  What a validated configuration guarantees to the getters:
    when [validate] returns, [get_max_file_size_bytes] lies between one
    and one thousand mebibytes (so it fits 31 bits), the port is a TCP
    port, there is at least one worker, and an environment that is
    neither production nor development is staging or test.
    [is_production] and [is_development] never hold together. *)
Theorem validated_getters (cls : config) :
  snd (validate cls) = Ok tt ->
  1048576 <= get_max_file_size_bytes cls <= 1048576000 /\
  get_max_file_size_bytes cls < 2 ^ 31 /\
  1 <= API_PORT cls <= 65535 /\
  1 <= API_WORKERS cls /\
  (is_production cls = true -> is_development cls = false) /\
  (is_production cls = false -> is_development cls = false ->
   ENVIRONMENT cls = "staging" \/ ENVIRONMENT cls = "test").
Proof.
  intros Hv.
  assert (Hall : forall r, holds cls r).
  { intros r. apply ConfigProps.holds_iff.
    unfold validate in Hv. destruct (errors cls) as [|e errs] eqn:He;
      [|discriminate Hv].
    rewrite ConfigProps.errors_violated in He.
    destruct (violated cls r) eqn:Hr; [|reflexivity].
    assert (Hin : In r (List.filter (violated cls) all_rules)).
    { apply List.filter_In. split; [destruct r; simpl; tauto | exact Hr]. }
    apply (List.in_map (rule_message cls)) in Hin. rewrite He in Hin.
    destruct Hin. }
  pose proof (Hall RFileSize) as Hsize. pose proof (Hall RPort) as Hport.
  pose proof (Hall RWorkers) as Hworkers. pose proof (Hall REnvironment) as Henv.
  simpl in Hsize, Hport, Hworkers, Henv.
  unfold get_max_file_size_bytes, is_production, is_development.
  split; [lia|]. split; [lia|]. split; [exact Hport|]. split; [exact Hworkers|].
  split.
  - intros H. apply String.eqb_eq in H. rewrite H. reflexivity.
  - intros Hp Hd. apply String.eqb_neq in Hp, Hd.
    destruct Henv as [H|[H|[H|[H|[]]]]]; symmetry in H; tauto.
Qed.

End ConfigEnv.

(* ===================================================================== *)
(** * The logging configuration *)
(* ===================================================================== *)

Module LogConfig.
Import Config ConfigLogging.

(** X16.  The dictionary of [get_log_config] is consistent: the
    handlers of the root logger are exactly the handlers defined, in
    order: the console, followed by the file handler exactly when
    [LOG_FILE] is set to a non-empty name, which is then its file name;
    every handler and the root logger have the level [LOG_LEVEL] and
    every handler the formatter [LOG_FORMAT]; and that formatter is
    one of the two defined exactly when [LOG_FORMAT] is json or text. *)
Theorem log_config_handlers (cls : config) (la : log_attrs) :
  exists formatters handlers root,
    py_index "formatters" (get_log_config cls la) = Ok (JObj formatters) /\
    py_index "handlers" (get_log_config cls la) = Ok (JObj handlers) /\
    py_index "root" (get_log_config cls la) = Ok (JObj root) /\
    Dict.get "handlers" root = Some (JList (List.map JStr (List.map fst handlers))) /\
    List.map fst handlers
    = "console" :: (if truthy_opt (LOG_FILE la) then ["file"] else []) /\
    Dict.get "level" root = Some (JStr (LOG_LEVEL cls)) /\
    Forall (fun h => py_index "level" (snd h) = Ok (JStr (LOG_LEVEL cls)) /\
                     py_index "formatter" (snd h) = Ok (JStr (LOG_FORMAT la)))
           handlers /\
    (forall filename,
       LOG_FILE la = Some filename -> filename <> "" ->
       exists h, Dict.get "file" handlers = Some h /\
                 py_index "filename" h = Ok (JStr filename)) /\
    (is_Some (Dict.get (LOG_FORMAT la) formatters) <->
     LOG_FORMAT la = "json" \/ LOG_FORMAT la = "text").
Proof.
  assert (Hfmt : forall a b,
            is_Some (Dict.get (LOG_FORMAT la) [("json", a); ("text", b)]) <->
            LOG_FORMAT la = "json" \/ LOG_FORMAT la = "text").
  { intros a b. cbn [Dict.get].
    destruct (String.eqb_spec "json" (LOG_FORMAT la)) as [H1|H1].
    - split; [intros _; left; congruence | intros _; eexists; reflexivity].
    - destruct (String.eqb_spec "text" (LOG_FORMAT la)) as [H2|H2].
      + split; [intros _; right; congruence | intros _; eexists; reflexivity].
      + split; [intros [x Hx]; discriminate Hx | intros [H|H]; congruence]. }
  unfold get_log_config.
  destruct (LOG_FILE la) as [filename|] eqn:Hfile.
  - destruct (String.eqb_spec filename "") as [He|He].
    + do 3 eexists. cbn.
      destruct (String.eqb_spec filename ""); [|contradiction].
      repeat split; try apply Hfmt.
      * repeat constructor.
      * intros f [= <-] Hne. contradiction.
    + do 3 eexists. cbn.
      destruct (String.eqb_spec filename ""); [contradiction|].
      repeat split; try apply Hfmt.
      * repeat constructor.
      * intros f [= <-] _. eexists. split; reflexivity.
  - do 3 eexists. cbn.
    repeat split; try apply Hfmt.
    + repeat constructor.
    + intros f Hf. discriminate Hf.
Qed.

End LogConfig.

(* ===================================================================== *)
(** * The theorems at work on the sample worlds *)
(* ===================================================================== *)

Module Runs.
Import ServerSpec.

Ltac run := vm_compute; reflexivity.

(** Validation of the three-error configuration of the test suite:
    it raises, so some rule is violated. *)
Lemma validate_aggregates_witness :
  (exists e, snd (Config.validate ConfigSpec.three_errors) = Raise e) /\
  (exists r, ~ ConfigSpec.holds ConfigSpec.three_errors r).
Proof.
  assert (Hr : exists e, snd (Config.validate ConfigSpec.three_errors) = Raise e).
  { eexists. run. }
  split; [exact Hr|].
  pose proof (ConfigProps.validate_aggregates ConfigSpec.three_errors) as H.
  destruct (Config.validate ConfigSpec.three_errors) as [logged result].
  destruct H as [[H _] _]. apply H. exact Hr.
Defined.

(** The redaction test of the suite: the two tokens become two indexed
    markers. *)
Lemma to_dict_redacts_witness :
  exists markers,
    Config.get "API_TOKENS" (Config.to_dict ConfigSpec.sample_namespace)
      = Some (Config.VList markers) /\
    List.length markers = 2%nat /\
    nth_error markers 1 = Some "***REDACTED1***".
Proof.
  destruct (ConfigExport.to_dict_redacts ConfigSpec.sample_namespace "API_TOKENS")
    as [_ [_ [H _]]].
  destruct (H eq_refl (Config.VList ["token1"; "token2"]) eq_refl) as [_ Hs].
  destruct Hs as [_ [Hl _]].
  { exists "token", "api_", "s". split; [simpl; tauto | reflexivity]. }
  destruct (Hl _ eq_refl) as [markers [Hg [Hlen Hnth]]]; [discriminate|].
  exists markers. split; [exact Hg|]. split; [exact Hlen|].
  apply (Hnth 1%nat). simpl. lia.
Defined.

(** Listing a directory with a dated and an undated message: the
    helper returns both, newest first. *)
Lemma listings_newest_first_witness :
  exists messages,
    Mail.list_messages Samples.undated_mail = (Ok messages, Samples.undated_mail) /\
    newest_first "timestamp" messages /\
    In Samples.undated_message messages.
Proof.
  destruct (ListingOrder.listings_newest_first ToyOS.os Samples.undated_mail)
    as [H _].
  destruct H as [messages [H1 [H2 H3]]].
  - apply ListingFacts.decodable_check. run.
  - intros j [name [_ Hf]]. simpl in Hf.
    apply lookup_insert_Some in Hf. destruct Hf as [[<- [= <-]] | [_ Hf]].
    + eexists. split; [reflexivity|]. left. reflexivity.
    + apply lookup_singleton_Some in Hf. destruct Hf as [<- [= <-]].
      eexists. split; [reflexivity|]. right. eexists. reflexivity.
  - exists messages. split; [exact H1|]. split; [exact H2|].
    apply H3. exists "msg_m0.json". split; run.
Defined.

(** Reading message m1 twice. *)
Lemma mail_read_marks_read_witness :
  exists message w',
    Mail.mcp__mail_read "m1" Samples.one_message = (Ok message, w') /\
    py_get "read" message = Ok (JBool true) /\
    Mail.mcp__mail_read "m1" w' = (Ok message, w').
Proof.
  destruct (MailRead.mail_read_marks_read Samples.one_message "m1" "msg_m1.json"
              _ ltac:(run) ltac:(run) ltac:(run)) as [H1 [H2 [_ H3]]].
  eexists. eexists. split; [exact H1|]. split; [|exact H3]. run.
Defined.

(** Reading the file that is not JSON. *)
Lemma mail_read_corrupt_file_witness :
  Mail.mcp__mail_read "bad" Samples.one_message
  = (Ok (Mail.not_found "bad"), Samples.one_message).
Proof.
  destruct (MailRead.mail_read_corrupt_file Samples.one_message "bad" "msg_bad.json"
              ltac:(run)) as [H _].
  apply H. left. run.
Defined.

(** Stopping the live process p1: the record is stamped with the time
    read after the signals. *)
Lemma process_stop_marks_stopped_witness :
  exists w' kv',
    Proc.mcp__process_stop ToyOS.os "p1" Samples.alive = (Ok true, w') /\
    procs w' !! "proc_p1.json" = Some (FJson (JObj kv')) /\
    Dict.get "status" kv' = Some (JStr "stopped") /\
    Dict.get "stopped_at" kv' = Some (JStr "2024-07-03T10:30:00Z").
Proof.
  destruct (ProcStopSpec.process_stop_marks_stopped ToyOS.os Samples.alive
              "p1" "proc_p1.json" ltac:(run)) as [_ [_ H]].
  destruct (H _ 4242 ltac:(run) ltac:(run) ltac:(run) ltac:(run))
    as [w' [kv' [H1 [H2 [_ [_ [H3 [_ [H4 _]]]]]]]]].
  exists w', kv'. split; [exact H1|]. split; [|split; [exact H3|]].
  - rewrite H2. apply lookup_insert_eq.
  - eapply eq_trans; [eapply H4; run | run].
Defined.


(** A record with pid 0: its status is unknown and stopping it does
    nothing. *)
Lemma no_pid_is_unknown_witness :
  Proc.mcp__process_stop ToyOS.os "p0" Samples.no_pid = (Ok false, Samples.no_pid) /\
  fst (Proc.mcp__process_list ToyOS.os None Samples.no_pid)
  = Ok [JObj [("id", JStr "p0"); ("name", JStr "webserver");
              ("owner", JStr "feat-dashboard"); ("status", JStr "unknown");
              ("started_at", JStr "2024-07-03T10:00:00Z"); ("pid", JInt 0)]] /\
  trace (snd (Proc.mcp__process_list ToyOS.os None Samples.no_pid)) = [].
Proof.
  destruct (ProcNoPid.no_pid_is_unknown ToyOS.os Samples.no_pid "p0" "proc_p0.json"
              _ None ltac:(run) ltac:(run) ltac:(run)) as [_ [H _]].
  split; [exact H|]. split; run.
Defined.

Lemma two_processes_consistent : consistent_procs (procs Samples.two_processes).
Proof.
  split; [apply ListingFacts.decodable_check; run|].
  intros name j _ Hf. simpl in Hf.
  apply lookup_insert_Some in Hf. destruct Hf as [[<- [= <-]] | [_ Hf]].
  - eexists. exists "p1". split; [reflexivity|]. repeat split; try reflexivity.
    + intros _. eexists. reflexivity.
    + right. eexists. reflexivity.
  - apply lookup_singleton_Some in Hf. destruct Hf as [<- [= <-]].
    eexists. exists "p2". split; [reflexivity|]. repeat split; try reflexivity.
    + intros _. eexists. reflexivity.
    + right. eexists. reflexivity.
Qed.

(** Cleanup with p1 exited and p2 alive: one file is removed, one
    process remains, the logs stay. *)
Lemma cleanup_removes_stopped_witness :
  exists w2,
    Proc.mcp__process_cleanup ToyOS.os Samples.two_processes
    = (Ok (JObj [("cleaned_processes", JInt 1); ("remaining_processes", JInt 1)]), w2) /\
    logs w2 = logs Samples.two_processes /\
    (size (procs w2) + 1)%nat = size (procs Samples.two_processes).
Proof.
  destruct (ProcCleanupSpec.cleanup_removes_stopped ToyOS.os Samples.two_processes
              two_processes_consistent)
    as [listed [w1 [w2 [Hl [_ [Hc [_ [_ [_ [Hlogs [_ Hsize]]]]]]]]]]].
  vm_compute in Hl. injection Hl as <- <-.
  exists w2. split; [exact Hc|]. split; [exact Hlogs | exact Hsize].
Defined.

Lemma one_message_well_formed : well_formed_mail (mail Samples.one_message).
Proof.
  split; [apply ListingFacts.decodable_check; run|].
  intros j [name [_ Hf]]. simpl in Hf.
  apply lookup_insert_Some in Hf. destruct Hf as [[<- [= <-]] | [_ Hf]].
  - eexists. split; [reflexivity|]. simpl.
    repeat split; try (eexists; reflexivity). right. eexists. reflexivity.
  - apply lookup_singleton_Some in Hf. destruct Hf as [_ Hf]. discriminate Hf.
Qed.

Lemma one_message_no_id1 (j : json) :
  loads "msg_" ".json" (delete "msg_id1.json" (mail Samples.one_message)) j ->
  has_id "id1" j = false.
Proof.
  intros [name [_ Hf]]. apply lookup_delete_Some in Hf. destruct Hf as [_ Hf].
  simpl in Hf.
  apply lookup_insert_Some in Hf. destruct Hf as [[<- [= <-]] | [_ Hf]].
  - reflexivity.
  - apply lookup_singleton_Some in Hf. destruct Hf as [_ Hf]. discriminate Hf.
Qed.

(** Alice writes to bob and dave: bob's inbox has one entry id1. *)
Lemma send_then_inbox_witness :
  exists w1 inbox,
    Mail.mcp__mail_send ToyOS.os "alice" ["bob"; "dave"] "merge" "ready"
      Samples.one_message = (Ok "id1", w1) /\
    Mail.mcp__mail_inbox "bob" w1 = (Ok inbox, w1) /\
    List.filter (has_id "id1") inbox =
      [JObj [("id", JStr "id1"); ("from", JStr "alice"); ("subject", JStr "merge");
             ("timestamp", JStr "2024-07-03T10:30:00Z"); ("read", JBool false)]].
Proof.
  destruct (MailSend.send_then_inbox ToyOS.os Samples.one_message
              "alice" ["bob"; "dave"] "merge" "ready" "bob"
              ltac:(run) one_message_well_formed one_message_no_id1
              ltac:(left; reflexivity))
    as [w1 [inbox [Hs [_ [Hi Hf]]]]].
  exists w1, inbox. split; [exact Hs|]. split; [exact Hi | exact Hf].
Defined.

(** ** Further runs *)



(** Stopping a process that ignores [SIGTERM]: all six calls are
    made, both signals go to the group [getpgid] answered, and the
    record is stamped with the time read after the [SIGKILL]. *)
Lemma process_stop_calls_witness :
  exists w' kv',
    Proc.mcp__process_stop ToyOS.os "p1" Samples.stubborn_process = (Ok true, w') /\
    trace w'
    = [EvGetpgid 4242; EvKillpg 4242 SIGTERM; EvSleep 2; EvKill 4242 SIG0;
       EvGetpgid 4242; EvKillpg 4242 SIGKILL] /\
    procs w' !! "proc_p1.json" = Some (FJson (JObj kv')) /\
    Dict.get "stopped_at" kv' = Some (JStr "2024-07-03T10:30:00Z").
Proof.
  destruct (ProcSignals.process_stop_calls ToyOS.os Samples.stubborn_process
              "p1" "proc_p1.json" _ 4242
              ltac:(run) ltac:(run) ltac:(run) ltac:(run) ltac:(run))
    as [w' [kv' [H1 [H2 H3]]]].
  destruct H3 as [Htr Hst].
  exists w', kv'. split; [exact H1|]. split; [exact Htr|].
  split; [rewrite H2; apply lookup_insert_eq | exact Hst].
Defined.

(** Stopping p1 twice. *)
Lemma process_stop_twice_witness :
  exists w1 w2,
    Proc.mcp__process_stop ToyOS.os "p1" Samples.alive = (Ok true, w1) /\
    Proc.mcp__process_stop ToyOS.os "p1" w1 = (Ok true, w2).
Proof.
  destruct (ProcSignals.process_stop_twice ToyOS.os Samples.alive "p1" "proc_p1.json"
              _ 4242 ltac:(run) ltac:(run) ltac:(run) ltac:(run) ltac:(run))
    as [w1 [w2 [kv2 [H1 [H2 _]]]]].
  exists w1, w2. split; [exact H1 | exact H2].
Defined.

(** Starting a web server in the empty directory and stopping it. *)
Lemma start_then_stop_witness :
  exists w1 w2 kv,
    Proc.mcp__process_start ToyOS.os "python app.py" "/workspaces/feat" "web" "alice"
      (ToyOS.boot Samples.quiet) = (Ok "id1", w1) /\
    Proc.mcp__process_stop ToyOS.os "id1" w1 = (Ok true, w2) /\
    procs w2 !! "proc_id1.json" = Some (FJson (JObj kv)) /\
    Dict.get "status" kv = Some (JStr "stopped") /\
    Dict.get "pid" kv = Some (JInt 100).
Proof.
  destruct (ProcSignals.start_then_stop ToyOS.os (ToyOS.boot Samples.quiet)
              "python app.py" "/workspaces/feat" "web" "alice" 100
              ltac:(run) ltac:(run) ltac:(lia) ltac:(lia))
    as [w1 [w2 [kv [H1 [_ [_ [H2 [H3 [H4 [_ [_ [_ [_ [_ [H5 _]]]]]]]]]]]]]]].
  exists w1, w2, kv. repeat split; assumption.
Defined.

(** The listing of the two processes, and the listing for their owner. *)
Lemma process_list_owner_filter_witness :
  exists all w',
    Proc.mcp__process_list ToyOS.os None Samples.two_processes = (Ok all, w') /\
    Proc.mcp__process_list ToyOS.os (Some "feat-dashboard") Samples.two_processes
    = (Ok (List.filter (owner_is "feat-dashboard") all), w').
Proof.
  destruct (Proc.mcp__process_list ToyOS.os None Samples.two_processes)
    as [[all|e|] w'] eqn:Hl; [|vm_compute in Hl; discriminate Hl..].
  destruct (ProcOwner.process_list_owner_filter ToyOS.os Samples.two_processes
              all w' Hl) as [_ H].
  exists all, w'. split; [reflexivity|]. apply H. discriminate.
Defined.

(** Deleting message m1, then reading it. *)
Lemma mail_delete_removes_witness :
  exists w',
    Mail.mcp__mail_delete "m1" Samples.one_message = (Ok true, w') /\
    Mail.mcp__mail_read "m1" w' = (Ok (Mail.not_found "m1"), w') /\
    Mail.mcp__mail_delete "m1" w' = (Ok false, w').
Proof.
  destruct (MailDelete.mail_delete_removes Samples.one_message "m1" "msg_m1.json"
              ltac:(run)) as [_ H].
  destruct (H _ ltac:(left; run)) as [H1 [_ [_ [_ [_ [H2 H3]]]]]].
  eexists. split; [exact H1|]. split; [exact H2 | exact H3].
Defined.

(** Sending a message and deleting it: the directory is as before. *)
Lemma send_then_delete_witness :
  exists w1 w2,
    Mail.mcp__mail_send ToyOS.os "alice" ["bob"] "merge" "ready" Samples.one_message
    = (Ok "id1", w1) /\
    Mail.mcp__mail_delete "id1" w1 = (Ok true, w2) /\
    mail w2 = mail Samples.one_message.
Proof.
  destruct (MailDelete.send_then_delete ToyOS.os Samples.one_message
              "alice" ["bob"] "merge" "ready" ltac:(run))
    as [w1 [w2 [H1 [H2 [_ H3]]]]].
  exists w1, w2. split; [exact H1|]. split; [exact H2|].
  apply H3. run.
Defined.

(** Sending a message and reading it. *)
Lemma send_then_read_witness :
  exists w1 w2,
    Mail.mcp__mail_send ToyOS.os "alice" ["bob"] "merge" "ready" Samples.one_message
    = (Ok "id1", w1) /\
    Mail.mcp__mail_read "id1" w1
    = (Ok (JObj [("id", JStr "id1"); ("from", JStr "alice");
                 ("to", JList [JStr "bob"]); ("subject", JStr "merge");
                 ("body", JStr "ready"); ("timestamp", JStr "2024-07-03T10:30:00Z");
                 ("read", JBool true)]), w2).
Proof.
  destruct (MailDelete.send_then_read ToyOS.os Samples.one_message
              "alice" ["bob"] "merge" "ready" ltac:(run))
    as [w1 [w2 [H1 [H2 _]]]].
  exists w1, w2. split; [exact H1 | exact H2].
Defined.

(** Reading the file that is not JSON writes nothing; reading m1
    writes m1. *)
Lemma mail_read_writes_one_file_witness :
  snd (Mail.mcp__mail_read "m1" Samples.one_message) = Samples.one_message \/
  exists kv id,
    fst (Mail.mcp__mail_read "m1" Samples.one_message) = Ok (JObj kv) /\
    Dict.get "read" kv = Some (JBool true) /\
    Dict.get "id" kv = Some (JStr id) /\
    snd (Mail.mcp__mail_read "m1" Samples.one_message)
    = with_mail (insert ("msg_" +:+ id +:+ ".json") (FJson (JObj kv)))
        Samples.one_message.
Proof.
  apply (MailDelete.mail_read_writes_one_file Samples.one_message "m1" _ _
           (surjective_pairing _)).
Defined.

(** Bob's inbox. *)
Lemma inbox_only_addressed_witness :
  exists inbox,
    Mail.mcp__mail_inbox "bob" Samples.one_message = (Ok inbox, Samples.one_message) /\
    Forall (fun s => exists kv,
              loads "msg_" ".json" (mail Samples.one_message) (JObj kv) /\
              py_in "bob" (default (JList []) (Dict.get "to" kv)) = Ok true /\
              py_get "id" s = Ok (default JNull (Dict.get "id" kv)) /\
              py_get "body" s = Ok JNull)
           inbox.
Proof.
  destruct (Mail.mcp__mail_inbox "bob" Samples.one_message)
    as [[inbox|e|] w'] eqn:Hl; [|vm_compute in Hl; discriminate Hl..].
  destruct (MailInbox.inbox_only_addressed Samples.one_message "bob" inbox w' Hl)
    as [-> H].
  exists inbox. split; [reflexivity|].
  eapply List.Forall_impl; [|exact H].
  intros s [kv [id [from [subject [timestamp [H1 [H2 [H3 [_ [_ [_ ->]]]]]]]]]]].
  exists kv. split; [exact H1|]. split; [exact H2|]. rewrite H3. split; reflexivity.
Defined.

(** The list setting of the test suite. *)
Lemma env_list_items_witness :
  Config.env_list "token1,token2, token3 " = ["token1"; "token2"; "token3"] /\
  Forall ConfigSpec.list_item (Config.env_list "token1,token2, token3 ").
Proof.
  split; [run|].
  eapply List.Forall_impl;
    [|apply (ConfigEnv.env_list_items "token1,token2, token3 "); run].
  intros t [H _]. exact H.
Defined.

Lemma extensions_are_items : Forall ConfigSpec.list_item [".py"; ".js"; ".ts"].
Proof. repeat constructor; try discriminate; reflexivity. Qed.

(** Three file extensions, joined and read back. *)
Lemma env_list_join_witness :
  Config.env_list ".py,.js,.ts" = [".py"; ".js"; ".ts"] /\
  Config.env_list (Str.join "," (Config.env_list ".py, .js, .ts "))
  = Config.env_list ".py, .js, .ts ".
Proof.
  exact (ConfigEnv.env_list_join [".py"; ".js"; ".ts"] ".py, .js, .ts "
           ltac:(repeat constructor) ltac:(run) extensions_are_items).
Defined.

(** The defaults of the class validate: a hundred mebibytes. *)
Lemma validated_getters_witness :
  Config.get_max_file_size_bytes ConfigSpec.defaults = 104857600 /\
  1048576 <= Config.get_max_file_size_bytes ConfigSpec.defaults <= 1048576000 /\
  Config.is_development ConfigSpec.defaults = true.
Proof.
  destruct (ConfigEnv.validated_getters ConfigSpec.defaults ltac:(run)) as [H _].
  split; [run|]. split; [exact H | run].
Defined.

Lemma careful_uuid : uuid_without_slash Samples.careful.
Proof.
  intros e. cbn. unfold Samples.careful_uuid4.
  destruct (ToyOS.uuid4 e) as [x s']. cbn.
  destruct (Str.contains "/" x) eqn:H; [reflexivity | exact H].
Qed.

Lemma careful_pids : pids_fit Samples.careful.
Proof.
  intros e command cwd log_file pid. cbn. unfold Samples.careful_popen.
  destruct (ToyOS.popen e command cwd log_file) as [[p|err] s']; cbn;
    [|discriminate].
  destruct (Z.leb_spec (-2147483648) p); cbn; [|discriminate].
  destruct (Z.leb_spec p 2147483647); cbn; [|discriminate].
  intros [= <-]. lia.
Qed.

Lemma empty_server_mail : server_mail (mail (ToyOS.boot Samples.quiet)).
Proof.
  split; [apply ListingFacts.decodable_check; run|].
  intros name j _ H. cbn in H. rewrite lookup_empty in H. discriminate H.
Qed.

Lemma empty_server_procs : server_procs (procs (ToyOS.boot Samples.quiet)).
Proof.
  split; [apply ListingFacts.decodable_check; run|].
  intros name j _ H. cbn in H. rewrite lookup_empty in H. discriminate H.
Qed.

(** From the empty directory: send, read, delete; then the full
    listing returns. *)
Lemma mail_calls_return_witness :
  let w' := mail_run Samples.careful
              [CallSend "alice" ["bob"] "merge" "ready"; CallRead "id1";
               CallDelete "id1"]
              (ToyOS.boot Samples.quiet) in
  returns Mail.mcp__mail_list_all w' /\ server_mail (mail w').
Proof.
  destruct (MailRuns.mail_calls_return Samples.careful (ToyOS.boot Samples.quiet)
              [CallSend "alice" ["bob"] "merge" "ready"; CallRead "id1";
               CallDelete "id1"]
              CallListAll careful_uuid
              ltac:(repeat constructor) ltac:(exact I) empty_server_mail)
    as [H1 [H2 _]].
  split; [exact H1 | exact H2].
Defined.

(** From the empty directory: start, list, stop, restart, clean up;
    then the listing returns. *)
Lemma process_calls_return_witness :
  let w' := process_run Samples.careful
              [CallStart "python app.py" "/workspaces/feat" "web" "alice";
               CallList None; CallStop "id1"; CallRestart "id1"; CallCleanup]
              (ToyOS.boot Samples.quiet) in
  returns (Proc.mcp__process_list Samples.careful None) w' /\
  server_procs (procs w').
Proof.
  destruct (ProcRuns.process_calls_return Samples.careful (ToyOS.boot Samples.quiet)
              [CallStart "python app.py" "/workspaces/feat" "web" "alice";
               CallList None; CallStop "id1"; CallRestart "id1"; CallCleanup]
              (CallList None) careful_uuid careful_pids
              ltac:(repeat constructor) ltac:(exact I) empty_server_procs)
    as [H1 [H2 _]].
  split; [exact H1 | exact H2].
Defined.

(** Starting a web server in the empty directory and listing it. *)
Lemma start_then_list_witness :
  exists w1 w2 entries status,
    Proc.mcp__process_start ToyOS.os "python app.py" "/workspaces/feat" "web" "alice"
      (ToyOS.boot Samples.quiet) = (Ok "id1", w1) /\
    Proc.mcp__process_list ToyOS.os (Some "alice") w1 = (Ok entries, w2) /\
    In (JObj [("id", JStr "id1"); ("name", JStr "web"); ("owner", JStr "alice");
              ("status", JStr status); ("started_at", JStr "2024-07-03T10:30:00Z");
              ("pid", JInt 100)]) entries.
Proof.
  destruct (ProcStartList.start_then_list ToyOS.os (ToyOS.boot Samples.quiet)
              "python app.py" "/workspaces/feat" "web" "alice" 100
              ltac:(run) ltac:(run) ltac:(lia) ltac:(lia) empty_server_procs)
    as [w1 [w2 [entries [mine [status [H1 [_ [H2 [_ [_ [H3 _]]]]]]]]]]].
  exists w1, w2, mine, status. split; [exact H1|]. split; [exact H2 | exact H3].
Defined.

Lemma one_message_server_mail : server_mail (mail Samples.one_message).
Proof.
  split; [apply ListingFacts.decodable_check; run|].
  intros name j _ Hf. simpl in Hf.
  apply lookup_insert_Some in Hf. destruct Hf as [[<- [= <-]] | [_ Hf]].
  - eexists. exists "m1". split; [reflexivity|]. cbn.
    repeat split; eexists; reflexivity.
  - apply lookup_singleton_Some in Hf. destruct Hf as [_ Hf]. discriminate Hf.
Qed.

(** Bob's inbox is the summary of m1; dave's is empty. *)
Lemma inbox_exact_witness :
  exists inbox messages,
    Mail.mcp__mail_inbox "bob" Samples.one_message = (Ok inbox, Samples.one_message) /\
    Forall2 (fun m s => Mail.inbox_summary m = Ok s)
      (List.filter (addressed "bob") messages) inbox.
Proof.
  destruct (MailInboxExact.inbox_exact Samples.one_message "bob"
              one_message_server_mail) as [inbox [messages [H1 [_ [_ H2]]]]].
  exists inbox, messages. split; [exact H1 | exact H2].
Defined.

(** A start in a directory that does not exist. *)
Lemma start_failure_leaves_log_witness :
  exists w1,
    Proc.mcp__process_start ToyOS.os "python app.py" "/nonexistent" "web" "alice"
      (ToyOS.boot Samples.quiet)
    = (Ok "Error starting process: [Errno 2] No such file or directory: '/nonexistent'",
       w1) /\
    procs w1 = ∅ /\
    Proc.mcp__process_logs "id1" 50 w1 = (Ok "", w1).
Proof.
  destruct (ProcStartFailure.start_failure_leaves_log ToyOS.os
              (ToyOS.boot Samples.quiet) "python app.py" "/nonexistent" "web" "alice"
              _ ltac:(run) ltac:(run))
    as [w1 [H1 [_ [H2 [_ [_ [_ [H3 _]]]]]]]].
  exists w1. split; [exact H1|]. split; [exact H2 | apply H3].
Defined.


Lemma two_processes_server_procs : server_procs (procs Samples.two_processes).
Proof.
  split; [apply ListingFacts.decodable_check; run|].
  intros name j _ Hf. simpl in Hf.
  apply lookup_insert_Some in Hf. destruct Hf as [[<- [= <-]] | [_ Hf]].
  - eexists. exists "p1", 4242. split; [reflexivity|]. cbn.
    split; [reflexivity|]. split; [reflexivity|]. split; [reflexivity|].
    split; [reflexivity|]. split; [lia|]. repeat split; eexists; reflexivity.
  - apply lookup_singleton_Some in Hf. destruct Hf as [<- [= <-]].
    eexists. exists "p2", 4250. split; [reflexivity|]. cbn.
    split; [reflexivity|]. split; [reflexivity|]. split; [reflexivity|].
    split; [reflexivity|]. split; [lia|]. repeat split; eexists; reflexivity.
Qed.



(** After a send and a read, the file of the message is the message
    sent, marked read. *)
Lemma messages_sent_or_kept_witness :
  exists f,
    mail (mail_run Samples.careful
            [CallSend "alice" ["bob"] "merge" "ready"; CallRead "id1"]
            (ToyOS.boot Samples.quiet)) !! "msg_id1.json" = Some f /\
    file_origin [CallSend "alice" ["bob"] "merge" "ready"; CallRead "id1"]
      (mail (ToyOS.boot Samples.quiet)) "msg_id1.json" f.
Proof.
  eexists. split; [run|].
  apply (MailImmutable.messages_sent_or_kept Samples.careful
           (ToyOS.boot Samples.quiet)
           [CallSend "alice" ["bob"] "merge" "ready"; CallRead "id1"]
           "msg_id1.json" _ careful_uuid ltac:(repeat constructor)
           empty_server_mail ltac:(run)).
Defined.

(** The listing of the two processes: two entries, two identifiers. *)
Lemma listings_one_entry_per_file_witness :
  exists entries w',
    Proc.mcp__process_list ToyOS.os None Samples.two_processes = (Ok entries, w') /\
    List.NoDup (List.map (py_get "id") entries) /\
    List.length entries = 2%nat.
Proof.
  destruct (ListingUnique.listings_one_entry_per_file ToyOS.os Samples.two_processes)
    as [_ H].
  destruct (H two_processes_server_procs) as [entries [w' [H1 [H2 H3]]]].
  exists entries, w'. split; [exact H1|]. split; [exact H2|].
  eapply eq_trans; [exact H3 | run].
Defined.

End Runs.
